(** * Coyote task-visualization scripts: Formatter and Anomaly Detector

    A shallow embedding of the two stdin filters
    [PrintContextSwitchSummaries.py] (the Formatter) and
    [FindCasesOfParentResuming.py] (the Detector), and the properties of
    their line loops.

    Conventions of the embedding:
    - a Python [str] is a Rocq [string] whose characters are the code
      points U+0000..U+00FF;
    - a Python [int] is a [Z] (the interpreter's optional cap on the number
      of digits of a decimal conversion is not modelled);
    - standard input is the list of the lines still to be read, [input()]
      raising [EOFError] on the empty list;
    - a statement is a function from the interpreter state to the new state
      and an outcome (normal completion, [continue], [break], or a raised
      exception);
    - [while True] is iterated with fuel, and the fuel that suffices is
      proved to be the number of pending lines plus one. *)

From Stdlib Require Import String Ascii List ZArith Lia Bool Arith.
From Stdlib Require Import Decimal DecimalString DecimalPos.
Import ListNotations.

Local Open Scope string_scope.
Local Open Scope Z_scope.

(** ** Python strings *)

Module PyStr.

Definition nl_char : ascii := "010"%char.
Definition nl : string := String nl_char EmptyString.
Definition dquote : ascii := "034"%char.
Definition squote : ascii := "039"%char.
Definition backslash : ascii := "092"%char.

(** [str.isspace] on one character, for the code points below 256:
    U+0009..U+000D, U+001C..U+0020, U+0085 and U+00A0. *)
Definition is_space (c : ascii) : bool :=
  let n := N_of_ascii c in
  ((9 <=? n) && (n <=? 13) || (28 <=? n) && (n <=? 32)
   || (n =? 133) || (n =? 160))%N.

(** [s.split()]: the maximal runs of non-whitespace characters, in order. *)
Fixpoint split (s : string) : list string :=
  match s with
  | EmptyString => []
  | String c s' =>
      if is_space c then split s'
      else
        match s' with
        | EmptyString => [String c EmptyString]
        | String c' _ =>
            if is_space c' then String c EmptyString :: split s'
            else
              match split s' with
              | t :: ts => String c t :: ts
              | [] => [String c EmptyString]
              end
        end
  end.

(** A token: a non-empty string without whitespace. *)
Fixpoint no_space (s : string) : bool :=
  match s with
  | EmptyString => true
  | String c s' => negb (is_space c) && no_space s'
  end.

Definition is_token (s : string) : bool :=
  match s with
  | EmptyString => false
  | String _ _ => no_space s
  end.

(** [s[:-n]] for a positive literal [n]. *)
Definition drop_last (n : nat) (s : string) : string :=
  substring 0 (String.length s - n) s.

Definition is_digit (c : ascii) : bool :=
  let n := N_of_ascii c in ((48 <=? n) && (n <=? 57))%N.

Definition digit_val (c : ascii) : Z := Z.of_N (N_of_ascii c) - 48.

(** The digit part of a decimal literal accepted by [int(str)]: digits,
    with single underscores allowed between two digits. [prev] tells
    whether the previous character was a digit. *)
Fixpoint parse_digits (s : string) (acc : Z) (prev : bool) : option Z :=
  match s with
  | EmptyString => if prev then Some acc else None
  | String c s' =>
      if is_digit c then parse_digits s' (10 * acc + digit_val c) true
      else if Ascii.eqb c "_" then
        (if prev then parse_digits s' acc false else None)
      else None
  end.

(** [int(s)] on a string without whitespace: [None] stands for
    [ValueError]. *)
Definition int_of_str (s : string) : option Z :=
  match s with
  | String "+" s' => parse_digits s' 0 false
  | String "-" s' => option_map Z.opp (parse_digits s' 0 false)
  | _ => parse_digits s 0 false
  end.

(** [str(n)] for an [int]. *)
Definition str_of_int (n : Z) : string :=
  NilEmpty.string_of_int (Z.to_int n).

(** *** [repr] of strings, lists of strings and the registry *)

Definition hex_digit (n : N) : ascii :=
  ascii_of_N (if (n <? 10)%N then 48 + n else 87 + n)%N.

Definition hex_escape (c : ascii) : string :=
  let n := N_of_ascii c in
  String backslash
    (String "x" (String (hex_digit (n / 16)) (String (hex_digit (n mod 16)) EmptyString))).

(** [str.isprintable] on one character below U+0100. *)
Definition is_printable (c : ascii) : bool :=
  let n := N_of_ascii c in
  ((32 <=? n) && (n <=? 126) || (161 <=? n) && negb (n =? 173))%N.

Definition repr_char (q c : ascii) : string :=
  if Ascii.eqb c backslash || Ascii.eqb c q then String backslash (String c EmptyString)
  else if Ascii.eqb c "009" then String backslash "t"
  else if Ascii.eqb c "010" then String backslash "n"
  else if Ascii.eqb c "013" then String backslash "r"
  else if is_printable c then String c EmptyString
  else hex_escape c.

Fixpoint contains (c : ascii) (s : string) : bool :=
  match s with
  | EmptyString => false
  | String c' s' => Ascii.eqb c c' || contains c s'
  end.

Fixpoint repr_chars (q : ascii) (s : string) : string :=
  match s with
  | EmptyString => EmptyString
  | String c s' => repr_char q c ++ repr_chars q s'
  end.

Definition repr_str (s : string) : string :=
  let q := if contains squote s && negb (contains dquote s) then dquote else squote in
  String q (repr_chars q s ++ String q EmptyString).

Fixpoint join (sep : string) (l : list string) : string :=
  match l with
  | [] => EmptyString
  | [x] => x
  | x :: l' => x ++ sep ++ join sep l'
  end.

Definition repr_list (l : list string) : string :=
  "[" ++ join ", " (map repr_str l) ++ "]".

(** The lines a reader gets from a text, one per [input()] call: the
    runs between newline characters, a last unterminated run included. *)
Fixpoint pipe_lines (text : string) : list string :=
  match text with
  | EmptyString => []
  | String c text' =>
      if Ascii.eqb c nl_char then EmptyString :: pipe_lines text'
      else
        match pipe_lines text' with
        | l :: ls => String c l :: ls
        | [] => [String c EmptyString]
        end
  end.

(** A text at which a reader is at the start of a line: the empty text
    or one that ends with a newline. *)
Fixpoint at_line_start (text : string) : bool :=
  match text with
  | EmptyString => true
  | String c EmptyString => Ascii.eqb c nl_char
  | String _ text' => at_line_start text'
  end.

End PyStr.
Import PyStr.

(** ** Statements: state passing with outcomes *)

Inductive exn : Type := EOFError | IndexError | ValueError | KeyError.

Inductive outcome (A : Type) : Type :=
| Done (a : A)
| Continue
| Break
| Raise (e : exn).
Arguments Done {A} a.
Arguments Continue {A}.
Arguments Break {A}.
Arguments Raise {A} e.

Definition M (S A : Type) : Type := S -> S * outcome A.

Section Monad.
Context {S : Type}.

Definition ret {A} (a : A) : M S A := fun s => (s, Done a).

Definition bind {A B} (m : M S A) (k : A -> M S B) : M S B :=
  fun s =>
    match m s with
    | (s', Done a) => k a s'
    | (s', Continue) => (s', Continue)
    | (s', Break) => (s', Break)
    | (s', Raise e) => (s', Raise e)
    end.

Definition raise {A} (e : exn) : M S A := fun s => (s, Raise e).
Definition continue_ {A} : M S A := fun s => (s, Continue).
Definition break_ {A} : M S A := fun s => (s, Break).

Definition gets {A} (f : S -> A) : M S A := fun s => (s, Done (f s)).
Definition modify (f : S -> S) : M S unit := fun s => (f s, Done tt).

(** [try: body / except: handler] with a bare [except]. *)
Definition try_except {A} (body handler : M S A) : M S A :=
  fun s =>
    match body s with
    | (s', Raise _) => handler s'
    | r => r
    end.

(** [l[i]] for a non-negative literal [i]. *)
Definition item (l : list string) (i : nat) : M S string :=
  match nth_error l i with
  | Some x => ret x
  | None => raise IndexError
  end.

(** [int(s)]. *)
Definition int_ (s : string) : M S Z :=
  match int_of_str s with
  | Some n => ret n
  | None => raise ValueError
  end.

(** [while True: body]. [None]: the fuel ran out. An exception that
    escapes the body ends the loop and is propagated. *)
Fixpoint while_true (fuel : nat) (body : M S unit) (s : S)
  : option (S * outcome unit) :=
  match fuel with
  | O => None
  | Datatypes.S fuel' =>
      match body s with
      | (s', Done _) => while_true fuel' body s'
      | (s', Continue) => while_true fuel' body s'
      | (s', Break) => Some (s', Done tt)
      | (s', Raise e) => Some (s', Raise e)
      end
  end.

(** The state after [n] complete passes through the loop body; [None]
    when the loop has ended before. *)
Fixpoint iterate (n : nat) (body : M S unit) (s : S) : option S :=
  match n with
  | O => Some s
  | Datatypes.S n' =>
      match body s with
      | (s', Done _) => iterate n' body s'
      | (s', Continue) => iterate n' body s'
      | _ => None
      end
  end.
End Monad.

Declare Scope stmt_scope.
Delimit Scope stmt_scope with stmt.
Notation "x <- m ;; k" := (bind m (fun x => k))
  (at level 61, m at next level, right associativity) : stmt_scope.
Notation "m ;; k" := (bind m (fun _ => k))
  (at level 61, right associativity) : stmt_scope.
Local Open Scope stmt_scope.

(** ** The Formatter: PrintContextSwitchSummaries.py *)

Module Formatter.

Record state : Type := mkState {
  stdin : list string;   (* lines not read yet *)
  stdout : string;       (* text written so far *)
  count : Z              (* the global [count] *)
}.

Definition init (lines : list string) : state := mkState lines EmptyString 0.

Definition input : M state string :=
  fun s =>
    match stdin s with
    | [] => (s, Raise EOFError)
    | l :: ls => (mkState ls (stdout s) (count s), Done l)
    end.

(** [print(x, end=e)] *)
Definition print_end (x e : string) : M state unit :=
  modify (fun s => mkState (stdin s) (stdout s ++ x ++ e) (count s)).

(** [print(x)], and [print()] as [print_ EmptyString] *)
Definition print_ (x : string) : M state unit := print_end x nl.

Definition incr_count : M state unit :=
  modify (fun s => mkState (stdin s) (stdout s) (count s + 1)).

Definition is_nil {A} (l : list A) : bool :=
  match l with [] => true | _ => false end.

(** The statements of one iteration, inside the [try]. The flag
    [is_continuation] of the script is assigned and never read; it is
    left out. *)
Definition iteration : M state unit :=
  line <- input ;;
  let line_array := split line in
  if negb (is_nil line_array) then
    t0 <- item line_array 0 ;;
    if (t0 =? "<TaskSummaryLog>")%string then
      incr_count ;;
      c <- gets count ;;
      if (c =? 1)%Z then
        print_ "Scheduled: Task(0)" ;;
        print_ EmptyString ;;
        continue_
      else
        t1 <- item line_array 1 ;;
        (if (t1 =? "T-case")%string then
           print_end "     SUMMARY: " EmptyString ;;
           t2 <- item line_array 2 ;;
           if (t2 =? "1.):")%string then
             print_ "No new task added." ;;
             print_ EmptyString ;;
             continue_
           else
             parent_task <- item line_array 11 ;;
             t14 <- item line_array 14 ;;
             parent_task_id <- int_ (drop_last 2 t14) ;;
             new_task <- item line_array 5 ;;
             t8 <- item line_array 8 ;;
             new_task_id <- int_ (drop_last 1 t8) ;;
             t3 <- item line_array 3 ;;
             task_type <-
               (if (t3 =? "Spawn")%string then ret "Spawn"
                else
                  t3' <- item line_array 3 ;;
                  if (t3' =? "Continuation")%string then ret "Continuation"
                  else print_ "error1" ;; ret "continuation") ;;
             print_ (task_type ++ " " ++ new_task ++ " (ID = "
                     ++ str_of_int new_task_id ++ ")" ++ " created by "
                     ++ parent_task ++ " (ID = "
                     ++ str_of_int parent_task_id ++ ")")
         else
           t1' <- item line_array 1 ;;
           if (t1' =? "Scheduled:")%string then
             print_end "CONTEXT_SWITCH: " EmptyString ;;
             task_scheduled <- item line_array 2 ;;
             print_end "Scheduled: " EmptyString ;;
             print_ task_scheduled
           else print_ "error2") ;;
        print_ EmptyString
    else ret tt
  else ret tt.

(** [try: iteration / except: break] *)
Definition body : M state unit := try_except iteration break_.

Definition loop (fuel : nat) : state -> option (state * outcome unit) :=
  while_true fuel body.

(** The whole script on the given input lines. *)
Definition main (lines : list string) : option (state * outcome unit) :=
  loop (Datatypes.S (List.length lines)) (init lines).


(** *** Vocabulary of the statements about the Formatter *)

(** The state in which the loop reaches the line that follows [pre], when
    the input starts with the lines [pre]. *)
Definition reaches (pre rest : list string) : option state :=
  iterate (List.length pre) body (init (pre ++ rest)).

(** A line is recognized when its first token is the marker. *)
Definition recognized (line : string) : bool :=
  match split line with
  | t :: _ => (t =? "<TaskSummaryLog>")%string
  | [] => false
  end.

Definition recognized_count (lines : list string) : Z :=
  Z.of_nat (List.length (filter recognized lines)).

(** The creation text the script builds from its five fields. *)
Definition creation_text (task_type new_task : string) (new_task_id : Z)
    (parent_task : string) (parent_task_id : Z) : string :=
  task_type ++ " " ++ new_task ++ " (ID = " ++ str_of_int new_task_id ++ ")"
  ++ " created by " ++ parent_task ++ " (ID = " ++ str_of_int parent_task_id ++ ")".

(** *** What a recognized line that is not the first one leads to *)

Inductive line_kind : Type :=
| Ignored           (* blank, or first token not the marker *)
| Truncated         (* the marker alone: [line_array[1]] raises *)
| BrokenSummary     (* "T-case" with a fixed position missing or an id not numeric *)
| BrokenScheduled   (* "Scheduled:" without a task *)
| NoNewTask         (* "T-case" with "1.):" *)
| Creation (tag new_task : string) (new_task_id : Z)
           (parent_task : string) (parent_task_id : Z)
| Scheduled (task_scheduled : string)
| Unknown.          (* any other second token *)

Definition kind_of_tokens (line_array : list string) : line_kind :=
  match line_array with
  | [] => Ignored
  | t0 :: _ =>
      if (t0 =? "<TaskSummaryLog>")%string then
        match nth_error line_array 1 with
        | None => Truncated
        | Some t1 =>
            if (t1 =? "T-case")%string then
              match nth_error line_array 2 with
              | None => BrokenSummary
              | Some t2 =>
                  if (t2 =? "1.):")%string then NoNewTask
                  else
                    match nth_error line_array 3, nth_error line_array 5,
                          nth_error line_array 8, nth_error line_array 11,
                          nth_error line_array 14 with
                    | Some t3, Some t5, Some t8, Some t11, Some t14 =>
                        match int_of_str (drop_last 1 t8),
                              int_of_str (drop_last 2 t14) with
                        | Some new_task_id, Some parent_task_id =>
                            Creation t3 t5 new_task_id t11 parent_task_id
                        | _, _ => BrokenSummary
                        end
                    | _, _, _, _, _ => BrokenSummary
                    end
              end
            else if (t1 =? "Scheduled:")%string then
              match nth_error line_array 2 with
              | Some t2 => Scheduled t2
              | None => BrokenScheduled
              end
            else Unknown
        end
      else Ignored
  end.

Definition kind_of (line : string) : line_kind := kind_of_tokens (split line).

(** The text written for a line of each kind. *)
Definition emitted_text (k : line_kind) : string :=
  match k with
  | Ignored | Truncated => EmptyString
  | BrokenSummary => "     SUMMARY: "
  | BrokenScheduled => "CONTEXT_SWITCH: "
  | NoNewTask => "     SUMMARY: No new task added." ++ nl ++ nl
  | Creation tag new_task new_task_id parent_task parent_task_id =>
      "     SUMMARY: "
      ++ (if (tag =? "Spawn")%string || (tag =? "Continuation")%string
          then EmptyString else "error1" ++ nl)
      ++ creation_text
           (if (tag =? "Spawn")%string then "Spawn"
            else if (tag =? "Continuation")%string then "Continuation"
                 else "continuation")
           new_task new_task_id parent_task parent_task_id
      ++ nl ++ nl
  | Scheduled task_scheduled =>
      "CONTEXT_SWITCH: Scheduled: " ++ task_scheduled ++ nl ++ nl
  | Unknown => "error2" ++ nl ++ nl
  end.

(** The kinds on which an exception ends the loop. *)
Definition breaks (k : line_kind) : bool :=
  match k with
  | Truncated | BrokenSummary | BrokenScheduled => true
  | _ => false
  end.

Definition outcome_of (k : line_kind) : outcome unit :=
  match k with
  | Truncated | BrokenSummary | BrokenScheduled => Break
  | NoNewTask => Continue
  | _ => Done tt
  end.

(** The lines a complete iteration gives a reader, by kind. *)
Definition emitted_lines (k : line_kind) : list string :=
  match k with
  | NoNewTask => ["     SUMMARY: No new task added."; EmptyString]
  | Creation tag new_task new_task_id parent_task parent_task_id =>
      if (tag =? "Spawn")%string || (tag =? "Continuation")%string then
        ["     SUMMARY: "
         ++ creation_text tag new_task new_task_id parent_task parent_task_id;
         EmptyString]
      else
        ["     SUMMARY: error1";
         creation_text "continuation" new_task new_task_id
           parent_task parent_task_id;
         EmptyString]
  | Scheduled task_scheduled =>
      ["CONTEXT_SWITCH: Scheduled: " ++ task_scheduled; EmptyString]
  | Unknown => ["error2"; EmptyString]
  | _ => []
  end.

End Formatter.

(** ** The Detector: FindCasesOfParentResuming.py *)

Module Detector.

(** A Python [dict] from [str] to [int]: the items in insertion order,
    every key at most once. *)
Definition dict : Type := list (string * Z).

Fixpoint dict_get (k : string) (d : dict) : option Z :=
  match d with
  | [] => None
  | (k', v) :: d' => if (k' =? k)%string then Some v else dict_get k d'
  end.

(** [d[k] = v]: an existing key keeps its position, a new key goes last. *)
Fixpoint dict_set (k : string) (v : Z) (d : dict) : dict :=
  match d with
  | [] => [(k, v)]
  | (k', v') :: d' =>
      if (k' =? k)%string then (k', v) :: d' else (k', v') :: dict_set k v d'
  end.

Definition repr_dict (d : dict) : string :=
  "{" ++ join ", " (map (fun kv => repr_str (fst kv) ++ ": " ++ str_of_int (snd kv)) d) ++ "}".

(** One constructor for each [print] call of the script. *)
Inductive printed : Type :=
| PLine (line : string)                 (* print(line) *)
| PLineArray (line_array : list string) (* print(line_array) *)
| PParentTask (parent_task : string)    (* print("parent_task: " + parent_task) *)
| PDictLabel                            (* print("parent_task_dic: ", end="") *)
| PDict (d : dict)                      (* print(parent_task_dic) *)
| PScheduledTask (scheduled_task : string) (* print("scheduled_task: " + scheduled_task) *)
| PUnexpected
| PNormal
| PBlank.                               (* print() *)

(** The text each call writes. *)
Definition render (p : printed) : string :=
  match p with
  | PLine line => line ++ nl
  | PLineArray a => repr_list a ++ nl
  | PParentTask t => "parent_task: " ++ t ++ nl
  | PDictLabel => "parent_task_dic: "
  | PDict d => repr_dict d ++ nl
  | PScheduledTask t => "scheduled_task: " ++ t ++ nl
  | PUnexpected =>
      "UNEXPECTED: parent got scheduled after last creation of a spawn and/or continuation task." ++ nl
  | PNormal =>
      "NORMAL: scheduled task is not a previous parent task of an await point" ++ nl
  | PBlank => nl
  end.

Record state : Type := mkState {
  stdin : list string;       (* lines not read yet *)
  stdout : list printed;     (* the [print] calls made so far, oldest first *)
  parent_task_dic : dict
}.

Definition stdout_text (s : state) : string :=
  fold_right (fun p acc => render p ++ acc) EmptyString (stdout s).

Definition init (lines : list string) : state := mkState lines [] [].

Definition input : M state string :=
  fun s =>
    match stdin s with
    | [] => (s, Raise EOFError)
    | l :: ls => (mkState ls (stdout s) (parent_task_dic s), Done l)
    end.

Definition print_ (p : printed) : M state unit :=
  modify (fun s => mkState (stdin s) (stdout s ++ [p]) (parent_task_dic s)).

(** [parent_task_dic[k] = v] *)
Definition dic_assign (k : string) (v : Z) : M state unit :=
  modify (fun s => mkState (stdin s) (stdout s) (dict_set k v (parent_task_dic s))).

(** [parent_task_dic[k]], raising [KeyError] for a missing key *)
Definition dic_lookup (k : string) : M state Z :=
  fun s =>
    match dict_get k (parent_task_dic s) with
    | Some v => (s, Done v)
    | None => (s, Raise KeyError)
    end.

Definition is_nil {A} (l : list A) : bool :=
  match l with [] => true | _ => false end.

(** The statements of one iteration, inside the outer [try]. *)
Definition iteration : M state unit :=
  line <- input ;;
  let line_array := split line in
  print_ (PLine line) ;;
  print_ (PLineArray line_array) ;;
  if negb (is_nil line_array) then
    t0 <- item line_array 0 ;;
    if (t0 =? "SUMMARY:")%string then
      t1 <- item line_array 1 ;;
      if (t1 =? "Continuation")%string || (t1 =? "Spawn")%string then
        parent_task <- item line_array 8 ;;
        dic_assign parent_task 0 ;;
        print_ (PParentTask parent_task) ;;
        print_ PDictLabel ;;
        d <- gets parent_task_dic ;;
        print_ (PDict d)
      else ret tt
    else
      t0' <- item line_array 0 ;;
      if (t0' =? "CONTEXT_SWITCH:")%string then
        scheduled_task <- item line_array 2 ;;
        print_ (PScheduledTask scheduled_task) ;;
        try_except
          (v <- dic_lookup scheduled_task ;;
           dic_assign scheduled_task (v + 1) ;;
           print_ PUnexpected)
          (print_ PNormal)
      else ret tt
  else ret tt.

(** [try: iteration / except: break] *)
Definition body : M state unit := try_except iteration break_.

Definition loop (fuel : nat) : state -> option (state * outcome unit) :=
  while_true fuel body.

(** The statements after the loop. *)
Definition epilogue : M state unit :=
  print_ PBlank ;; print_ PBlank ;; print_ PBlank ;; print_ PBlank ;;
  print_ PBlank ;;
  d <- gets parent_task_dic ;;
  print_ (PDict d).

(** The whole script on the given input lines. *)
Definition main (lines : list string) : option (state * outcome unit) :=
  match loop (S (List.length lines)) (init lines) with
  | Some (s, Done _) => Some (epilogue s)
  | r => r
  end.


(** *** Vocabulary of the statements about the Detector *)

Definition reaches (pre rest : list string) : option state :=
  iterate (List.length pre) body (init (pre ++ rest)).

Definition token (i : nat) (line : string) : option string :=
  nth_error (split line) i.

Definition token_is (i : nat) (line t : string) : bool :=
  match token i line with
  | Some x => (x =? t)%string
  | None => false
  end.

(** A creation line naming [P] as parent: "SUMMARY:" first, then
    "Continuation" or "Spawn", and [P] at index 8. *)
Definition is_creation (P line : string) : bool :=
  token_is 0 line "SUMMARY:"
  && (token_is 1 line "Continuation" || token_is 1 line "Spawn")
  && token_is 8 line P.

(** A scheduling line naming [P]: "CONTEXT_SWITCH:" first, [P] at index 2. *)
Definition is_scheduled (P line : string) : bool :=
  token_is 0 line "CONTEXT_SWITCH:" && token_is 2 line P.

(** The lines that follow the last creation line of [P]; [None] when
    there is no such line. *)
Fixpoint after_last_creation (P : string) (lines : list string)
  : option (list string) :=
  match lines with
  | [] => None
  | l :: ls =>
      match after_last_creation P ls with
      | Some suffix => Some suffix
      | None => if is_creation P l then Some ls else None
      end
  end.

(** The lines that follow the first creation line of [P]. *)
Fixpoint after_first_creation (P : string) (lines : list string)
  : option (list string) :=
  match lines with
  | [] => None
  | l :: ls => if is_creation P l then Some ls else after_first_creation P ls
  end.

Definition scheduled_count (P : string) (lines : list string) : Z :=
  Z.of_nat (List.length (filter (is_scheduled P) lines)).

(** The number of "UNEXPECTED" messages printed for [P]: an "UNEXPECTED"
    is printed for the task named by the "scheduled_task: " print just
    before it. *)
Fixpoint unexpected_for (P : string) (out : list printed) : Z :=
  match out with
  | [] => 0
  | p :: out' =>
      match p, out' with
      | PScheduledTask t, PUnexpected :: _ =>
          (if (t =? P)%string then 1 else 0) + unexpected_for P out'
      | _, _ => unexpected_for P out'
      end
  end.

Definition count_from (o : option (list string)) (P : string) : Z :=
  match o with
  | Some suffix => scheduled_count P suffix
  | None => 0
  end.

(** The registry invariant and the count of "UNEXPECTED" messages, for a
    state reached after reading the lines [h]. *)
Definition tracks (h : list string) (s : state) : Prop :=
  forall P,
    dict_get P (parent_task_dic s) =
      option_map (scheduled_count P) (after_last_creation P h) /\
    unexpected_for P (stdout s) = count_from (after_first_creation P h) P.

(** *** What a line leads to *)

Inductive line_kind : Type :=
| Ignored                          (* only echoed *)
| Malformed                        (* a fixed position is missing *)
| CreationOf (parent_task : string)
| SchedulingOf (scheduled_task : string).

Definition kind_of_tokens (line_array : list string) : line_kind :=
  match line_array with
  | [] => Ignored
  | t0 :: _ =>
      if (t0 =? "SUMMARY:")%string then
        match nth_error line_array 1 with
        | None => Malformed
        | Some t1 =>
            if (t1 =? "Continuation")%string || (t1 =? "Spawn")%string then
              match nth_error line_array 8 with
              | Some parent_task => CreationOf parent_task
              | None => Malformed
              end
            else Ignored
        end
      else if (t0 =? "CONTEXT_SWITCH:")%string then
        match nth_error line_array 2 with
        | Some scheduled_task => SchedulingOf scheduled_task
        | None => Malformed
        end
      else Ignored
  end.

Definition kind_of (line : string) : line_kind := kind_of_tokens (split line).

Definition malformed (line : string) : bool :=
  match kind_of line with
  | Malformed => true
  | _ => false
  end.

(** The lines echoed by [print(line)], oldest first. *)
Fixpoint echoed (out : list printed) : list string :=
  match out with
  | [] => []
  | PLine l :: out' => l :: echoed out'
  | _ :: out' => echoed out'
  end.

(** The number of "NORMAL" messages printed for [P]. *)
Fixpoint normal_for (P : string) (out : list printed) : Z :=
  match out with
  | [] => 0
  | p :: out' =>
      match p, out' with
      | PScheduledTask t, PNormal :: _ =>
          (if (t =? P)%string then 1 else 0) + normal_for P out'
      | _, _ => normal_for P out'
      end
  end.

(** The lines before the first creation line of [P]; all of them when
    there is none. *)
Fixpoint before_first_creation (P : string) (lines : list string)
  : list string :=
  match lines with
  | [] => []
  | l :: ls => if is_creation P l then [] else l :: before_first_creation P ls
  end.

(** The parents named by the creation lines, in order. *)
Fixpoint creation_parents (lines : list string) : list string :=
  match lines with
  | [] => []
  | l :: ls =>
      match kind_of l with
      | CreationOf p => p :: creation_parents ls
      | _ => creation_parents ls
      end
  end.

(** The distinct elements of a list, in the order of their first
    occurrence. *)
Fixpoint distinct (l : list string) : list string :=
  match l with
  | [] => []
  | x :: l' => x :: filter (fun y => negb (x =? y)%string) (distinct l')
  end.

(** The lines that follow the first malformed line. *)
Fixpoint unread (lines : list string) : list string :=
  match lines with
  | [] => []
  | l :: ls => if malformed l then ls else unread ls
  end.

(** The five empty lines and the registry printed after the loop. *)
Definition final_prints (d : dict) : list printed :=
  [PBlank; PBlank; PBlank; PBlank; PBlank; PDict d].

End Detector.

(** ** The Formatter's output read by the Detector *)

Module Pipeline.

(** What the Detector makes of the lines the Formatter emits for a line of
    each kind. *)
Definition detector_kinds (k : Formatter.line_kind) : list Detector.line_kind :=
  match k with
  | Formatter.NoNewTask => [Detector.Ignored; Detector.Ignored]
  | Formatter.Creation tag _ _ parent_task _ =>
      if (tag =? "Spawn")%string || (tag =? "Continuation")%string
      then [Detector.CreationOf parent_task; Detector.Ignored]
      else [Detector.Ignored; Detector.Ignored; Detector.Ignored]
  | Formatter.Scheduled task_scheduled =>
      [Detector.SchedulingOf task_scheduled; Detector.Ignored]
  | Formatter.Unknown => [Detector.Ignored; Detector.Ignored]
  | _ => []
  end.

(** The Detector run on the text the Formatter has written. *)
Definition detect (s : Formatter.state)
  : option (Detector.state * outcome unit) :=
  Detector.main (pipe_lines (Formatter.stdout s)).

End Pipeline.


(** * Properties *)

(** ** The embedding on concrete inputs *)

Example split_ex1 :
  split "  SUMMARY: Spawn  a b " = ["SUMMARY:"; "Spawn"; "a"; "b"].
Proof. reflexivity. Qed.

Example int_ex1 : int_of_str (drop_last 2 "3).") = Some 3.
Proof. reflexivity. Qed.

Example int_ex2 : int_of_str "1__0" = None /\ int_of_str "-1_0" = Some (-10) /\ int_of_str EmptyString = None.
Proof. repeat split. Qed.

Example str_ex1 : str_of_int 0 = "0" /\ str_of_int (-37) = "-37" /\ str_of_int 1204 = "1204".
Proof. repeat split. Qed.

Example repr_ex1 : repr_list ["a'b"; "c"] = String "[" (String dquote ("a'b" ++ String dquote ", 'c']")).
Proof. reflexivity. Qed.

Example formatter_ex1 :
  option_map (fun r => Formatter.stdout (fst r))
    (Formatter.main ["junk"; "<TaskSummaryLog> anything";
                     "<TaskSummaryLog> Scheduled: TaskB";
                     "<TaskSummaryLog> T-case 1.): x";
                     "<TaskSummaryLog> T-case 2.): Spawn x TaskB x x 7, x x TaskA x x 3).";
                     "<TaskSummaryLog> Other" ])
  = Some ("Scheduled: Task(0)" ++ nl ++ nl
          ++ "CONTEXT_SWITCH: Scheduled: TaskB" ++ nl ++ nl
          ++ "     SUMMARY: No new task added." ++ nl ++ nl
          ++ "     SUMMARY: Spawn TaskB (ID = 7) created by TaskA (ID = 3)" ++ nl ++ nl
          ++ "error2" ++ nl ++ nl).
Proof. reflexivity. Qed.

Example detector_ex1 :
  option_map (fun r => (Detector.stdout_text (fst r), Detector.parent_task_dic (fst r)))
    (Detector.main ["SUMMARY: Spawn B (ID = 7) created by A (ID = 3)";
                    "CONTEXT_SWITCH: Scheduled: A"; "CONTEXT_SWITCH: Scheduled: B"])
  = Some ("SUMMARY: Spawn B (ID = 7) created by A (ID = 3)" ++ nl
          ++ "['SUMMARY:', 'Spawn', 'B', '(ID', '=', '7)', 'created', 'by', 'A', '(ID', '=', '3)']" ++ nl
          ++ "parent_task: A" ++ nl ++ "parent_task_dic: {'A': 0}" ++ nl
          ++ "CONTEXT_SWITCH: Scheduled: A" ++ nl
          ++ "['CONTEXT_SWITCH:', 'Scheduled:', 'A']" ++ nl
          ++ "scheduled_task: A" ++ nl
          ++ "UNEXPECTED: parent got scheduled after last creation of a spawn and/or continuation task." ++ nl
          ++ "CONTEXT_SWITCH: Scheduled: B" ++ nl
          ++ "['CONTEXT_SWITCH:', 'Scheduled:', 'B']" ++ nl
          ++ "scheduled_task: B" ++ nl
          ++ "NORMAL: scheduled task is not a previous parent task of an await point" ++ nl
          ++ nl ++ nl ++ nl ++ nl ++ nl ++ "{'A': 1}" ++ nl,
          [("A", 1)]).
Proof. reflexivity. Qed.

(** ** Strings and tokens *)

Section StringFacts.

Lemma append_assoc (a b c : string) : ((a ++ b) ++ c = a ++ (b ++ c))%string.
Proof. induction a as [|x a IH]; simpl; [reflexivity | now rewrite IH]. Qed.

Lemma is_token_no_space (w : string) : is_token w = true -> no_space w = true.
Proof. destruct w; simpl; [discriminate | trivial]. Qed.

Lemma no_space_app (a b : string) :
  no_space (a ++ b) = no_space a && no_space b.
Proof.
  induction a as [|x a IH]; simpl; [reflexivity|].
  now rewrite IH, andb_assoc.
Qed.

Lemma is_token_app (a b : string) :
  is_token a = true -> no_space b = true -> is_token (a ++ b) = true.
Proof.
  destruct a as [|x a]; simpl; [discriminate|].
  intros Ha Hb. rewrite no_space_app.
  apply andb_true_iff in Ha as [Hx Ha]. now rewrite Hx, Ha, Hb.
Qed.

Lemma split_cons_space (c : ascii) (s : string) :
  is_space c = true -> split (String c s) = split s.
Proof. intros H. simpl. now rewrite H. Qed.

Lemma split_cons_boundary (a b : ascii) (w : string) :
  is_space a = false -> is_space b = true ->
  split (String a (String b w)) = String a EmptyString :: split w.
Proof. intros Ha Hb. simpl. now rewrite Ha, Hb. Qed.

Lemma split_cons_nonspace (a b : ascii) (w : string) :
  is_space a = false -> is_space b = false ->
  split (String a (String b w)) =
  match split (String b w) with
  | t :: ts => String a t :: ts
  | [] => [String a EmptyString]
  end.
Proof.
  intros Ha Hb.
  change (split (String a (String b w)))
    with (if is_space a then split (String b w)
          else if is_space b then String a EmptyString :: split (String b w)
               else match split (String b w) with
                    | t :: ts => String a t :: ts
                    | [] => [String a EmptyString]
                    end).
  now rewrite Ha, Hb.
Qed.

(** A token followed by a whitespace character is the first token. *)
Lemma split_token_space (w : string) (c : ascii) (rest : string) :
  is_token w = true -> is_space c = true ->
  split (w ++ String c rest) = w :: split rest.
Proof.
  induction w as [|a w IH]; [discriminate|].
  intros Hw Hc. simpl in Hw. apply andb_true_iff in Hw as [Ha Hw].
  apply negb_true_iff in Ha.
  destruct w as [|b w].
  - simpl. now rewrite Ha, Hc.
  - assert (Hb : is_space b = false).
    { simpl in Hw. apply andb_true_iff in Hw as [Hb _]. now apply negb_true_iff. }
    change ((String a (String b w) ++ String c rest)%string)
      with (String a (String b (w ++ String c rest)%string)).
    rewrite (split_cons_nonspace a b _ Ha Hb).
    change (String b (w ++ String c rest)%string)
      with ((String b w ++ String c rest)%string).
    now rewrite (IH Hw Hc).
Qed.

(** A token alone splits into itself. *)
Lemma split_token (w : string) : is_token w = true -> split w = [w].
Proof.
  induction w as [|a w IH]; [discriminate|].
  intros Hw. simpl in Hw. apply andb_true_iff in Hw as [Ha Hw].
  apply negb_true_iff in Ha.
  destruct w as [|b w].
  - simpl. now rewrite Ha.
  - assert (Hb : is_space b = false).
    { simpl in Hw. apply andb_true_iff in Hw as [Hb _]. now apply negb_true_iff. }
    rewrite (split_cons_nonspace a b _ Ha Hb).
    now rewrite (IH Hw).
Qed.

(** Tokens joined by single blanks split back into the tokens. *)
Lemma split_join (ts : list string) :
  forallb is_token ts = true -> split (join " " ts) = ts.
Proof.
  induction ts as [|t ts IH]; [reflexivity|].
  intros H. simpl in H. apply andb_true_iff in H as [Ht Hts].
  destruct ts as [|u ts].
  - simpl. now apply split_token.
  - change (join " " (t :: u :: ts)) with ((t ++ String " " (join " " (u :: ts)))%string).
    rewrite split_token_space by (trivial || reflexivity).
    now rewrite (IH Hts).
Qed.

(** Every element of a split is a token. *)
Lemma split_tokens (s : string) : forallb is_token (split s) = true.
Proof.
  induction s as [|c s IH]; [reflexivity|].
  destruct (is_space c) eqn:Hc.
  { now rewrite split_cons_space. }
  destruct s as [|c' s]; [cbn; rewrite Hc; cbn; now rewrite Hc|].
  destruct (is_space c') eqn:Hc'.
  - rewrite (split_cons_boundary c c' s Hc Hc').
    rewrite (split_cons_space c' s Hc') in IH.
    cbn [forallb]. rewrite IH. simpl. now rewrite Hc.
  - rewrite (split_cons_nonspace c c' _ Hc Hc').
    destruct (split (String c' s)) as [|t ts] eqn:E.
    + simpl. now rewrite Hc.
    + cbn [forallb] in *. apply andb_true_iff in IH as [Ht Hts].
      rewrite Hts, andb_true_r. simpl. rewrite Hc. simpl.
      now apply is_token_no_space.
Qed.

Lemma nth_error_split_token (s : string) (i : nat) (t : string) :
  nth_error (split s) i = Some t -> is_token t = true.
Proof.
  intros H. apply nth_error_In in H.
  pose proof (split_tokens s) as Hs.
  rewrite forallb_forall in Hs. now apply Hs.
Qed.

Lemma no_space_string_of_uint (d : uint) :
  no_space (NilEmpty.string_of_uint d) = true.
Proof. induction d; simpl; trivial. Qed.

(** [str(n)] is a token. *)
Lemma is_token_str_of_int (n : Z) : is_token (str_of_int n) = true.
Proof.
  unfold str_of_int. destruct n as [|p|p]; [reflexivity| |].
  - simpl. pose proof (Unsigned.to_uint_nonnil p) as Hp.
    pose proof (no_space_string_of_uint (Pos.to_uint p)) as Hn.
    destruct (Pos.to_uint p); try congruence; exact Hn.
  - simpl. apply no_space_string_of_uint.
Qed.

Lemma contains_app (c : ascii) (a b : string) :
  contains c (a ++ b) = contains c a || contains c b.
Proof.
  induction a as [|x a IH]; cbn [append contains]; [reflexivity|].
  now rewrite IH, orb_assoc.
Qed.

Lemma no_space_no_newline (t : string) :
  no_space t = true -> contains nl_char t = false.
Proof.
  induction t as [|c t IH]; cbn [contains no_space]; [reflexivity|].
  intros H. apply andb_true_iff in H as [Hc Ht].
  rewrite (IH Ht), orb_false_r.
  destruct (Ascii.eqb nl_char c) eqn:E; [|reflexivity].
  apply Ascii.eqb_eq in E. subst c. discriminate.
Qed.

(** A text without newline, then a newline: the reader gets it as a line. *)
Lemma pipe_lines_line (l rest : string) :
  contains nl_char l = false ->
  pipe_lines (l ++ String nl_char rest) = l :: pipe_lines rest.
Proof.
  induction l as [|c l IH]; intros H.
  - cbn [append pipe_lines]. now rewrite Ascii.eqb_refl.
  - cbn [contains] in H. apply orb_false_iff in H as [Hc Hl].
    rewrite Ascii.eqb_sym in Hc.
    cbn [append pipe_lines]. rewrite Hc. now rewrite (IH Hl).
Qed.

Lemma at_line_start_nl (a : string) : at_line_start (a ++ nl) = true.
Proof.
  induction a as [|c a IH]; [reflexivity|].
  cbn [append]. destruct a as [|c' a]; [reflexivity|]. exact IH.
Qed.

(** Text appended at the start of a line keeps its own lines. *)
Lemma pipe_lines_app (a b : string) :
  at_line_start a = true -> pipe_lines (a ++ b) = (pipe_lines a ++ pipe_lines b)%list.
Proof.
  induction a as [|c a IH]; intros H; [reflexivity|].
  destruct a as [|c' a].
  - cbn [at_line_start] in H. cbn [append pipe_lines]. rewrite H. reflexivity.
  - specialize (IH H).
    change (pipe_lines (String c (String c' a) ++ b))
      with (if Ascii.eqb c nl_char
            then EmptyString :: pipe_lines (String c' a ++ b)
            else match pipe_lines (String c' a ++ b) with
                 | l :: ls => String c l :: ls
                 | [] => [String c EmptyString]
                 end).
    change (pipe_lines (String c (String c' a)))
      with (if Ascii.eqb c nl_char
            then EmptyString :: pipe_lines (String c' a)
            else match pipe_lines (String c' a) with
                 | l :: ls => String c l :: ls
                 | [] => [String c EmptyString]
                 end).
    rewrite IH. destruct (Ascii.eqb c nl_char); [reflexivity|].
    destruct (pipe_lines (String c' a)) as [|l ls] eqn:E; [|reflexivity].
    exfalso. revert E. clear.
    cbn [pipe_lines]. destruct (Ascii.eqb c' nl_char); [discriminate|].
    destruct (pipe_lines a); discriminate.
Qed.

Lemma split_leading_blanks (x : string) :
  split ("     " ++ x) = split x.
Proof. cbn [append]. now rewrite !split_cons_space by reflexivity. Qed.

End StringFacts.

(** ** Statements that leave an observation of the state unchanged *)

Section Preserves.
Context {S X : Type} (f : S -> X).

Definition preserves {A} (m : M S A) : Prop :=
  forall s, f (fst (m s)) = f s.

Lemma preserves_ret {A} (a : A) : preserves (ret a).
Proof. now intros s. Qed.

Lemma preserves_raise {A} (e : exn) : preserves (@raise S A e).
Proof. now intros s. Qed.

Lemma preserves_continue {A} : preserves (@continue_ S A).
Proof. now intros s. Qed.

Lemma preserves_break {A} : preserves (@break_ S A).
Proof. now intros s. Qed.

Lemma preserves_gets {A} (g : S -> A) : preserves (gets g).
Proof. now intros s. Qed.

Lemma preserves_modify (g : S -> S) :
  (forall s, f (g s) = f s) -> preserves (modify g).
Proof. intros H s. apply H. Qed.

Lemma preserves_bind {A B} (m : M S A) (k : A -> M S B) :
  preserves m -> (forall a, preserves (k a)) -> preserves (bind m k).
Proof.
  intros Hm Hk s. unfold bind. specialize (Hm s).
  destruct (m s) as [s' [a| | |e]]; simpl in *; try assumption.
  now rewrite Hk.
Qed.

Lemma preserves_try_except {A} (m h : M S A) :
  preserves m -> preserves h -> preserves (try_except m h).
Proof.
  intros Hm Hh s. unfold try_except. specialize (Hm s).
  destruct (m s) as [s' [a| | |e]]; simpl in *; try assumption.
  now rewrite Hh.
Qed.

Lemma preserves_item (l : list string) (i : nat) : preserves (item l i).
Proof. unfold item. destruct (nth_error l i); now intros st. Qed.

Lemma preserves_int (x : string) : preserves (int_ x).
Proof. unfold int_. destruct (int_of_str x); now intros st. Qed.
End Preserves.

Ltac preserves_step :=
  first
    [ apply preserves_ret | apply preserves_raise | apply preserves_continue
    | apply preserves_break | apply preserves_gets | apply preserves_item
    | apply preserves_int
    | apply preserves_bind; [ | intro ]
    | apply preserves_try_except
    | apply preserves_modify; intro; reflexivity
    | match goal with
      | |- preserves _ (if ?b then _ else _) => destruct b
      end ].

Ltac preserves_tac := repeat preserves_step.

(** The bare [except: break] turns every exception into the end of the
    loop and changes nothing else. *)
Lemma try_break_state {S : Type} (m : M S unit) (s : S) :
  fst (try_except m break_ s) = fst (m s).
Proof. unfold try_except. now destruct (m s) as [s' [a| | |e]]. Qed.

Lemma try_break_outcome {S : Type} (m : M S unit) (s : S) :
  match snd (try_except m break_ s) with
  | Raise _ => False
  | _ => True
  end.
Proof. unfold try_except. now destruct (m s) as [s' [a| | |e]]. Qed.

(** ** The Formatter's loop *)

Module FormatterFacts.
Import Formatter.

Lemma iteration_eof (s : state) :
  stdin s = [] -> iteration s = (s, Raise EOFError).
Proof.
  intros H. unfold iteration, bind, input. now rewrite H.
Qed.

Lemma fmt_body_eof (s : state) : stdin s = [] -> body s = (s, Break).
Proof.
  intros H. unfold body, try_except. now rewrite iteration_eof.
Qed.

(** One iteration on a pending line: the line is consumed, and [count]
    grows by one exactly on a recognized line. *)
Lemma iteration_line (s : state) (l : string) (ls : list string) :
  stdin s = l :: ls ->
  stdin (fst (iteration s)) = ls /\
  count (fst (iteration s)) = count s + (if recognized l then 1 else 0).
Proof.
  intros H. remember (iteration s) as r eqn:E.
  unfold iteration in E. unfold bind at 1 in E. unfold input in E.
  rewrite H in E. cbv beta iota zeta in E. unfold recognized.
  destruct (split l) as [|t ts]; [subst r; simpl; split; [reflexivity | lia]|].
  cbn [is_nil negb] in E. unfold bind at 1 in E.
  cbn [item nth_error ret] in E. cbv beta iota in E.
  destruct (t =? "<TaskSummaryLog>")%string;
    [|subst r; simpl; split; [reflexivity | lia]].
  unfold bind at 1 in E. cbn [incr_count modify] in E. cbv beta iota in E.
  subst r.
  match goal with
  | |- stdin (fst (?k ?s1)) = _ /\ _ =>
      assert (Hin : preserves stdin k) by preserves_tac;
      assert (Hc : preserves count k) by preserves_tac;
      rewrite (Hin s1), (Hc s1)
  end.
  simpl. split; reflexivity.
Qed.

Lemma fmt_body_line (s : state) (l : string) (ls : list string) :
  stdin s = l :: ls ->
  exists s' o,
    body s = (s', o) /\ stdin s' = ls /\
    count s' = count s + (if recognized l then 1 else 0) /\
    (o = Done tt \/ o = Continue \/ o = Break).
Proof.
  intros H. destruct (iteration_line s l ls H) as [Hin Hc].
  pose proof (try_break_state iteration s) as Hs.
  pose proof (try_break_outcome iteration s) as Ho.
  fold body in Hs, Ho. destruct (body s) as [s' o]. simpl in *.
  exists s', o. rewrite Hs. repeat split; trivial.
  destruct o as [[]| | |e]; tauto.
Qed.

(** The read loop ends as soon as the fuel exceeds the number of pending
    lines. *)
Lemma loop_terminates (fuel : nat) :
  forall s, (List.length (stdin s) < fuel)%nat ->
  exists s', loop fuel s = Some (s', Done tt).
Proof.
  induction fuel as [|fuel IH]; intros s Hlen; [lia|].
  unfold loop. cbn [while_true].
  destruct (stdin s) as [|l ls] eqn:Hin.
  - rewrite (fmt_body_eof s Hin). now exists s.
  - destruct (fmt_body_line s l ls Hin) as (s' & o & Hb & Hin' & _ & Ho).
    rewrite Hb.
    assert (Hlen' : (List.length (stdin s') < fuel)%nat)
      by (rewrite Hin'; simpl in Hlen; lia).
    destruct Ho as [-> | [-> | ->]].
    + apply (IH s' Hlen').
    + apply (IH s' Hlen').
    + now exists s'.
Qed.

Lemma recognized_count_cons (l : string) (ls : list string) :
  recognized_count (l :: ls) = (if recognized l then 1 else 0) + recognized_count ls.
Proof.
  unfold recognized_count. cbn [filter].
  destruct (recognized l); cbn [List.length]; lia.
Qed.

(** After [n] complete iterations, [n] lines have been consumed and
    [count] has grown by the number of recognized lines among them. *)
Lemma iterate_consumes (n : nat) :
  forall s s', iterate n body s = Some s' ->
  exists consumed,
    List.length consumed = n /\ stdin s = (consumed ++ stdin s')%list /\
    count s' = count s + recognized_count consumed.
Proof.
  induction n as [|n IH]; intros s s' H.
  - injection H as <-. exists []. unfold recognized_count. simpl.
    repeat split. lia.
  - cbn [iterate] in H.
    destruct (stdin s) as [|l ls] eqn:Hin.
    + rewrite (fmt_body_eof s Hin) in H. discriminate.
    + destruct (fmt_body_line s l ls Hin) as (s1 & o & Hb & Hin1 & Hc1 & Ho).
      rewrite Hb in H.
      assert (H1 : iterate n body s1 = Some s')
        by (destruct Ho as [-> | [-> | ->]]; (exact H || discriminate)).
      destruct (IH s1 s' H1) as (consumed & Hlen & Happ & Hcount).
      exists (l :: consumed). simpl. rewrite Hlen, <- Happ, Hin1.
      repeat split. rewrite recognized_count_cons. lia.
Qed.

Lemma app_same_length {A} (a b c d : list A) :
  (a ++ b = c ++ d)%list -> List.length a = List.length c -> a = c /\ b = d.
Proof.
  revert c. induction a as [|x a IH]; intros [|y c] H Hl; simpl in *;
    try discriminate; [now split|].
  injection H as -> H. injection Hl as Hl.
  destruct (IH c H Hl) as [-> ->]. now split.
Qed.

Lemma reaches_state (pre rest : list string) (s : state) :
  reaches pre rest = Some s ->
  stdin s = rest /\ count s = recognized_count pre.
Proof.
  unfold reaches. intros H.
  destruct (iterate_consumes _ _ _ H) as (consumed & Hlen & Happ & Hc).
  simpl in Happ, Hc.
  destruct (app_same_length _ _ _ _ Happ (eq_sym Hlen)) as [-> ->].
  now split.
Qed.

(** Symbolic execution of one iteration on a line whose tokens are known. *)
Ltac run_iteration Hin Hsplit Hcount :=
  unfold body, try_except, iteration;
  unfold bind at 1; unfold input; rewrite Hin; cbv beta iota zeta;
  rewrite Hsplit; cbn [is_nil negb];
  unfold bind at 1; cbn [item nth_error ret]; cbv beta iota;
  cbn [String.eqb Ascii.eqb Bool.eqb];
  unfold bind at 1; cbn [incr_count modify]; cbv beta iota;
  unfold bind at 1; cbn [gets count]; cbv beta iota;
  rewrite Hcount.

Ltac normalize_text :=
  repeat (progress (rewrite ?append_assoc; cbn [append nl])).

Lemma not_first (c : Z) : c <> 0 -> (c + 1 =? 1) = false.
Proof. intros H. apply Z.eqb_neq. lia. Qed.

Lemma fmt_body_scheduled (s : state) (line : string) (rest : list string)
    (name : string) (more : list string) :
  stdin s = line :: rest -> count s <> 0 ->
  split line = "<TaskSummaryLog>" :: "Scheduled:" :: name :: more ->
  body s =
  (mkState rest (stdout s ++ "CONTEXT_SWITCH: Scheduled: " ++ name ++ nl ++ nl)
     (count s + 1), Done tt).
Proof.
  intros Hin Hc Hsplit. apply not_first in Hc.
  run_iteration Hin Hsplit Hc.
  cbn. f_equal. f_equal. now normalize_text.
Qed.

Lemma fmt_body_first (s : state) (line : string) (rest toks : list string) :
  stdin s = line :: rest -> count s = 0 ->
  split line = "<TaskSummaryLog>" :: toks ->
  body s =
  (mkState rest (stdout s ++ "Scheduled: Task(0)" ++ nl ++ nl) 1, Continue).
Proof.
  intros Hin Hc Hsplit.
  assert (Hc' : (count s + 1 =? 1) = true) by (rewrite Hc; reflexivity).
  run_iteration Hin Hsplit Hc'.
  cbn. rewrite Hc. f_equal. f_equal. now normalize_text.
Qed.

Lemma fmt_body_no_new_task (s : state) (line : string) (rest more : list string) :
  stdin s = line :: rest -> count s <> 0 ->
  split line = "<TaskSummaryLog>" :: "T-case" :: "1.):" :: more ->
  body s =
  (mkState rest (stdout s ++ "     SUMMARY: No new task added." ++ nl ++ nl)
     (count s + 1), Continue).
Proof.
  intros Hin Hc Hsplit. apply not_first in Hc.
  run_iteration Hin Hsplit Hc.
  cbn. f_equal. f_equal. now normalize_text.
Qed.

Lemma fmt_body_error2 (s : state) (line : string) (rest : list string)
    (t1 : string) (more : list string) :
  stdin s = line :: rest -> count s <> 0 ->
  split line = "<TaskSummaryLog>" :: t1 :: more ->
  t1 <> "T-case" -> t1 <> "Scheduled:" ->
  body s =
  (mkState rest (stdout s ++ "error2" ++ nl ++ nl) (count s + 1), Done tt).
Proof.
  intros Hin Hc Hsplit H1 H2. apply not_first in Hc.
  apply String.eqb_neq in H1, H2.
  run_iteration Hin Hsplit Hc.
  unfold bind at 1. unfold bind at 1. cbn [item nth_error ret]. cbv beta iota.
  rewrite H1. unfold bind at 1. cbn [item nth_error ret]. cbv beta iota.
  rewrite H2. cbn. f_equal. f_equal. now normalize_text.
Qed.

(** A creation payload: fifteen tokens at least, the third one not the
    "no new task" payload, and both ids numeric once their trailing
    characters are dropped. *)
Lemma fmt_body_creation (s : state) (line : string) (rest : list string)
    (t2 t3 t4 new_task t6 t7 t8 t9 t10 parent_task t12 t13 t14 : string)
    (more : list string) (new_task_id parent_task_id : Z) :
  stdin s = line :: rest -> count s <> 0 ->
  split line =
    "<TaskSummaryLog>" :: "T-case" :: t2 :: t3 :: t4 :: new_task :: t6 :: t7
      :: t8 :: t9 :: t10 :: parent_task :: t12 :: t13 :: t14 :: more ->
  t2 <> "1.):" ->
  int_of_str (drop_last 1 t8) = Some new_task_id ->
  int_of_str (drop_last 2 t14) = Some parent_task_id ->
  body s =
  (mkState rest
     (stdout s ++ "     SUMMARY: "
      ++ (if (t3 =? "Spawn")%string || (t3 =? "Continuation")%string
          then EmptyString else "error1" ++ nl)
      ++ creation_text
           (if (t3 =? "Spawn")%string then "Spawn"
            else if (t3 =? "Continuation")%string then "Continuation"
                 else "continuation")
           new_task new_task_id parent_task parent_task_id
      ++ nl ++ nl)
     (count s + 1), Done tt).
Proof.
  intros Hin Hc Hsplit H2 H8 H14. apply not_first in Hc.
  apply String.eqb_neq in H2.
  run_iteration Hin Hsplit Hc.
  unfold bind at 1. unfold bind at 1. cbn [item nth_error ret]. cbv beta iota.
  cbn [String.eqb Ascii.eqb Bool.eqb].
  unfold bind at 1. cbn [print_end modify]. cbv beta iota.
  unfold bind at 1. cbn [item nth_error ret]. cbv beta iota.
  rewrite H2.
  unfold bind at 1. cbn [item nth_error ret]. cbv beta iota.
  unfold bind at 1. cbn [item nth_error ret]. cbv beta iota.
  unfold bind at 1. unfold int_ at 1. rewrite H14. cbn [ret]. cbv beta iota.
  unfold bind at 1. cbn [item nth_error ret]. cbv beta iota.
  unfold bind at 1. cbn [item nth_error ret]. cbv beta iota.
  unfold bind at 1. unfold int_ at 1. rewrite H8. cbn [ret]. cbv beta iota.
  unfold bind at 1. cbn [item nth_error ret]. cbv beta iota.
  unfold creation_text.
  destruct (t3 =? "Spawn")%string.
  - cbn. f_equal. f_equal. now normalize_text.
  - cbn [orb]. unfold bind at 1. unfold bind at 1.
    cbn [item nth_error ret]. cbv beta iota.
    destruct (t3 =? "Continuation")%string.
    + cbn. f_equal. f_equal. now normalize_text.
    + cbn. f_equal. f_equal. now normalize_text.
Qed.

Lemma fmt_body_creation_typed (s : state) (line : string) (rest : list string)
    (t2 ty t4 new_task t6 t7 t8 t9 t10 parent_task t12 t13 t14 : string)
    (more : list string) (new_task_id parent_task_id : Z) :
  stdin s = line :: rest -> count s <> 0 ->
  split line =
    "<TaskSummaryLog>" :: "T-case" :: t2 :: ty :: t4 :: new_task :: t6 :: t7
      :: t8 :: t9 :: t10 :: parent_task :: t12 :: t13 :: t14 :: more ->
  t2 <> "1.):" ->
  ty = "Spawn" \/ ty = "Continuation" ->
  int_of_str (drop_last 1 t8) = Some new_task_id ->
  int_of_str (drop_last 2 t14) = Some parent_task_id ->
  body s =
  (mkState rest
     (stdout s ++ "     SUMMARY: "
      ++ creation_text ty new_task new_task_id parent_task parent_task_id
      ++ nl ++ nl)
     (count s + 1), Done tt).
Proof.
  intros Hin Hc Hsplit H2 Hty H8 H14.
  rewrite (fmt_body_creation s line rest _ _ _ _ _ _ _ _ _ _ _ _ _ _ _ _
             Hin Hc Hsplit H2 H8 H14).
  destruct Hty as [-> | ->]; reflexivity.
Qed.

Lemma fmt_body_creation_error1 (s : state) (line : string) (rest : list string)
    (t2 ty t4 new_task t6 t7 t8 t9 t10 parent_task t12 t13 t14 : string)
    (more : list string) (new_task_id parent_task_id : Z) :
  stdin s = line :: rest -> count s <> 0 ->
  split line =
    "<TaskSummaryLog>" :: "T-case" :: t2 :: ty :: t4 :: new_task :: t6 :: t7
      :: t8 :: t9 :: t10 :: parent_task :: t12 :: t13 :: t14 :: more ->
  t2 <> "1.):" ->
  ty <> "Spawn" -> ty <> "Continuation" ->
  int_of_str (drop_last 1 t8) = Some new_task_id ->
  int_of_str (drop_last 2 t14) = Some parent_task_id ->
  body s =
  (mkState rest
     (stdout s ++ "     SUMMARY: error1" ++ nl
      ++ creation_text "continuation" new_task new_task_id
           parent_task parent_task_id
      ++ nl ++ nl)
     (count s + 1), Done tt).
Proof.
  intros Hin Hc Hsplit H2 Hs Hk H8 H14.
  rewrite (fmt_body_creation s line rest _ _ _ _ _ _ _ _ _ _ _ _ _ _ _ _
             Hin Hc Hsplit H2 H8 H14).
  apply String.eqb_neq in Hs, Hk. rewrite Hs, Hk. reflexivity.
Qed.

(** The tokens of an emitted creation line. *)
Lemma split_creation_text (task_type new_task : string) (new_task_id : Z)
    (parent_task : string) (parent_task_id : Z) :
  is_token task_type = true -> is_token new_task = true ->
  is_token parent_task = true ->
  split ("     SUMMARY: "
         ++ creation_text task_type new_task new_task_id
              parent_task parent_task_id) =
  ["SUMMARY:"; task_type; new_task; "(ID"; "=";
   str_of_int new_task_id ++ ")"; "created"; "by"; parent_task; "(ID"; "=";
   str_of_int parent_task_id ++ ")"].
Proof.
  intros Hty Hnew Hpar.
  assert (E : "     SUMMARY: "
              ++ creation_text task_type new_task new_task_id
                   parent_task parent_task_id
              = "     "
                ++ join " " ["SUMMARY:"; task_type; new_task; "(ID"; "=";
                             str_of_int new_task_id ++ ")"; "created"; "by";
                             parent_task; "(ID"; "=";
                             str_of_int parent_task_id ++ ")"]).
  { unfold creation_text. cbn [join]. now normalize_text. }
  rewrite E, split_leading_blanks. apply split_join.
  cbn [forallb]. rewrite Hty, Hnew, Hpar.
  rewrite !is_token_app by (apply is_token_str_of_int || reflexivity).
  reflexivity.
Qed.

Lemma creation_text_no_newline (task_type new_task : string) (new_task_id : Z)
    (parent_task : string) (parent_task_id : Z) :
  is_token task_type = true -> is_token new_task = true ->
  is_token parent_task = true ->
  contains nl_char
    (creation_text task_type new_task new_task_id parent_task parent_task_id)
  = false.
Proof.
  intros Hty Hnew Hpar. unfold creation_text.
  rewrite !contains_app.
  rewrite (no_space_no_newline task_type), (no_space_no_newline new_task),
    (no_space_no_newline parent_task),
    (no_space_no_newline (str_of_int new_task_id)),
    (no_space_no_newline (str_of_int parent_task_id))
    by (apply is_token_no_space; (assumption || apply is_token_str_of_int)).
  reflexivity.
Qed.

Lemma creation_text_one_line (task_type new_task : string) (new_task_id : Z)
    (parent_task : string) (parent_task_id : Z) :
  is_token task_type = true -> is_token new_task = true ->
  is_token parent_task = true ->
  contains nl_char
    ("     SUMMARY: "
     ++ creation_text task_type new_task new_task_id
          parent_task parent_task_id) = false.
Proof.
  intros Hty Hnew Hpar.
  now rewrite contains_app, creation_text_no_newline.
Qed.



Ltac fmt_step H :=
  cbn [is_nil negb ret raise incr_count modify gets print_ print_end
       continue_ break_ stdin stdout count] in H.

Ltac fmt_leaf H Hs :=
  injection H as <- <-;
  first [ congruence | exact Hs
        | cbn [stdout]; apply at_line_start_nl
        | cbn [stdout]; rewrite <- append_assoc; apply at_line_start_nl ].

Ltac fmt_item n H Hs :=
  destruct n; fmt_step H; [|fmt_leaf H Hs].

(** A complete iteration leaves the output at the start of a line. *)
Lemma body_line_start (s s' : state) (o : outcome unit) :
  at_line_start (stdout s) = true ->
  body s = (s', o) -> o <> Break ->
  at_line_start (stdout s') = true.
Proof.
  intros Hs Hb Ho. destruct s as [i out c]. cbn [stdout] in Hs.
  unfold body, try_except, iteration, bind, input in Hb. cbn [stdin] in Hb.
  destruct i as [|l ls]; [fmt_leaf Hb Hs|].
  cbv beta iota zeta in Hb.
  destruct (split l) as [|t0 ts]; [fmt_leaf Hb Hs|].
  unfold item, int_ in Hb. change (nth_error (t0 :: ts) 0) with (Some t0) in Hb.
  revert Hb.
  generalize (nth_error (t0 :: ts) 1), (nth_error (t0 :: ts) 2),
    (nth_error (t0 :: ts) 3), (nth_error (t0 :: ts) 5),
    (nth_error (t0 :: ts) 8), (nth_error (t0 :: ts) 11),
    (nth_error (t0 :: ts) 14).
  intros n1 n2 n3 n5 n8 n11 n14 Hb. fmt_step Hb.
  destruct (t0 =? "<TaskSummaryLog>")%string; fmt_step Hb; [|fmt_leaf Hb Hs].
  destruct (c + 1 =? 1); fmt_step Hb; [fmt_leaf Hb Hs|].
  fmt_item n1 Hb Hs.
  destruct (_ =? "T-case")%string; fmt_step Hb.
  - fmt_item n2 Hb Hs.
    destruct (_ =? "1.):")%string; fmt_step Hb; [fmt_leaf Hb Hs|].
    fmt_item n11 Hb Hs. fmt_item n14 Hb Hs.
    destruct (int_of_str (drop_last 2 _)); fmt_step Hb; [|fmt_leaf Hb Hs].
    fmt_item n5 Hb Hs. fmt_item n8 Hb Hs.
    destruct (int_of_str (drop_last 1 _)); fmt_step Hb; [|fmt_leaf Hb Hs].
    fmt_item n3 Hb Hs.
    destruct (_ =? "Spawn")%string; fmt_step Hb; [fmt_leaf Hb Hs|].
    destruct (_ =? "Continuation")%string; fmt_step Hb; fmt_leaf Hb Hs.
  - destruct (_ =? "Scheduled:")%string; fmt_step Hb; [|fmt_leaf Hb Hs].
    fmt_item n2 Hb Hs. fmt_leaf Hb Hs.
Qed.

(** Every state the loop reaches has its output at the start of a line. *)
Lemma iterate_line_start (n : nat) :
  forall s s', iterate n body s = Some s' ->
  at_line_start (stdout s) = true -> at_line_start (stdout s') = true.
Proof.
  induction n as [|n IH]; intros s s' H Hs.
  - now injection H as <-.
  - cbn [iterate] in H.
    destruct (body s) as [s1 o] eqn:Hb.
    assert (Hs1 : at_line_start (stdout s1) = true).
    { apply (body_line_start s s1 o Hs Hb). intros ->. discriminate. }
    destruct o as [[]| | |e]; try discriminate; now apply (IH s1).
Qed.

Lemma reaches_line_start (pre rest : list string) (s : state) :
  reaches pre rest = Some s -> at_line_start (stdout s) = true.
Proof.
  intros H. now apply (iterate_line_start _ _ _ H).
Qed.

(** Text without a newline, printed with its newline and followed by
    [print()], reaches a reader as that line and an empty line. *)
Lemma emits_line (pre rest : list string) (s : state) (l : string) :
  reaches pre rest = Some s -> contains nl_char l = false ->
  pipe_lines (stdout s ++ l ++ nl ++ nl) =
  (pipe_lines (stdout s) ++ [l; EmptyString])%list.
Proof.
  intros Hr Hl. rewrite pipe_lines_app by exact (reaches_line_start _ _ _ Hr).
  change (nl ++ nl) with (String nl_char nl).
  now rewrite pipe_lines_line.
Qed.


End FormatterFacts.

(** ** The Detector's registry and loop *)

Module DetectorFacts.
Import Detector.

Lemma dict_get_set (k k' : string) (v : Z) (d : dict) :
  dict_get k' (dict_set k v d) =
  if (k =? k')%string then Some v else dict_get k' d.
Proof.
  induction d as [|[k0 v0] d IH]; simpl.
  - destruct (String.eqb_spec k k'); reflexivity.
  - destruct (String.eqb_spec k0 k) as [->|Hk0]; simpl.
    + destruct (String.eqb_spec k k'); reflexivity.
    + rewrite IH. destruct (String.eqb_spec k0 k') as [->|Hk0'].
      * destruct (String.eqb_spec k k'); [congruence | reflexivity].
      * reflexivity.
Qed.

(** A print that is not "UNEXPECTED" starts a fresh count. *)
Lemma unexpected_for_app (P : string) (out : list printed) (p : printed)
    (block : list printed) :
  p <> PUnexpected ->
  unexpected_for P (out ++ p :: block) =
  unexpected_for P out + unexpected_for P (p :: block).
Proof.
  intros Hp. induction out as [|q out IH].
  - cbn [List.app]. simpl (unexpected_for P []). lia.
  - destruct out as [|q' out].
    + cbn [List.app].
      change (unexpected_for P (q :: p :: block))
        with (match q, p :: block with
              | PScheduledTask t, PUnexpected :: _ =>
                  (if (t =? P)%string then 1 else 0) + unexpected_for P (p :: block)
              | _, _ => unexpected_for P (p :: block)
              end).
      destruct q, p; try congruence; simpl; lia.
    + change (unexpected_for P ((q :: q' :: out) ++ p :: block))
        with (match q, q' :: (out ++ p :: block)%list with
              | PScheduledTask t, PUnexpected :: _ =>
                  (if (t =? P)%string then 1 else 0)
                  + unexpected_for P ((q' :: out) ++ p :: block)
              | _, _ => unexpected_for P ((q' :: out) ++ p :: block)
              end).
      change (unexpected_for P (q :: q' :: out))
        with (match q, q' :: out with
              | PScheduledTask t, PUnexpected :: _ =>
                  (if (t =? P)%string then 1 else 0)
                  + unexpected_for P (q' :: out)
              | _, _ => unexpected_for P (q' :: out)
              end).
      rewrite IH. destruct q, q'; lia.
Qed.

Lemma creation_not_scheduled (P Q line : string) :
  is_creation P line = true -> is_scheduled Q line = false.
Proof.
  unfold is_creation, is_scheduled, token_is, token.
  destruct (split line) as [|t ts]; simpl; [discriminate|].
  destruct (String.eqb_spec t "SUMMARY:") as [->|]; simpl; [|discriminate].
  reflexivity.
Qed.

Ltac count_unexpected :=
  rewrite <- ?app_assoc; cbn [List.app];
  rewrite unexpected_for_app by discriminate;
  cbn [unexpected_for]; rewrite ?String.eqb_refl; try lia.

Ltac close_step :=
  split; [auto|]; split; [reflexivity|]; split; intros P;
  [try reflexivity | try count_unexpected].

Lemma det_body_eof (s : state) : stdin s = [] -> body s = (s, Break).
Proof.
  intros H. unfold body, try_except, iteration, bind, input. now rewrite H.
Qed.

(** One iteration on a pending line, told in the vocabulary of creation
    and scheduling lines. *)
Lemma det_body_line (s : state) (l : string) (ls : list string) :
  stdin s = l :: ls ->
  exists s' o,
    body s = (s', o) /\ (o = Done tt \/ o = Break) /\ stdin s' = ls /\
    (forall P,
       dict_get P (parent_task_dic s') =
       if is_creation P l then Some 0
       else if is_scheduled P l
            then option_map (fun v => v + 1) (dict_get P (parent_task_dic s))
            else dict_get P (parent_task_dic s)) /\
    (forall P,
       unexpected_for P (stdout s') =
       unexpected_for P (stdout s) +
       (if is_scheduled P l
        then match dict_get P (parent_task_dic s) with
             | Some _ => 1
             | None => 0
             end
        else 0)).
Proof.
  intros H. destruct s as [i out d]. cbn in H. subst i.
  unfold is_creation, is_scheduled, token_is, token.
  unfold body, try_except, iteration, bind, input, print_, modify.
  cbn [stdin stdout parent_task_dic].
  destruct (split l) as [|t0 ts].
  { cbn. do 2 eexists. split; [reflexivity|]. cbn. close_step. }
  unfold item. change (nth_error (t0 :: ts) 0) with (Some t0).
  generalize (nth_error (t0 :: ts) 1), (nth_error (t0 :: ts) 2),
    (nth_error (t0 :: ts) 8).
  intros n1 n2 n8. cbn.
  destruct (String.eqb_spec t0 "SUMMARY:") as [->|Hsum]; cbn.
  - destruct n1 as [t1|]; cbn.
    + destruct ((t1 =? "Continuation")%string || (t1 =? "Spawn")%string); cbn.
      * destruct n8 as [p|]; cbn.
        -- do 2 eexists. split; [reflexivity|]. cbn. close_step.
           apply dict_get_set.
        -- do 2 eexists. split; [reflexivity|]. cbn. close_step.
      * do 2 eexists. split; [reflexivity|]. cbn. close_step.
    + do 2 eexists. split; [reflexivity|]. cbn. close_step.
  - destruct (t0 =? "CONTEXT_SWITCH:")%string; cbn.
    + destruct n2 as [name|]; cbn.
      * unfold try_except, dic_lookup. cbn.
        destruct (dict_get name d) as [v|] eqn:Hget; cbn.
        -- do 2 eexists. split; [reflexivity|]. cbn. close_step.
           ++ rewrite dict_get_set.
              destruct (String.eqb_spec name P) as [->|]; [|reflexivity].
              now rewrite Hget.
           ++ destruct (String.eqb_spec name P) as [->|]; [|lia].
              rewrite Hget. lia.
        -- do 2 eexists. split; [reflexivity|]. cbn. close_step.
           ++ destruct (String.eqb_spec name P) as [->|]; [|reflexivity].
              now rewrite Hget.
           ++ destruct (String.eqb_spec name P) as [->|]; [|lia].
              rewrite Hget. lia.
      * do 2 eexists. split; [reflexivity|]. cbn. close_step.
    + do 2 eexists. split; [reflexivity|]. cbn. close_step.
Qed.

(** *** Histories *)

Lemma scheduled_count_snoc (P : string) (h : list string) (l : string) :
  scheduled_count P (h ++ [l]) =
  scheduled_count P h + (if is_scheduled P l then 1 else 0).
Proof.
  unfold scheduled_count. rewrite filter_app, length_app. cbn [filter].
  destruct (is_scheduled P l); cbn [List.length]; lia.
Qed.

Lemma after_last_creation_snoc (P : string) (h : list string) (l : string) :
  after_last_creation P (h ++ [l]) =
  if is_creation P l then Some []
  else option_map (fun suffix => suffix ++ [l])%list (after_last_creation P h).
Proof.
  induction h as [|x h IH]; cbn [List.app after_last_creation].
  - now destruct (is_creation P l).
  - rewrite IH. destruct (is_creation P l); [reflexivity|].
    destruct (after_last_creation P h); cbn [option_map]; [reflexivity|].
    now destruct (is_creation P x).
Qed.

Lemma after_first_creation_snoc (P : string) (h : list string) (l : string) :
  after_first_creation P (h ++ [l]) =
  match after_first_creation P h with
  | Some suffix => Some (suffix ++ [l])%list
  | None => if is_creation P l then Some [] else None
  end.
Proof.
  induction h as [|x h IH]; cbn [List.app after_first_creation].
  - reflexivity.
  - now destruct (is_creation P x).
Qed.

(** A task has a last creation line exactly when it has a first one. *)
Lemma after_last_first (P : string) (h : list string) :
  after_last_creation P h = None <-> after_first_creation P h = None.
Proof.
  induction h as [|x h IH]; cbn [after_last_creation after_first_creation].
  - tauto.
  - destruct (after_last_creation P h), (is_creation P x);
      intuition discriminate.
Qed.

Lemma tracks_init (lines : list string) : tracks [] (init lines).
Proof. intros P. now split. Qed.

Lemma tracks_step (h : list string) (s s' : state) (l : string)
    (ls : list string) (o : outcome unit) :
  tracks h s -> stdin s = l :: ls -> body s = (s', o) ->
  tracks (h ++ [l]) s'.
Proof.
  intros Hinv Hin Hb P.
  destruct (det_body_line s l ls Hin) as (s1 & o1 & Hb1 & _ & _ & Hd & Hu).
  rewrite Hb in Hb1. injection Hb1 as <- <-.
  destruct (Hinv P) as [HdP HuP].
  rewrite (Hd P), (Hu P), HdP, HuP.
  rewrite after_last_creation_snoc, after_first_creation_snoc.
  destruct (is_creation P l) eqn:Hc.
  - rewrite (creation_not_scheduled P P l Hc).
    destruct (after_first_creation P h) as [suffix|]; cbn.
    + rewrite scheduled_count_snoc, (creation_not_scheduled P P l Hc).
      split; [reflexivity | lia].
    + split; [reflexivity | lia].
  - pose proof (after_last_first P h) as Hlf.
    destruct (after_last_creation P h) as [suffix|];
      destruct (after_first_creation P h) as [suffix'|]; cbn;
      try (exfalso; destruct Hlf as [H1 H2];
           (discriminate (H1 eq_refl) || discriminate (H2 eq_refl))).
    + rewrite !scheduled_count_snoc.
      destruct (is_scheduled P l); cbn; split;
        (reflexivity || lia || (f_equal; lia)).
    + destruct (is_scheduled P l); cbn; split; (reflexivity || lia).
Qed.

Lemma loop_tracks (fuel : nat) :
  forall s h, tracks h s -> (List.length (stdin s) < fuel)%nat ->
  exists s' consumed,
    loop fuel s = Some (s', Done tt) /\
    stdin s = (consumed ++ stdin s')%list /\ tracks (h ++ consumed) s'.
Proof.
  induction fuel as [|fuel IH]; intros s h Hinv Hlen; [lia|].
  unfold loop. cbn [while_true].
  destruct (stdin s) as [|l ls] eqn:Hin.
  - rewrite (det_body_eof s Hin). exists s, []. rewrite app_nil_r.
    cbn [List.app]. rewrite Hin. split; [reflexivity|]. split; [reflexivity | exact Hinv].
  - destruct (det_body_line s l ls Hin) as (s1 & o & Hb & Ho & Hin1 & _).
    pose proof (tracks_step h s s1 l ls o Hinv Hin Hb) as Hinv1.
    rewrite Hb. destruct Ho as [-> | ->].
    + assert (Hlen1 : (List.length (stdin s1) < fuel)%nat)
        by (rewrite Hin1; simpl in Hlen; lia).
      destruct (IH s1 _ Hinv1 Hlen1) as (s' & consumed & Hl & Happ & Ht).
      exists s', (l :: consumed). split; [exact Hl|]. split.
      * cbn [List.app]. now rewrite <- Happ, Hin1.
      * now rewrite <- app_assoc in Ht.
    + exists s1, [l]. split; [reflexivity|]. split; [now rewrite Hin1 | exact Hinv1].
Qed.

Lemma iterate_tracks (n : nat) :
  forall s s1 h, iterate n body s = Some s1 -> tracks h s ->
  exists consumed,
    List.length consumed = n /\
    stdin s = (consumed ++ stdin s1)%list /\ tracks (h ++ consumed) s1.
Proof.
  induction n as [|n IH]; intros s s1 h H Hinv.
  - injection H as <-. exists []. rewrite app_nil_r.
    split; [reflexivity|]. split; [reflexivity | exact Hinv].
  - cbn [iterate] in H.
    destruct (stdin s) as [|l ls] eqn:Hin.
    + rewrite (det_body_eof s Hin) in H. discriminate.
    + destruct (det_body_line s l ls Hin) as (s2 & o & Hb & Ho & Hin2 & _).
      pose proof (tracks_step h s s2 l ls o Hinv Hin Hb) as Hinv2.
      rewrite Hb in H. destruct Ho as [-> | ->]; [|discriminate].
      destruct (IH s2 s1 _ H Hinv2) as (consumed & Hlen & Happ & Ht).
      exists (l :: consumed). cbn [List.length List.app].
      rewrite Hlen, <- Happ, Hin2. split; [reflexivity|]. split; [reflexivity|].
      now rewrite <- app_assoc in Ht.
Qed.

Lemma reaches_tracks (pre rest : list string) (s : state) :
  reaches pre rest = Some s -> stdin s = rest /\ tracks pre s.
Proof.
  unfold reaches. intros H.
  destruct (iterate_tracks _ _ _ [] H (tracks_init _))
    as (consumed & Hlen & Happ & Ht).
  cbn [init stdin] in Happ.
  destruct (FormatterFacts.app_same_length _ _ _ _ Happ (eq_sym Hlen)) as [-> ->].
  now split.
Qed.

(** The statements after the loop print no "UNEXPECTED" and leave the
    registry alone. *)
Lemma epilogue_spec (s : state) :
  exists out,
    epilogue s = (mkState (stdin s) out (parent_task_dic s), Done tt) /\
    forall P, unexpected_for P out = unexpected_for P (stdout s).
Proof.
  eexists. split; [reflexivity|]. intros P. cbn [stdout].
  rewrite <- !app_assoc. cbn [List.app].
  rewrite unexpected_for_app by discriminate.
  cbn [unexpected_for]. lia.
Qed.

(** *** Iterations on lines whose tokens are known *)

Lemma det_body_scheduled (s : state) (line : string) (rest : list string)
    (t1 name : string) (more : list string) :
  stdin s = line :: rest ->
  split line = "CONTEXT_SWITCH:" :: t1 :: name :: more ->
  body s =
  match dict_get name (parent_task_dic s) with
  | Some v =>
      (mkState rest
         (stdout s ++ [PLine line; PLineArray (split line);
                       PScheduledTask name; PUnexpected])
         (dict_set name (v + 1) (parent_task_dic s)), Done tt)
  | None =>
      (mkState rest
         (stdout s ++ [PLine line; PLineArray (split line);
                       PScheduledTask name; PNormal])
         (parent_task_dic s), Done tt)
  end.
Proof.
  intros Hin Hsplit. destruct s as [i out d]. cbn in Hin. subst i.
  unfold body, try_except, iteration, bind, input, print_, modify.
  cbn [stdin stdout parent_task_dic]. rewrite Hsplit. cbn.
  unfold try_except, dic_lookup. cbn.
  destruct (dict_get name d) as [v|]; cbn;
    rewrite <- !app_assoc; reflexivity.
Qed.


Lemma is_scheduled_tokens (P line : string) :
  is_scheduled P line = true ->
  exists t1 more, split line = "CONTEXT_SWITCH:" :: t1 :: P :: more.
Proof.
  unfold is_scheduled, token_is, token.
  destruct (split line) as [|t0 [|t1 [|t2 more]]]; cbn;
    rewrite ?andb_false_r; try discriminate.
  intros H. apply andb_true_iff in H as [H0 H2].
  apply String.eqb_eq in H0, H2. subst. now exists t1, more.
Qed.

(** With no scheduling line of [P] pending, a zero counter stays zero and
    no "UNEXPECTED" is printed for [P] until the loop ends. *)
Lemma loop_quiet (P : string) (fuel : nat) :
  forall s,
    (forall l, In l (stdin s) -> is_scheduled P l = false) ->
    dict_get P (parent_task_dic s) = Some 0 ->
    (List.length (stdin s) < fuel)%nat ->
    exists s',
      loop fuel s = Some (s', Done tt) /\
      dict_get P (parent_task_dic s') = Some 0 /\
      unexpected_for P (stdout s') = unexpected_for P (stdout s).
Proof.
  induction fuel as [|fuel IH]; intros s Hq Hd Hlen; [lia|].
  unfold loop. cbn [while_true].
  destruct (stdin s) as [|l ls] eqn:Hin.
  - rewrite (det_body_eof s Hin). now exists s.
  - destruct (det_body_line s l ls Hin) as (s1 & o & Hb & Ho & Hin1 & Hd1 & Hu1).
    specialize (Hd1 P). specialize (Hu1 P).
    rewrite (Hq l (or_introl eq_refl)) in Hd1, Hu1.
    assert (Hd1' : dict_get P (parent_task_dic s1) = Some 0)
      by (rewrite Hd1; now destruct (is_creation P l)).
    rewrite Z.add_0_r in Hu1.
    rewrite Hb. destruct Ho as [-> | ->].
    + destruct (IH s1) as (s' & Hl & Hd' & Hu').
      * rewrite Hin1. intros l' Hl'. apply Hq. now right.
      * exact Hd1'.
      * rewrite Hin1. simpl in Hlen. lia.
      * exists s'. rewrite Hu', Hu1. now repeat split.
    + exists s1. now repeat split.
Qed.

End DetectorFacts.

(** Complete iterations can be taken off the front of the loop. *)
Lemma while_iterate {S : Type} (body : M S unit) (n k : nat) :
  forall s s1, iterate n body s = Some s1 ->
  while_true (n + k) body s = while_true k body s1.
Proof.
  induction n as [|n IH]; intros s s1 H.
  - injection H as <-. reflexivity.
  - cbn [iterate] in H. cbn [Nat.add while_true].
    destruct (body s) as [s2 [[]| | |e]]; try discriminate; now apply IH.
Qed.

(** * The Detector's claims *)

Module DetectorClaims.
Import Detector DetectorFacts.

(** C1. Registry invariant and anomaly property. Whatever the input, the
    script ends, and for the lines [consumed] it has read: a task [P] is
    in the registry exactly when some creation line named it as parent
    (token 8 of a "SUMMARY:" Spawn/Continuation line), and its counter is
    the number of "CONTEXT_SWITCH:" lines with [P] at token 2 read since
    the last such creation line; the number of "UNEXPECTED" messages
    printed for [P] is the number of those lines read since the first
    creation line of [P]. In particular, in a state where [P] has been
    reset, a scheduling line of [P] prints "UNEXPECTED" and takes the
    counter from its value to that value plus one. *)
Theorem detector_registry_invariant :
  (forall lines,
     exists s consumed,
       main lines = Some (s, Done tt) /\
       lines = (consumed ++ stdin s)%list /\
       (forall P,
          dict_get P (parent_task_dic s) =
          option_map (scheduled_count P) (after_last_creation P consumed)) /\
       (forall P,
          unexpected_for P (stdout s) =
          count_from (after_first_creation P consumed) P))
  /\
  (forall pre line rest s P suffix,
     reaches pre (line :: rest) = Some s ->
     after_last_creation P pre = Some suffix ->
     is_scheduled P line = true ->
     dict_get P (parent_task_dic s) = Some (scheduled_count P suffix) /\
     body s =
       (mkState rest
          (stdout s ++ [PLine line; PLineArray (split line);
                        PScheduledTask P; PUnexpected])
          (dict_set P (scheduled_count P suffix + 1) (parent_task_dic s)),
        Done tt) /\
     dict_get P (dict_set P (scheduled_count P suffix + 1) (parent_task_dic s))
       = Some (scheduled_count P suffix + 1)).
Proof.
  split.
  - intros lines. unfold main.
    destruct (loop_tracks (S (List.length lines)) (init lines) []
                (tracks_init lines) (Nat.lt_succ_diag_r _))
      as (s1 & consumed & Hl & Happ & Ht).
    rewrite Hl. destruct (epilogue_spec s1) as (out & He & Hout).
    exists (mkState (stdin s1) out (parent_task_dic s1)), consumed.
    split; [now rewrite He|]. split; [exact Happ|].
    cbn [stdin stdout parent_task_dic].
    split; intros P; [apply Ht | rewrite Hout; apply Ht].
  - intros pre line rest s P suffix Hr Hpre Hs.
    destruct (reaches_tracks _ _ _ Hr) as [Hin Ht].
    destruct (Ht P) as [Hd _]. rewrite Hpre in Hd. cbn [option_map] in Hd.
    destruct (is_scheduled_tokens _ _ Hs) as (t1 & more & Hsplit).
    split; [exact Hd|]. split.
    + rewrite (det_body_scheduled s line rest t1 P more Hin Hsplit). now rewrite Hd.
    + rewrite dict_get_set. now rewrite String.eqb_refl.
Qed.

Lemma detector_registry_invariant_witness :
  exists s s',
    reaches ["SUMMARY: Spawn B (ID = 7) created by A (ID = 3)"]
      ["CONTEXT_SWITCH: Scheduled: A"] = Some s /\
    body s = (s', Done tt) /\
    dict_get "A" (parent_task_dic s) = Some 0 /\
    dict_get "A" (parent_task_dic s') = Some 1.
Proof.
  destruct (reaches ["SUMMARY: Spawn B (ID = 7) created by A (ID = 3)"]
              ["CONTEXT_SWITCH: Scheduled: A"]) as [s|] eqn:Hr;
    [|vm_compute in Hr; discriminate].
  destruct (proj2 detector_registry_invariant
              ["SUMMARY: Spawn B (ID = 7) created by A (ID = 3)"]
              "CONTEXT_SWITCH: Scheduled: A" [] s "A" [] Hr)
    as (Hd & Hb & Hd'); [vm_compute; reflexivity | vm_compute; reflexivity|].
  exists s. eexists. split; [reflexivity|].
  split; [exact Hb|]. split; [exact Hd | exact Hd'].
Defined.

(** C2, as the code has it. With the parent name at token index 8 of the
    creation line, the two-line scenario ends with P = 1 in the registry
    and one "UNEXPECTED" printed for P. *)
Theorem detector_scenario :
  exists s,
    main ["SUMMARY: Spawn x x x x x x P x x x x x,";
          "CONTEXT_SWITCH: Scheduled: P"] = Some (s, Done tt) /\
    parent_task_dic s = [("P", 1)] /\
    unexpected_for "P" (stdout s) = 1 /\
    stdout s =
      [PLine "SUMMARY: Spawn x x x x x x P x x x x x,";
       PLineArray ["SUMMARY:"; "Spawn"; "x"; "x"; "x"; "x"; "x"; "x"; "P";
                   "x"; "x"; "x"; "x"; "x,"];
       PParentTask "P"; PDictLabel; PDict [("P", 0)];
       PLine "CONTEXT_SWITCH: Scheduled: P";
       PLineArray ["CONTEXT_SWITCH:"; "Scheduled:"; "P"];
       PScheduledTask "P"; PUnexpected;
       PBlank; PBlank; PBlank; PBlank; PBlank; PDict [("P", 1)]].
Proof.
  eexists. split; [vm_compute; reflexivity|].
  cbn [stdout parent_task_dic]. repeat split.
Qed.

(** C2 as stated fails: in the spec's line the name P is the token of
    index 10, so the script records "x" (index 8) as the parent and
    classifies the scheduling of P as "NORMAL". *)
Lemma detector_scenario_counterexample :
  exists s,
    main ["SUMMARY: Spawn x x x x x x x x P x x x x x,";
          "CONTEXT_SWITCH: Scheduled: P"] = Some (s, Done tt) /\
    token 8 "SUMMARY: Spawn x x x x x x x x P x x x x x," = Some "x" /\
    token 10 "SUMMARY: Spawn x x x x x x x x P x x x x x," = Some "P" /\
    parent_task_dic s = [("x", 0)] /\
    dict_get "P" (parent_task_dic s) = None /\
    unexpected_for "P" (stdout s) = 0 /\
    ~ In PUnexpected (stdout s) /\
    In PNormal (stdout s).
Proof.
  eexists. split; [vm_compute; reflexivity|].
  cbn [stdout parent_task_dic].
  split; [vm_compute; reflexivity|]. split; [vm_compute; reflexivity|].
  split; [reflexivity|]. split; [reflexivity|]. split; [reflexivity|].
  split.
  - intros H. cbn [In] in H.
    repeat (destruct H as [H|H]; [discriminate|]). exact H.
  - cbn [In]. tauto.
Qed.

(** C7, as the code has it. When the loop reads a creation line that
    resets [P] and no later line schedules [P], the script ends with [P]
    at 0 and prints no "UNEXPECTED" for [P] from that creation line on:
    the number printed for [P] stays what it was when the line was read.
    None at all is printed for [P] when [P] was not in the registry
    before that line. *)
Theorem detector_quiet_after_reset (pre : list string) (r : string)
    (post : list string) (P : string) (s : state) :
  reaches pre (r :: post) = Some s ->
  is_creation P r = true ->
  (forall l, In l post -> is_scheduled P l = false) ->
  exists s',
    main (pre ++ r :: post) = Some (s', Done tt) /\
    dict_get P (parent_task_dic s') = Some 0 /\
    unexpected_for P (stdout s') = unexpected_for P (stdout s) /\
    (dict_get P (parent_task_dic s) = None -> unexpected_for P (stdout s') = 0).
Proof.
  intros Hr Hc Hq.
  destruct (reaches_tracks _ _ _ Hr) as [Hin Ht].
  assert (Hloop :
    exists s1, loop (S (List.length (r :: post))) s = Some (s1, Done tt) /\
               dict_get P (parent_task_dic s1) = Some 0 /\
               unexpected_for P (stdout s1) = unexpected_for P (stdout s)).
  { unfold loop. cbn [while_true].
    destruct (det_body_line s r post Hin) as (s1 & o & Hb & Ho & Hin1 & Hd1 & Hu1).
    specialize (Hd1 P). specialize (Hu1 P).
    rewrite Hc in Hd1. rewrite (creation_not_scheduled P P r Hc), Z.add_0_r in Hu1.
    rewrite Hb. destruct Ho as [-> | ->].
    - destruct (loop_quiet P (List.length (r :: post)) s1) as (s2 & Hl & Hd2 & Hu2).
      + now rewrite Hin1.
      + exact Hd1.
      + rewrite Hin1. simpl. lia.
      + exists s2. rewrite Hu2, Hu1. now repeat split.
    - exists s1. now repeat split. }
  destruct Hloop as (s1 & Hl & Hd1 & Hu1).
  destruct (epilogue_spec s1) as (out & He & Hout).
  exists (mkState (stdin s1) out (parent_task_dic s1)).
  assert (Hmain : main (pre ++ r :: post)
                  = Some (mkState (stdin s1) out (parent_task_dic s1), Done tt)).
  { unfold main, loop. rewrite length_app, <- Nat.add_succ_r.
    unfold reaches in Hr. rewrite (while_iterate body _ _ _ _ Hr).
    fold (loop (S (List.length (r :: post))) s). rewrite Hl. now rewrite He. }
  split; [exact Hmain|]. cbn [stdout parent_task_dic].
  split; [exact Hd1|]. split; [now rewrite Hout|].
  intros Hnone. rewrite Hout, Hu1.
  destruct (Ht P) as [Hd Hu]. rewrite Hnone in Hd.
  rewrite Hu.
  destruct (after_last_creation P pre) as [suffix|] eqn:E; [discriminate|].
  apply after_last_first in E. now rewrite E.
Qed.

Lemma detector_quiet_after_reset_witness :
  exists s',
    main ["SUMMARY: Spawn B (ID = 7) created by A (ID = 3)";
          "CONTEXT_SWITCH: Scheduled: B"] = Some (s', Done tt) /\
    dict_get "A" (parent_task_dic s') = Some 0 /\
    unexpected_for "A" (stdout s') = 0.
Proof.
  destruct (detector_quiet_after_reset []
              "SUMMARY: Spawn B (ID = 7) created by A (ID = 3)"
              ["CONTEXT_SWITCH: Scheduled: B"] "A"
              (init ["SUMMARY: Spawn B (ID = 7) created by A (ID = 3)";
                     "CONTEXT_SWITCH: Scheduled: B"]))
    as (s' & Hm & Hd & _ & Hu).
  - reflexivity.
  - vm_compute. reflexivity.
  - intros l [<-|[]]. vm_compute. reflexivity.
  - exists s'. split; [exact Hm|]. split; [exact Hd|]. apply Hu. reflexivity.
Defined.

(** C7 as stated fails: the messages printed before the reset stay. With
    a creation line of A, a scheduling line of A and a second creation
    line of A after which A is never scheduled again, the script ends with
    A at 0 and has printed one "UNEXPECTED" for A. *)
Lemma detector_quiet_after_reset_counterexample :
  exists s s',
    reaches ["SUMMARY: Spawn B (ID = 7) created by A (ID = 3)";
             "CONTEXT_SWITCH: Scheduled: A"]
      ["SUMMARY: Continuation C (ID = 8) created by A (ID = 3)";
       "CONTEXT_SWITCH: Scheduled: B"] = Some s /\
    is_creation "A"
      "SUMMARY: Continuation C (ID = 8) created by A (ID = 3)" = true /\
    (forall l, In l ["CONTEXT_SWITCH: Scheduled: B"] ->
               is_scheduled "A" l = false) /\
    dict_get "A" (parent_task_dic s) = Some 1 /\
    main ["SUMMARY: Spawn B (ID = 7) created by A (ID = 3)";
          "CONTEXT_SWITCH: Scheduled: A";
          "SUMMARY: Continuation C (ID = 8) created by A (ID = 3)";
          "CONTEXT_SWITCH: Scheduled: B"] = Some (s', Done tt) /\
    parent_task_dic s' = [("A", 0)] /\
    dict_get "A" (parent_task_dic s') = Some 0 /\
    unexpected_for "A" (stdout s') = 1 /\
    stdout s' =
      [PLine "SUMMARY: Spawn B (ID = 7) created by A (ID = 3)";
       PLineArray ["SUMMARY:"; "Spawn"; "B"; "(ID"; "="; "7)"; "created";
                   "by"; "A"; "(ID"; "="; "3)"];
       PParentTask "A"; PDictLabel; PDict [("A", 0)];
       PLine "CONTEXT_SWITCH: Scheduled: A";
       PLineArray ["CONTEXT_SWITCH:"; "Scheduled:"; "A"];
       PScheduledTask "A"; PUnexpected;
       PLine "SUMMARY: Continuation C (ID = 8) created by A (ID = 3)";
       PLineArray ["SUMMARY:"; "Continuation"; "C"; "(ID"; "="; "8)";
                   "created"; "by"; "A"; "(ID"; "="; "3)"];
       PParentTask "A"; PDictLabel; PDict [("A", 0)];
       PLine "CONTEXT_SWITCH: Scheduled: B";
       PLineArray ["CONTEXT_SWITCH:"; "Scheduled:"; "B"];
       PScheduledTask "B"; PNormal;
       PBlank; PBlank; PBlank; PBlank; PBlank; PDict [("A", 0)]].
Proof.
  eexists. eexists.
  split; [vm_compute; reflexivity|].
  split; [vm_compute; reflexivity|].
  split; [intros l [<-|[]]; vm_compute; reflexivity|].
  split; [vm_compute; reflexivity|].
  split; [vm_compute; reflexivity|].
  cbn [stdout parent_task_dic].
  split; [reflexivity|]. split; [reflexivity|].
  split; [vm_compute; reflexivity|]. reflexivity.
Qed.

(** C8. A line with "CONTEXT_SWITCH:" first and a name at token index 2:
    when the name is in the registry its counter grows by one and
    "UNEXPECTED" is printed, otherwise "NORMAL" is printed and the
    registry is unchanged; in both cases the iteration completes and the
    loop goes on with the next line. *)
Theorem detector_context_switch (s : state) (line : string)
    (rest : list string) (t1 name : string) (more : list string) :
  stdin s = line :: rest ->
  split line = "CONTEXT_SWITCH:" :: t1 :: name :: more ->
  exists s',
    body s = (s', Done tt) /\
    stdin s' = rest /\
    (forall fuel, loop (S fuel) s = loop fuel s') /\
    match dict_get name (parent_task_dic s) with
    | Some v =>
        stdout s' = (stdout s ++ [PLine line; PLineArray (split line);
                                  PScheduledTask name; PUnexpected])%list /\
        parent_task_dic s' = dict_set name (v + 1) (parent_task_dic s) /\
        dict_get name (parent_task_dic s') = Some (v + 1)
    | None =>
        stdout s' = (stdout s ++ [PLine line; PLineArray (split line);
                                  PScheduledTask name; PNormal])%list /\
        parent_task_dic s' = parent_task_dic s
    end.
Proof.
  intros Hin Hsplit.
  pose proof (det_body_scheduled s line rest t1 name more Hin Hsplit) as Hb.
  destruct (dict_get name (parent_task_dic s)) as [v|] eqn:Hget.
  - eexists. split; [exact Hb|]. cbn [stdin stdout parent_task_dic].
    split; [reflexivity|]. split.
    + intros fuel. unfold loop. cbn [while_true]. now rewrite Hb.
    + repeat split. rewrite dict_get_set. now rewrite String.eqb_refl.
  - eexists. split; [exact Hb|]. cbn [stdin stdout parent_task_dic].
    split; [reflexivity|]. split.
    + intros fuel. unfold loop. cbn [while_true]. now rewrite Hb.
    + now split.
Qed.

Lemma detector_context_switch_witness :
  exists s',
    body (mkState ["CONTEXT_SWITCH: Scheduled: P"; "next"] [] [("P", 4)])
      = (s', Done tt) /\
    stdin s' = ["next"] /\
    dict_get "P" (parent_task_dic s') = Some 5.
Proof.
  destruct (detector_context_switch
              (mkState ["CONTEXT_SWITCH: Scheduled: P"; "next"] [] [("P", 4)])
              "CONTEXT_SWITCH: Scheduled: P" ["next"] "Scheduled:" "P" [])
    as (s' & Hb & Hin & _ & H); [reflexivity | vm_compute; reflexivity|].
  cbn [parent_task_dic dict_get String.eqb Ascii.eqb Bool.eqb] in H.
  destruct H as (_ & _ & Hd).
  exists s'. split; [exact Hb|]. split; [exact Hin | exact Hd].
Defined.

End DetectorClaims.

(** * The Formatter's claims *)

Module FormatterClaims.
Import Formatter FormatterFacts.

(** C9. On every finite input the Formatter's read loop ends: from any
    state, any fuel above the number of pending lines is enough, so the
    script returns on every input; and on exhausted input the iteration
    breaks out of the loop without printing or changing anything. *)
Theorem formatter_terminates :
  (forall s extra,
     exists s', loop (S (List.length (stdin s)) + extra) s = Some (s', Done tt))
  /\ (forall lines, exists s', main lines = Some (s', Done tt))
  /\ (forall out c, body (mkState [] out c) = (mkState [] out c, Break)).
Proof.
  split; [|split].
  - intros s extra. apply loop_terminates. lia.
  - intros lines. apply loop_terminates. simpl. lia.
  - intros out c. now apply fmt_body_eof.
Qed.

(** C6. A recognized line that is not the first recognized one, with
    "Scheduled:" as second token and a name as third, emits the line
    "CONTEXT_SWITCH: Scheduled: <name>" (and an empty line). The first
    recognized line of the stream emits "Scheduled: Task(0)" (and an empty
    line) whatever its other tokens are, and the iteration goes on to the
    next line. *)
Theorem formatter_scheduled_line :
  (forall pre line rest s name more,
     reaches pre (line :: rest) = Some s ->
     recognized_count pre <> 0 ->
     split line = "<TaskSummaryLog>" :: "Scheduled:" :: name :: more ->
     body s =
     (mkState rest
        (stdout s ++ "CONTEXT_SWITCH: Scheduled: " ++ name ++ nl ++ nl)
        (count s + 1), Done tt) /\
     pipe_lines (stdout s ++ "CONTEXT_SWITCH: Scheduled: " ++ name ++ nl ++ nl)
     = (pipe_lines (stdout s)
        ++ [("CONTEXT_SWITCH: Scheduled: " ++ name)%string; EmptyString])%list)
  /\
  (forall pre line rest s toks,
     reaches pre (line :: rest) = Some s ->
     recognized_count pre = 0 ->
     split line = "<TaskSummaryLog>" :: toks ->
     body s =
     (mkState rest (stdout s ++ "Scheduled: Task(0)" ++ nl ++ nl) 1, Continue) /\
     pipe_lines (stdout s ++ "Scheduled: Task(0)" ++ nl ++ nl)
     = (pipe_lines (stdout s) ++ ["Scheduled: Task(0)"; EmptyString])%list).
Proof.
  split.
  - intros pre line rest s name more Hr Hn Hsplit.
    destruct (reaches_state _ _ _ Hr) as [Hin Hc]. split.
    + apply (fmt_body_scheduled s line rest name more Hin);
        [now rewrite Hc | exact Hsplit].
    + assert (Hname : is_token name = true)
        by (apply (nth_error_split_token line 2); now rewrite Hsplit).
      rewrite <- (emits_line _ _ s ("CONTEXT_SWITCH: Scheduled: " ++ name) Hr).
      * now rewrite !append_assoc.
      * rewrite contains_app, (no_space_no_newline name)
          by now apply is_token_no_space.
        reflexivity.
  - intros pre line rest s toks Hr Hn Hsplit.
    destruct (reaches_state _ _ _ Hr) as [Hin Hc]. split.
    + apply (fmt_body_first s line rest toks Hin); [now rewrite Hc | exact Hsplit].
    + now apply (emits_line _ _ s "Scheduled: Task(0)" Hr).
Qed.

Lemma formatter_scheduled_line_witness :
  exists s0 s1 s2,
    reaches [] ["<TaskSummaryLog> Scheduled: TaskA";
                "<TaskSummaryLog> Scheduled: TaskB"] = Some s0 /\
    body s0 = (s1, Continue) /\
    stdout s1 = "Scheduled: Task(0)" ++ nl ++ nl /\
    body s1 = (s2, Done tt) /\
    stdout s2 = stdout s1 ++ "CONTEXT_SWITCH: Scheduled: TaskB" ++ nl ++ nl.
Proof.
  destruct formatter_scheduled_line as [Hsched Hfirst].
  eexists. eexists. eexists.
  split; [reflexivity|].
  split.
  { apply (Hfirst [] "<TaskSummaryLog> Scheduled: TaskA"
             ["<TaskSummaryLog> Scheduled: TaskB"] _ ["Scheduled:"; "TaskA"]);
      [reflexivity | reflexivity | vm_compute; reflexivity]. }
  split; [reflexivity|].
  split.
  { apply (Hsched ["<TaskSummaryLog> Scheduled: TaskA"]
             "<TaskSummaryLog> Scheduled: TaskB" [] _ "TaskB" []);
      [vm_compute; reflexivity | vm_compute; discriminate
      | vm_compute; reflexivity]. }
  reflexivity.
Defined.

(** C4, as the code has it. A recognized case-summary line with "1.):"
    as third token, not the first recognized line, emits exactly the line
    "     SUMMARY: No new task added." followed by an empty line, and
    goes on to the next line. *)
Theorem formatter_no_new_task (pre : list string) (line : string)
    (rest : list string) (s : state) (more : list string) :
  reaches pre (line :: rest) = Some s ->
  recognized_count pre <> 0 ->
  split line = "<TaskSummaryLog>" :: "T-case" :: "1.):" :: more ->
  body s =
  (mkState rest (stdout s ++ "     SUMMARY: No new task added." ++ nl ++ nl)
     (count s + 1), Continue) /\
  pipe_lines (stdout s ++ "     SUMMARY: No new task added." ++ nl ++ nl)
  = (pipe_lines (stdout s)
     ++ ["     SUMMARY: No new task added."; EmptyString])%list.
Proof.
  intros Hr Hn Hsplit. destruct (reaches_state _ _ _ Hr) as [Hin Hc]. split.
  - apply (fmt_body_no_new_task s line rest more Hin);
      [now rewrite Hc | exact Hsplit].
  - now apply (emits_line _ _ s "     SUMMARY: No new task added." Hr).
Qed.

Lemma formatter_no_new_task_witness :
  exists s s',
    reaches ["<TaskSummaryLog> first"] ["<TaskSummaryLog> T-case 1.):"] = Some s /\
    body s = (s', Continue) /\
    stdout s' = stdout s ++ "     SUMMARY: No new task added." ++ nl ++ nl.
Proof.
  destruct (reaches ["<TaskSummaryLog> first"] ["<TaskSummaryLog> T-case 1.):"])
    as [s|] eqn:Hr; [|vm_compute in Hr; discriminate].
  exists s. eexists. split; [reflexivity|]. split.
  - apply (formatter_no_new_task ["<TaskSummaryLog> first"]
             "<TaskSummaryLog> T-case 1.):" [] s [] Hr);
      [vm_compute; discriminate | vm_compute; reflexivity].
  - reflexivity.
Defined.

(** C4 as stated fails: the text emitted for such a line is not exactly
    "No new task added."; it starts with "     SUMMARY: " and ends with
    an empty line. *)
Lemma formatter_no_new_task_counterexample :
  exists s s',
    reaches ["<TaskSummaryLog> first"] ["<TaskSummaryLog> T-case 1.):"] = Some s /\
    body s = (s', Continue) /\
    stdout s = "Scheduled: Task(0)" ++ nl ++ nl /\
    stdout s' = stdout s ++ "     SUMMARY: No new task added." ++ nl ++ nl /\
    stdout s' <> stdout s ++ "No new task added." ++ nl /\
    stdout s' <> stdout s ++ "No new task added." /\
    pipe_lines (stdout s') =
      ["Scheduled: Task(0)"; EmptyString;
       "     SUMMARY: No new task added."; EmptyString] /\
    ~ In "No new task added." (pipe_lines (stdout s')).
Proof.
  eexists. eexists.
  split; [vm_compute; reflexivity|].
  split; [vm_compute; reflexivity|].
  cbn [stdout].
  split; [reflexivity|]. split; [reflexivity|].
  split; [vm_compute; discriminate|].
  split; [vm_compute; discriminate|].
  split; [vm_compute; reflexivity|].
  intros H. vm_compute in H.
  repeat (destruct H as [H|H]; [discriminate|]). exact H.
Qed.

(** C5, as the code has it. A recognized creation line that is not the
    first recognized line (second token "T-case", third token not "1.):",
    type tag Spawn or Continuation at index 3, child name at index 5,
    child id at index 8 with one trailing character, parent name at index
    11, parent id at index 14 with two trailing characters) emits the
    line "     SUMMARY: <Type> <ChildName> (ID = <ChildId>) created by
    <ParentName> (ID = <ParentId>)" followed by an empty line. *)
Theorem formatter_creation_line (pre : list string) (line : string)
    (rest : list string) (s : state)
    (t2 ty t4 new_task t6 t7 t8 t9 t10 parent_task t12 t13 t14 : string)
    (more : list string) (new_task_id parent_task_id : Z) :
  reaches pre (line :: rest) = Some s ->
  recognized_count pre <> 0 ->
  split line =
    "<TaskSummaryLog>" :: "T-case" :: t2 :: ty :: t4 :: new_task :: t6 :: t7
      :: t8 :: t9 :: t10 :: parent_task :: t12 :: t13 :: t14 :: more ->
  t2 <> "1.):" ->
  ty = "Spawn" \/ ty = "Continuation" ->
  int_of_str (drop_last 1 t8) = Some new_task_id ->
  int_of_str (drop_last 2 t14) = Some parent_task_id ->
  let emitted :=
    "     SUMMARY: " ++ ty ++ " " ++ new_task ++ " (ID = "
    ++ str_of_int new_task_id ++ ") created by " ++ parent_task
    ++ " (ID = " ++ str_of_int parent_task_id ++ ")" in
  body s =
  (mkState rest (stdout s ++ emitted ++ nl ++ nl) (count s + 1), Done tt) /\
  pipe_lines (stdout s ++ emitted ++ nl ++ nl)
  = (pipe_lines (stdout s) ++ [emitted; EmptyString])%list.
Proof.
  intros Hr Hn Hsplit H2 Hty H8 H14 emitted.
  destruct (reaches_state _ _ _ Hr) as [Hin Hc].
  assert (Hnew : is_token new_task = true)
    by (apply (nth_error_split_token line 5); now rewrite Hsplit).
  assert (Hpar : is_token parent_task = true)
    by (apply (nth_error_split_token line 11); now rewrite Hsplit).
  assert (Htok : is_token ty = true) by (destruct Hty as [-> | ->]; reflexivity).
  assert (He : emitted = "     SUMMARY: "
                         ++ creation_text ty new_task new_task_id
                              parent_task parent_task_id).
  { subst emitted. unfold creation_text. now normalize_text. }
  rewrite He. split.
  - rewrite (fmt_body_creation_typed s line rest _ _ _ _ _ _ _ _ _ _ _ _ _ _ _ _
               Hin (eq_ind_r (fun c => c <> 0) Hn Hc) Hsplit H2 Hty H8 H14).
    reflexivity.
  - apply (emits_line _ _ s _ Hr). now apply creation_text_one_line.
Qed.

Lemma formatter_creation_line_witness :
  exists s s',
    reaches ["<TaskSummaryLog> first"]
      ["<TaskSummaryLog> T-case 2.): Spawn x TaskB x x 7, x x TaskA x x 3)."]
      = Some s /\
    body s = (s', Done tt) /\
    stdout s' =
      stdout s ++ "     SUMMARY: Spawn TaskB (ID = 7) created by TaskA (ID = 3)"
      ++ nl ++ nl.
Proof.
  destruct (reaches ["<TaskSummaryLog> first"]
      ["<TaskSummaryLog> T-case 2.): Spawn x TaskB x x 7, x x TaskA x x 3)."])
    as [s|] eqn:Hr; [|vm_compute in Hr; discriminate].
  exists s. eexists. split; [reflexivity|]. split.
  - apply (formatter_creation_line ["<TaskSummaryLog> first"]
      "<TaskSummaryLog> T-case 2.): Spawn x TaskB x x 7, x x TaskA x x 3)."
      [] s "2.):" "Spawn" "x" "TaskB" "x" "x" "7," "x" "x" "TaskA" "x" "x" "3)."
      [] 7 3 Hr);
      [vm_compute; discriminate | vm_compute; reflexivity | discriminate
      | now left | reflexivity | reflexivity].
  - reflexivity.
Defined.

(** C5 as stated fails: the line emitted for the Spawn example is not
    "Spawn TaskB (ID = 7) created by TaskA (ID = 3)" but that text after
    "     SUMMARY: " on the same line. *)
Lemma formatter_creation_line_counterexample :
  exists s s',
    reaches ["<TaskSummaryLog> first"]
      ["<TaskSummaryLog> T-case 2.): Spawn x TaskB x x 7, x x TaskA x x 3)."]
      = Some s /\
    body s = (s', Done tt) /\
    stdout s = "Scheduled: Task(0)" ++ nl ++ nl /\
    stdout s' =
      stdout s ++ "     SUMMARY: Spawn TaskB (ID = 7) created by TaskA (ID = 3)"
      ++ nl ++ nl /\
    stdout s' <>
      stdout s ++ "Spawn TaskB (ID = 7) created by TaskA (ID = 3)" ++ nl /\
    pipe_lines (stdout s') =
      ["Scheduled: Task(0)"; EmptyString;
       "     SUMMARY: Spawn TaskB (ID = 7) created by TaskA (ID = 3)";
       EmptyString] /\
    ~ In "Spawn TaskB (ID = 7) created by TaskA (ID = 3)"
         (pipe_lines (stdout s')).
Proof.
  eexists. eexists.
  split; [vm_compute; reflexivity|].
  split; [vm_compute; reflexivity|].
  cbn [stdout].
  split; [reflexivity|]. split; [reflexivity|].
  split; [vm_compute; discriminate|].
  split; [vm_compute; reflexivity|].
  intros H. vm_compute in H.
  repeat (destruct H as [H|H]; [discriminate|]). exact H.
Qed.

End FormatterClaims.

(** * The Formatter's output as the Detector's input *)

Module CompositionClaims.




End CompositionClaims.

(** * Malformed input *)

Module RobustnessClaims.

(** C3, as the code has it. Both scripts return on every input and
    never let an exception escape. A recognized Formatter line (not the
    first) with an unknown second token prints "error2", and a creation
    line with an unknown type tag and numeric ids prints "error1"; in both
    cases the iteration completes and the next line is processed. An
    iteration that breaks out of the loop, which is what every exception
    raised while a line is processed leads to, ends the loop at once, the
    remaining lines unread. *)
Theorem scripts_on_malformed_input :
  (forall lines, exists s, Formatter.main lines = Some (s, Done tt)) /\
  (forall lines, exists s, Detector.main lines = Some (s, Done tt)) /\
  (forall pre line rest s t1 more,
     Formatter.reaches pre (line :: rest) = Some s ->
     Formatter.recognized_count pre <> 0 ->
     split line = "<TaskSummaryLog>" :: t1 :: more ->
     t1 <> "T-case" -> t1 <> "Scheduled:" ->
     Formatter.body s =
     (Formatter.mkState rest (Formatter.stdout s ++ "error2" ++ nl ++ nl)
        (Formatter.count s + 1), Done tt) /\
     forall fuel,
       Formatter.loop (S fuel) s =
       Formatter.loop fuel
         (Formatter.mkState rest (Formatter.stdout s ++ "error2" ++ nl ++ nl)
            (Formatter.count s + 1))) /\
  (forall pre line rest s
          t2 ty t4 new_task t6 t7 t8 t9 t10 parent_task t12 t13 t14 more
          new_task_id parent_task_id,
     Formatter.reaches pre (line :: rest) = Some s ->
     Formatter.recognized_count pre <> 0 ->
     split line =
       "<TaskSummaryLog>" :: "T-case" :: t2 :: ty :: t4 :: new_task :: t6 :: t7
         :: t8 :: t9 :: t10 :: parent_task :: t12 :: t13 :: t14 :: more ->
     t2 <> "1.):" ->
     ty <> "Spawn" -> ty <> "Continuation" ->
     int_of_str (drop_last 1 t8) = Some new_task_id ->
     int_of_str (drop_last 2 t14) = Some parent_task_id ->
     let out :=
       Formatter.stdout s ++ "     SUMMARY: error1" ++ nl
       ++ "continuation " ++ new_task ++ " (ID = " ++ str_of_int new_task_id
       ++ ") created by " ++ parent_task ++ " (ID = "
       ++ str_of_int parent_task_id ++ ")" ++ nl ++ nl in
     Formatter.body s =
     (Formatter.mkState rest out (Formatter.count s + 1), Done tt) /\
     forall fuel,
       Formatter.loop (S fuel) s =
       Formatter.loop fuel (Formatter.mkState rest out (Formatter.count s + 1))) /\
  (forall s s' fuel,
     Formatter.body s = (s', Break) ->
     Formatter.loop (S fuel) s = Some (s', Done tt)) /\
  (forall s s' fuel,
     Detector.body s = (s', Break) ->
     Detector.loop (S fuel) s = Some (s', Done tt)) /\
  (forall s s' e,
     Formatter.iteration s = (s', Raise e) -> Formatter.body s = (s', Break)) /\
  (forall s s' e,
     Detector.iteration s = (s', Raise e) -> Detector.body s = (s', Break)) /\
  (forall s e, snd (Formatter.body s) <> Raise e) /\
  (forall s e, snd (Detector.body s) <> Raise e).
Proof.
  split; [|split; [|split; [|split; [|split; [|split; [|split; [|split; [|split]]]]]]]].
  - intros lines. apply FormatterFacts.loop_terminates. simpl. lia.
  - intros lines. unfold Detector.main.
    destruct (DetectorFacts.loop_tracks (S (List.length lines))
                (Detector.init lines) [] (DetectorFacts.tracks_init lines)
                (Nat.lt_succ_diag_r _)) as (s1 & consumed & Hl & _).
    rewrite Hl. destruct (DetectorFacts.epilogue_spec s1) as (out & He & _).
    rewrite He. now eexists.
  - intros pre line rest s t1 more Hr Hn Hsplit H1 H2.
    destruct (FormatterFacts.reaches_state _ _ _ Hr) as [Hin Hc].
    assert (Hb := FormatterFacts.fmt_body_error2 s line rest t1 more Hin
                    (eq_ind_r (fun c => c <> 0) Hn Hc) Hsplit H1 H2).
    split; [exact Hb|].
    intros fuel. unfold Formatter.loop. cbn [while_true]. now rewrite Hb.
  - intros pre line rest s t2 ty t4 new_task t6 t7 t8 t9 t10 parent_task
      t12 t13 t14 more new_task_id parent_task_id
      Hr Hn Hsplit H2 Hs Hk H8 H14 out.
    destruct (FormatterFacts.reaches_state _ _ _ Hr) as [Hin Hc].
    assert (Hb := FormatterFacts.fmt_body_creation_error1 s line rest
                    _ _ _ _ _ _ _ _ _ _ _ _ _ _ _ _ Hin
                    (eq_ind_r (fun c => c <> 0) Hn Hc) Hsplit H2 Hs Hk H8 H14).
    assert (Hout : Formatter.stdout s ++ "     SUMMARY: error1" ++ nl
                   ++ Formatter.creation_text "continuation" new_task
                        new_task_id parent_task parent_task_id ++ nl ++ nl
                   = out).
    { subst out. unfold Formatter.creation_text.
      f_equal. now FormatterFacts.normalize_text. }
    rewrite Hout in Hb. split; [exact Hb|].
    intros fuel. unfold Formatter.loop. cbn [while_true]. now rewrite Hb.
  - intros s s' fuel Hb. unfold Formatter.loop. cbn [while_true]. now rewrite Hb.
  - intros s s' fuel Hb. unfold Detector.loop. cbn [while_true]. now rewrite Hb.
  - intros s s' e H. unfold Formatter.body, try_except. now rewrite H.
  - intros s s' e H. unfold Detector.body, try_except. now rewrite H.
  - intros s e H. pose proof (try_break_outcome Formatter.iteration s) as Ho.
    fold Formatter.body in Ho. now rewrite H in Ho.
  - intros s e H. pose proof (try_break_outcome Detector.iteration s) as Ho.
    fold Detector.body in Ho. now rewrite H in Ho.
Qed.

Lemma scripts_on_malformed_input_witness :
  exists s s1,
    Formatter.reaches ["<TaskSummaryLog> first"]
      ["<TaskSummaryLog> Unknown"; "<TaskSummaryLog> Scheduled: TaskB"]
      = Some s /\
    Formatter.body s = (s1, Done tt) /\
    Formatter.stdout s1 = Formatter.stdout s ++ "error2" ++ nl ++ nl /\
    Formatter.stdin s1 = ["<TaskSummaryLog> Scheduled: TaskB"].
Proof.
  destruct (Formatter.reaches ["<TaskSummaryLog> first"]
      ["<TaskSummaryLog> Unknown"; "<TaskSummaryLog> Scheduled: TaskB"])
    as [s|] eqn:Hr; [|vm_compute in Hr; discriminate].
  destruct scripts_on_malformed_input as (_ & _ & Herr2 & _).
  destruct (Herr2 ["<TaskSummaryLog> first"] "<TaskSummaryLog> Unknown"
              ["<TaskSummaryLog> Scheduled: TaskB"] s "Unknown" [] Hr)
    as [Hb _];
    [vm_compute; discriminate | vm_compute; reflexivity
    | discriminate | discriminate |].
  exists s. eexists.
  split; [reflexivity|]. split; [exact Hb|]. split; reflexivity.
Defined.

(** C3 as stated fails: a recognized Formatter line made of the marker
    alone, or a Detector line made of "SUMMARY:" alone, raises IndexError;
    the bare [except] breaks out of the loop, and the line that follows is
    never read. *)
Lemma scripts_on_malformed_input_counterexample :
  (exists s,
     Formatter.main ["<TaskSummaryLog> first"; "<TaskSummaryLog>";
                     "<TaskSummaryLog> Scheduled: TaskB"] = Some (s, Done tt) /\
     Formatter.stdin s = ["<TaskSummaryLog> Scheduled: TaskB"] /\
     Formatter.stdout s = "Scheduled: Task(0)" ++ nl ++ nl)
  /\
  (exists s,
     Detector.main ["SUMMARY:"; "CONTEXT_SWITCH: Scheduled: P"]
       = Some (s, Done tt) /\
     Detector.stdin s = ["CONTEXT_SWITCH: Scheduled: P"] /\
     Detector.stdout s =
       [Detector.PLine "SUMMARY:"; Detector.PLineArray ["SUMMARY:"];
        Detector.PBlank; Detector.PBlank; Detector.PBlank; Detector.PBlank;
        Detector.PBlank; Detector.PDict []]).
Proof.
  split; eexists; (split; [vm_compute; reflexivity|]); split; reflexivity.
Qed.

End RobustnessClaims.

(** * Further properties of the Formatter *)

Module FormatterExtras.
Import Formatter FormatterFacts.

Lemma append_empty_r (a : string) : a ++ EmptyString = a.
Proof. induction a as [|x a IH]; cbn [append]; [reflexivity | now rewrite IH]. Qed.

Ltac kstep :=
  cbn [is_nil negb ret raise incr_count modify gets print_ print_end
       continue_ break_ stdin stdout count orb emitted_text outcome_of];
  unfold break_, continue_, ret, raise.

Ltac kind_leaf :=
  cbn [fst snd emitted_text outcome_of stdin stdout count];
  rewrite ?append_empty_r; unfold creation_text;
  first [ reflexivity
        | f_equal; f_equal; first [ reflexivity | now normalize_text ]
        | f_equal; f_equal; rewrite ?append_assoc; cbn [append nl];
          rewrite ?append_assoc; reflexivity ].

(** One iteration is a dispatch on the kind of the line. *)
Lemma fmt_body_kind (s : state) (l : string) (ls : list string) :
  stdin s = l :: ls ->
  body s =
  if recognized l then
    if (count s + 1 =? 1)%Z then
      (mkState ls (stdout s ++ "Scheduled: Task(0)" ++ nl ++ nl) (count s + 1),
       Continue)
    else
      (mkState ls (stdout s ++ emitted_text (kind_of l)) (count s + 1),
       outcome_of (kind_of l))
  else (mkState ls (stdout s) (count s), Done tt).
Proof.
  intros Hin. destruct s as [i out c]. cbn [stdin stdout count] in *. subst i.
  unfold body, try_except, iteration, bind, input, recognized, kind_of.
  cbn [stdin]. cbv beta iota zeta.
  destruct (split l) as [|t0 ts]; [reflexivity|].
  unfold kind_of_tokens, item, int_.
  change (nth_error (t0 :: ts) 0) with (Some t0).
  generalize (nth_error (t0 :: ts) 1), (nth_error (t0 :: ts) 2),
    (nth_error (t0 :: ts) 3), (nth_error (t0 :: ts) 5),
    (nth_error (t0 :: ts) 8), (nth_error (t0 :: ts) 11),
    (nth_error (t0 :: ts) 14).
  intros n1 n2 n3 n5 n8 n11 n14. kstep.
  destruct (t0 =? "<TaskSummaryLog>")%string; kstep; [|reflexivity].
  destruct (c + 1 =? 1)%Z; kstep; [kind_leaf|].
  destruct n1 as [t1|]; kstep; [|kind_leaf].
  destruct (t1 =? "T-case")%string; kstep.
  - destruct n2 as [t2|]; kstep; [|kind_leaf].
    destruct (t2 =? "1.):")%string; kstep; [kind_leaf|].
    destruct n11 as [t11|]; kstep;
      [|destruct n3, n5, n8; kind_leaf].
    destruct n14 as [t14|]; kstep;
      [|destruct n3, n5, n8; kind_leaf].
    destruct (int_of_str (drop_last 2 t14)) as [pid|]; kstep;
      [|destruct n3, n5, n8 as [t8|]; try kind_leaf;
        destruct (int_of_str (drop_last 1 t8)); kind_leaf].
    destruct n5 as [t5|]; kstep; [|destruct n3; kind_leaf].
    destruct n8 as [t8|]; kstep; [|destruct n3; kind_leaf].
    destruct (int_of_str (drop_last 1 t8)) as [cid|]; kstep;
      [|destruct n3; kind_leaf].
    destruct n3 as [t3|]; kstep; [|kind_leaf].
    destruct (t3 =? "Spawn")%string; kstep; [kind_leaf|].
    destruct (t3 =? "Continuation")%string; kstep; kind_leaf.
  - destruct (t1 =? "Scheduled:")%string; kstep; [|kind_leaf].
    destruct n2 as [t2|]; kstep; kind_leaf.
Qed.

Lemma body_unrecognized (s : state) (l : string) (ls : list string) :
  stdin s = l :: ls -> recognized l = false ->
  body s = (mkState ls (stdout s) (count s), Done tt).
Proof. intros Hin Hr. now rewrite (fmt_body_kind s l ls Hin), Hr. Qed.

Lemma body_first_recognized (s : state) (l : string) (ls : list string) :
  stdin s = l :: ls -> recognized l = true -> count s = 0 ->
  body s =
  (mkState ls (stdout s ++ "Scheduled: Task(0)" ++ nl ++ nl) 1, Continue).
Proof.
  intros Hin Hr Hc. rewrite (fmt_body_kind s l ls Hin), Hr, Hc. reflexivity.
Qed.

Lemma body_later_recognized (s : state) (l : string) (ls : list string) :
  stdin s = l :: ls -> recognized l = true -> count s <> 0 ->
  body s =
  (mkState ls (stdout s ++ emitted_text (kind_of l)) (count s + 1),
   outcome_of (kind_of l)).
Proof.
  intros Hin Hr Hc. rewrite (fmt_body_kind s l ls Hin), Hr.
  now rewrite (not_first _ Hc).
Qed.

(** Every iteration only appends to the output. *)
Lemma body_appends (s : state) :
  exists d, stdout (fst (body s)) = stdout s ++ d.
Proof.
  destruct (stdin s) as [|l ls] eqn:Hin.
  - rewrite (fmt_body_eof s Hin). exists EmptyString. cbn [fst].
    now rewrite append_empty_r.
  - rewrite (fmt_body_kind s l ls Hin).
    destruct (recognized l); [destruct (count s + 1 =? 1)%Z|];
      cbn [fst stdout]; eauto.
    exists EmptyString. now rewrite append_empty_r.
Qed.

(** The loop from any state: what it reads, counts and writes. *)
Lemma loop_run (fuel : nat) :
  forall s, (List.length (stdin s) < fuel)%nat ->
  exists s' read d,
    loop fuel s = Some (s', Done tt) /\
    stdin s = (read ++ stdin s')%list /\
    count s' = count s + recognized_count read /\
    stdout s' = stdout s ++ d.
Proof.
  induction fuel as [|fuel IH]; intros s Hlen; [lia|].
  unfold loop. cbn [while_true].
  destruct (stdin s) as [|l ls] eqn:Hin.
  - rewrite (fmt_body_eof s Hin). exists s, [], EmptyString.
    rewrite Hin, append_empty_r. unfold recognized_count. cbn.
    repeat split. lia.
  - destruct (fmt_body_line s l ls Hin) as (s1 & o & Hb & Hin1 & Hc1 & Ho).
    destruct (body_appends s) as [d1 Hd1]. rewrite Hb in Hd1 |- *. cbn [fst] in Hd1.
    assert (Hlen1 : (List.length (stdin s1) < fuel)%nat)
      by (rewrite Hin1; simpl in Hlen; lia).
    destruct (IH s1 Hlen1) as (s' & read & d & Hl & Happ & Hc & Hd).
    assert (Hgo : while_true fuel body s1 = Some (s', Done tt)) by exact Hl.
    destruct Ho as [-> | [-> | ->]].
    + exists s', (l :: read), (d1 ++ d). rewrite Hgo.
      split; [reflexivity|]. split; [cbn; now rewrite <- Happ, Hin1|].
      split; [rewrite Hc, Hc1, recognized_count_cons; lia|].
      now rewrite Hd, Hd1, append_assoc.
    + exists s', (l :: read), (d1 ++ d). rewrite Hgo.
      split; [reflexivity|]. split; [cbn; now rewrite <- Happ, Hin1|].
      split; [rewrite Hc, Hc1, recognized_count_cons; lia|].
      now rewrite Hd, Hd1, append_assoc.
    + exists s1, [l], d1.
      split; [reflexivity|]. split; [cbn; now rewrite Hin1|].
      split; [rewrite Hc1, recognized_count_cons; unfold recognized_count; cbn; lia|].
      exact Hd1.
Qed.

Lemma loop_unrecognized (fuel : nat) :
  forall s,
    (forall l, In l (stdin s) -> recognized l = false) ->
    (List.length (stdin s) < fuel)%nat ->
    loop fuel s = Some (mkState [] (stdout s) (count s), Done tt).
Proof.
  induction fuel as [|fuel IH]; intros s Hall Hlen; [lia|].
  unfold loop. cbn [while_true].
  destruct (stdin s) as [|l ls] eqn:Hin.
  - rewrite (fmt_body_eof s Hin). destruct s. cbn in *. now subst.
  - rewrite (body_unrecognized s l ls Hin (Hall l (or_introl eq_refl))).
    apply (IH (mkState ls (stdout s) (count s))).
    + intros x Hx. apply Hall. now right.
    + simpl in *. lia.
Qed.

(** X1. Input without any recognized line is read to the end and nothing
    is printed: blank lines and lines whose first token is not the
    marker are skipped without touching [count]. *)
Theorem formatter_silent_without_marker (lines : list string) :
  (forall l, In l lines -> recognized l = false) ->
  main lines = Some (mkState [] EmptyString 0, Done tt).
Proof.
  intros Hall. unfold main.
  apply (loop_unrecognized _ (init lines) Hall). simpl. lia.
Qed.

Lemma formatter_silent_without_marker_witness :
  main [EmptyString; "   "; "Scheduled: TaskB"; "x <TaskSummaryLog> T-case"]
  = Some (mkState [] EmptyString 0, Done tt).
Proof.
  apply formatter_silent_without_marker.
  intros l H. cbn [In] in H.
  repeat (destruct H as [<-|H]; [vm_compute; reflexivity|]). destruct H.
Defined.

Lemma iterate_unrecognized (p : list string) :
  forall s rest,
    (forall x, In x p -> recognized x = false) ->
    stdin s = (p ++ rest)%list ->
    iterate (List.length p) body s = Some (mkState rest (stdout s) (count s)).
Proof.
  induction p as [|x p IH]; intros s rest Hp Hin.
  - cbn in *. destruct s. cbn in *. now subst.
  - cbn [List.length iterate].
    rewrite (body_unrecognized s x (p ++ rest) Hin (Hp x (or_introl eq_refl))).
    apply (IH (mkState (p ++ rest) (stdout s) (count s)));
      [intros y Hy; apply Hp; now right | reflexivity].
Qed.

Lemma main_from (pre rest : list string) (s : state) :
  reaches pre rest = Some s ->
  main (pre ++ rest) = loop (S (List.length rest)) s.
Proof.
  intros Hr. unfold main, loop, reaches in *.
  rewrite length_app, <- Nat.add_succ_r.
  now apply while_iterate.
Qed.

(** X2. As soon as the input has a recognized line, the output starts
    with "Scheduled: Task(0)" and an empty line, whatever that line and
    the lines around it contain. *)
Theorem formatter_starts_with_task0 (pre : list string) (l : string)
    (post : list string) :
  (forall x, In x pre -> recognized x = false) ->
  recognized l = true ->
  exists s d,
    main (pre ++ l :: post) = Some (s, Done tt) /\
    stdout s = "Scheduled: Task(0)" ++ nl ++ nl ++ d.
Proof.
  intros Hpre Hl.
  rewrite (main_from pre (l :: post) (mkState (l :: post) EmptyString 0))
    by (apply (iterate_unrecognized pre (init _) _ Hpre); reflexivity).
  unfold loop. cbn [while_true List.length].
  rewrite (body_first_recognized (mkState (l :: post) EmptyString 0) l post
             eq_refl Hl eq_refl).
  destruct (loop_run (S (List.length post))
              (mkState post (EmptyString ++ "Scheduled: Task(0)" ++ nl ++ nl) 1))
    as (s' & read & d & Hloop & _ & _ & Hd); [simpl; lia|].
  exists s', d. split; [exact Hloop|].
  rewrite Hd. cbn [stdout]. now rewrite !append_assoc.
Qed.

Lemma formatter_starts_with_task0_witness :
  exists s d,
    main ["noise"; "<TaskSummaryLog>"; "<TaskSummaryLog> Scheduled: TaskB"]
      = Some (s, Done tt) /\
    stdout s = "Scheduled: Task(0)" ++ nl ++ nl ++ d.
Proof.
  apply (formatter_starts_with_task0 ["noise"] "<TaskSummaryLog>"
           ["<TaskSummaryLog> Scheduled: TaskB"]).
  - intros x [<-|[]]. vm_compute. reflexivity.
  - vm_compute. reflexivity.
Defined.

(** X3. When the script ends, [count] is the number of recognized lines
    among the lines it has read, the line on which the loop broke
    included. *)
Theorem formatter_count_invariant (lines : list string) :
  exists s read,
    main lines = Some (s, Done tt) /\
    lines = (read ++ stdin s)%list /\
    count s = recognized_count read.
Proof.
  destruct (loop_run (S (List.length lines)) (init lines))
    as (s & read & d & Hl & Happ & Hc & _); [simpl; lia|].
  exists s, read. split; [exact Hl|]. split; [exact Happ|].
  now rewrite Hc.
Qed.

Lemma outcome_breaks (k : line_kind) :
  outcome_of k = Break <-> breaks k = true.
Proof. destruct k; cbn; split; (congruence || discriminate). Qed.

(** X4. An iteration ends the loop on a pending line exactly when the
    line is recognized, is not the first recognized one, and a position
    it needs is missing or an id is not numeric. The first recognized
    line never ends the loop, whatever it contains. *)
Theorem formatter_break_iff (s : state) (l : string) (ls : list string) :
  stdin s = l :: ls ->
  (snd (body s) = Break <->
   recognized l = true /\ count s <> 0 /\ breaks (kind_of l) = true).
Proof.
  intros Hin. rewrite (fmt_body_kind s l ls Hin).
  destruct (recognized l).
  - destruct (Z.eqb_spec (count s + 1) 1) as [E|E]; cbn [snd].
    + split; [discriminate|]. intros (_ & Hc & _). lia.
    + rewrite outcome_breaks. split; [intros H|intros (_ & _ & H); exact H].
      repeat split; [lia | exact H].
  - cbn [snd]. split; [discriminate|]. intros (H & _). discriminate.
Qed.

Lemma formatter_break_iff_witness :
  snd (body (mkState ["<TaskSummaryLog> Scheduled:"] EmptyString 3)) = Break /\
  snd (body (mkState ["<TaskSummaryLog> Scheduled:"] EmptyString 0)) <> Break.
Proof.
  split.
  - apply (formatter_break_iff
             (mkState ["<TaskSummaryLog> Scheduled:"] EmptyString 3)
             "<TaskSummaryLog> Scheduled:" [] eq_refl).
    repeat split; (discriminate || (vm_compute; reflexivity)).
  - intros H.
    apply (formatter_break_iff
             (mkState ["<TaskSummaryLog> Scheduled:"] EmptyString 0)
             "<TaskSummaryLog> Scheduled:" [] eq_refl) in H.
    destruct H as (_ & Hc & _). now apply Hc.
Defined.

Lemma nth_error_earlier {A} (l : list A) (n m : nat) (x : A) :
  nth_error l n = Some x -> (m <= n)%nat -> exists y, nth_error l m = Some y.
Proof.
  intros Hn Hm. destruct (nth_error l m) as [y|] eqn:E; [now exists y|].
  apply nth_error_None in E.
  assert (nth_error l n = None) by (apply nth_error_None; lia). congruence.
Qed.

(** The kind of a "T-case" line whose third token is not "1.):". *)
Lemma summary_kind (l t2 : string) (more : list string) :
  split l = "<TaskSummaryLog>" :: "T-case" :: t2 :: more ->
  t2 <> "1.):" ->
  (exists t3 t5 t8 t11 t14 new_task_id parent_task_id,
     nth_error (split l) 3 = Some t3 /\
     nth_error (split l) 5 = Some t5 /\
     nth_error (split l) 8 = Some t8 /\
     nth_error (split l) 11 = Some t11 /\
     nth_error (split l) 14 = Some t14 /\
     int_of_str (drop_last 1 t8) = Some new_task_id /\
     int_of_str (drop_last 2 t14) = Some parent_task_id /\
     kind_of l = Creation t3 t5 new_task_id t11 parent_task_id)
  \/
  (kind_of l = BrokenSummary /\
   forall t8 t14,
     nth_error (split l) 8 = Some t8 ->
     nth_error (split l) 14 = Some t14 ->
     int_of_str (drop_last 1 t8) = None
     \/ int_of_str (drop_last 2 t14) = None).
Proof.
  intros Hsplit H2. apply String.eqb_neq in H2.
  assert (Hk : kind_of l =
    match nth_error (split l) 3, nth_error (split l) 5,
          nth_error (split l) 8, nth_error (split l) 11,
          nth_error (split l) 14 with
    | Some t3, Some t5, Some t8, Some t11, Some t14 =>
        match int_of_str (drop_last 1 t8), int_of_str (drop_last 2 t14) with
        | Some new_task_id, Some parent_task_id =>
            Creation t3 t5 new_task_id t11 parent_task_id
        | _, _ => BrokenSummary
        end
    | _, _, _, _, _ => BrokenSummary
    end).
  { unfold kind_of. rewrite Hsplit at 1. unfold kind_of_tokens.
    cbn [String.eqb Ascii.eqb Bool.eqb]. rewrite <- Hsplit.
    replace (nth_error (split l) 1) with (Some "T-case") by now rewrite Hsplit.
    replace (nth_error (split l) 2) with (Some t2) by now rewrite Hsplit.
    cbn [String.eqb Ascii.eqb Bool.eqb]. now rewrite H2. }
  rewrite Hk. clear Hk.
  destruct (nth_error (split l) 14) as [t14|] eqn:H14.
  - destruct (nth_error_earlier _ 14 3 _ H14) as [t3 H3]; [lia|].
    destruct (nth_error_earlier _ 14 5 _ H14) as [t5 H5]; [lia|].
    destruct (nth_error_earlier _ 14 8 _ H14) as [t8 H8]; [lia|].
    destruct (nth_error_earlier _ 14 11 _ H14) as [t11 H11]; [lia|].
    rewrite H3, H5, H8, H11.
    destruct (int_of_str (drop_last 1 t8)) as [cid|] eqn:Hc.
    + destruct (int_of_str (drop_last 2 t14)) as [pid|] eqn:Hp.
      * left. exists t3, t5, t8, t11, t14, cid, pid. now repeat split.
      * right. split; [reflexivity|].
        intros x8 x14 E8 E14. injection E14 as <-. now right.
    + right. split; [reflexivity|].
      intros x8 x14 E8 E14. injection E8 as <-. now left.
  - right. split; [|intros t8 t14 _ E; discriminate].
    destruct (nth_error (split l) 3), (nth_error (split l) 5),
      (nth_error (split l) 8), (nth_error (split l) 11); reflexivity.
Qed.

(** X5. A pending creation line ("T-case" with a third token other than
    "1.):") that is not the first recognized line completes its iteration
    exactly when it has a token at index 14 and the tokens at 8 and 14 are
    numeric once their last one and last two characters are dropped; the
    positions 3, 5 and 11 then exist as well, and the iteration prints
    the text of the creation built from these five tokens. In every
    other case the iteration ends the loop, having counted the line and
    printed "     SUMMARY: " only. *)
Theorem formatter_creation_bounds (s : state) (l : string)
    (ls : list string) (t2 : string) (more : list string) :
  stdin s = l :: ls ->
  count s <> 0 ->
  split l = "<TaskSummaryLog>" :: "T-case" :: t2 :: more ->
  t2 <> "1.):" ->
  (snd (body s) = Done tt <->
   exists t8 t14 new_task_id parent_task_id,
     nth_error (split l) 8 = Some t8 /\
     nth_error (split l) 14 = Some t14 /\
     int_of_str (drop_last 1 t8) = Some new_task_id /\
     int_of_str (drop_last 2 t14) = Some parent_task_id)
  /\
  (forall t8 t14 new_task_id parent_task_id,
     nth_error (split l) 8 = Some t8 ->
     nth_error (split l) 14 = Some t14 ->
     int_of_str (drop_last 1 t8) = Some new_task_id ->
     int_of_str (drop_last 2 t14) = Some parent_task_id ->
     exists t3 t5 t11,
       nth_error (split l) 3 = Some t3 /\
       nth_error (split l) 5 = Some t5 /\
       nth_error (split l) 11 = Some t11 /\
       body s =
       (mkState ls
          (stdout s
           ++ emitted_text (Creation t3 t5 new_task_id t11 parent_task_id))
          (count s + 1), Done tt))
  /\
  (snd (body s) <> Done tt ->
   body s = (mkState ls (stdout s ++ "     SUMMARY: ") (count s + 1), Break)).
Proof.
  intros Hin Hc Hsplit H2.
  assert (Hrec : recognized l = true)
    by (unfold recognized; rewrite Hsplit; reflexivity).
  rewrite (body_later_recognized s l ls Hin Hrec Hc). cbn [snd].
  destruct (summary_kind l t2 more Hsplit H2)
    as [(t3 & t5 & t8 & t11 & t14 & cid & pid
         & H3 & H5 & H8 & H11 & H14 & Hcid & Hpid & Hk) | [Hk Hno]];
    rewrite Hk; cbn [outcome_of].
  - split; [|split].
    + split; [intros _|reflexivity]. now exists t8, t14, cid, pid.
    + intros x8 x14 c p E8 E14 Ec Ep.
      rewrite H8 in E8. injection E8 as <-.
      rewrite H14 in E14. injection E14 as <-.
      rewrite Hcid in Ec. injection Ec as <-.
      rewrite Hpid in Ep. injection Ep as <-.
      now exists t3, t5, t11.
    + intros H. now contradiction H.
  - split; [|split].
    + split; [discriminate|].
      intros (t8 & t14 & cid & pid & H8 & H14 & Hcid & Hpid).
      destruct (Hno t8 t14 H8 H14); congruence.
    + intros t8 t14 cid pid H8 H14 Hcid Hpid.
      destruct (Hno t8 t14 H8 H14); congruence.
    + intros _. reflexivity.
Qed.

Lemma formatter_creation_bounds_witness :
  body (mkState
          ["<TaskSummaryLog> T-case 2.): Spawn x TaskB x x 7, x x TaskA x x 3).";
           "next"]
          ("Scheduled: Task(0)" ++ nl ++ nl) 1)
  = (mkState ["next"]
       ("Scheduled: Task(0)" ++ nl ++ nl
        ++ "     SUMMARY: Spawn TaskB (ID = 7) created by TaskA (ID = 3)"
        ++ nl ++ nl) 2, Done tt)
  /\
  body (mkState
          ["<TaskSummaryLog> T-case 2.): Spawn x TaskB x x 7, x x TaskA x x";
           "next"]
          ("Scheduled: Task(0)" ++ nl ++ nl) 1)
  = (mkState ["next"] ("Scheduled: Task(0)" ++ nl ++ nl ++ "     SUMMARY: ") 2,
     Break).
Proof.
  split.
  - destruct (formatter_creation_bounds
                (mkState
                   ["<TaskSummaryLog> T-case 2.): Spawn x TaskB x x 7, x x TaskA x x 3).";
                    "next"]
                   ("Scheduled: Task(0)" ++ nl ++ nl) 1)
                "<TaskSummaryLog> T-case 2.): Spawn x TaskB x x 7, x x TaskA x x 3)."
                ["next"] "2.):"
                ["Spawn"; "x"; "TaskB"; "x"; "x"; "7,"; "x"; "x"; "TaskA";
                 "x"; "x"; "3)."])
      as (_ & Hdone & _);
      [reflexivity | discriminate | vm_compute; reflexivity | discriminate|].
    destruct (Hdone "7," "3)." 7 3) as (t3 & t5 & t11 & H3 & H5 & H11 & Hb);
      [vm_compute; reflexivity | vm_compute; reflexivity
      | vm_compute; reflexivity | vm_compute; reflexivity|].
    vm_compute in H3, H5, H11.
    injection H3 as <-. injection H5 as <-. injection H11 as <-.
    rewrite Hb. vm_compute. reflexivity.
  - destruct (formatter_creation_bounds
                (mkState
                   ["<TaskSummaryLog> T-case 2.): Spawn x TaskB x x 7, x x TaskA x x";
                    "next"]
                   ("Scheduled: Task(0)" ++ nl ++ nl) 1)
                "<TaskSummaryLog> T-case 2.): Spawn x TaskB x x 7, x x TaskA x x"
                ["next"] "2.):"
                ["Spawn"; "x"; "TaskB"; "x"; "x"; "7,"; "x"; "x"; "TaskA";
                 "x"; "x"])
      as ([Hiff _] & _ & Hbreak);
      [reflexivity | discriminate | vm_compute; reflexivity | discriminate|].
    rewrite Hbreak; [reflexivity|].
    intros H. apply Hiff in H.
    destruct H as (t8 & t14 & cid & pid & _ & H14 & _).
    vm_compute in H14. discriminate.
Defined.

Lemma breaks_dangling (k : line_kind) :
  breaks k = true ->
  emitted_text k = EmptyString \/ emitted_text k = "     SUMMARY: "
  \/ emitted_text k = "CONTEXT_SWITCH: ".
Proof. destruct k; cbn; intros H; try discriminate; tauto. Qed.

(** X6. When the loop reaches a recognized line, not the first one,
    that misses a position or has a non-numeric id, the script ends
    there: the lines after it stay unread, [count] has counted the line,
    and the output is what was written before, at the start of a line,
    followed by nothing, by "     SUMMARY: " or by "CONTEXT_SWITCH: "
    without a newline. *)
Theorem formatter_stops_at_broken_line (pre : list string) (l : string)
    (post : list string) (s : state) :
  reaches pre (l :: post) = Some s ->
  recognized l = true ->
  recognized_count pre <> 0 ->
  breaks (kind_of l) = true ->
  main (pre ++ l :: post) =
    Some (mkState post (stdout s ++ emitted_text (kind_of l)) (count s + 1),
          Done tt) /\
  at_line_start (stdout s) = true /\
  (emitted_text (kind_of l) = EmptyString
   \/ emitted_text (kind_of l) = "     SUMMARY: "
   \/ emitted_text (kind_of l) = "CONTEXT_SWITCH: ").
Proof.
  intros Hr Hl Hn Hk.
  destruct (reaches_state _ _ _ Hr) as [Hin Hc].
  split; [|split; [exact (reaches_line_start _ _ _ Hr)
                  | now apply breaks_dangling]].
  rewrite (main_from _ _ _ Hr). unfold loop. cbn [while_true].
  rewrite (body_later_recognized s l post Hin Hl) by now rewrite Hc.
  apply outcome_breaks in Hk. now rewrite Hk.
Qed.

Lemma formatter_stops_at_broken_line_witness :
  main ["<TaskSummaryLog> first"; "<TaskSummaryLog> T-case 2.): Spawn x TaskB";
        "<TaskSummaryLog> Scheduled: TaskB"]
  = Some (mkState ["<TaskSummaryLog> Scheduled: TaskB"]
            ("Scheduled: Task(0)" ++ nl ++ nl ++ "     SUMMARY: ") 2, Done tt).
Proof.
  destruct (reaches ["<TaskSummaryLog> first"]
              ["<TaskSummaryLog> T-case 2.): Spawn x TaskB";
               "<TaskSummaryLog> Scheduled: TaskB"]) as [s|] eqn:Hr;
    [|vm_compute in Hr; discriminate].
  destruct (formatter_stops_at_broken_line ["<TaskSummaryLog> first"]
              "<TaskSummaryLog> T-case 2.): Spawn x TaskB"
              ["<TaskSummaryLog> Scheduled: TaskB"] s Hr) as (Hm & _);
    [vm_compute; reflexivity | vm_compute; discriminate
    | vm_compute; reflexivity |].
  cbn [List.app] in Hm. rewrite Hm.
  vm_compute in Hr. injection Hr as <-. reflexivity.
Defined.

Lemma loop_well_formed (fuel : nat) :
  forall s,
    (forall pre l post,
       stdin s = (pre ++ l :: post)%list -> recognized l = true ->
       count s + recognized_count pre <> 0 -> breaks (kind_of l) = false) ->
    at_line_start (stdout s) = true ->
    (List.length (stdin s) < fuel)%nat ->
    exists s',
      loop fuel s = Some (s', Done tt) /\ stdin s' = [] /\
      at_line_start (stdout s') = true.
Proof.
  induction fuel as [|fuel IH]; intros s Hok Hs Hlen; [lia|].
  unfold loop. cbn [while_true].
  destruct (stdin s) as [|l ls] eqn:Hin.
  - rewrite (fmt_body_eof s Hin). exists s. now repeat split.
  - destruct (body s) as [s1 o] eqn:Hb.
    assert (Ho : o <> Break).
    { pose proof (fmt_body_kind s l ls Hin) as Hk. rewrite Hb in Hk.
      destruct (recognized l) eqn:Hl; [|now injection Hk as _ ->].
      destruct (Z.eqb_spec (count s + 1) 1) as [E|E]; [now injection Hk as _ ->|].
      injection Hk as _ ->. intros Hbr. apply outcome_breaks in Hbr.
      rewrite (Hok [] l ls eq_refl Hl) in Hbr; [discriminate|].
      unfold recognized_count. cbn. lia. }
    destruct (fmt_body_line s l ls Hin) as (s1' & o' & Hb' & Hin1 & Hc1 & _).
    rewrite Hb in Hb'. injection Hb' as <- <-.
    assert (Hs1 : at_line_start (stdout s1) = true)
      by exact (body_line_start s s1 o Hs Hb Ho).
    assert (Hnext : exists s', loop fuel s1 = Some (s', Done tt) /\
                               stdin s' = [] /\ at_line_start (stdout s') = true).
    { apply IH; [|exact Hs1|rewrite Hin1; simpl in Hlen; lia].
      intros pre x post Hx Hrx Hcx.
      apply (Hok (l :: pre) x post); [cbn; now rewrite <- Hx, Hin1 | exact Hrx|].
      rewrite recognized_count_cons. rewrite Hc1 in Hcx. lia. }
    destruct o as [[]| | |e]; try exact Hnext; try congruence.
    pose proof (try_break_outcome iteration s) as Hno.
    fold body in Hno. rewrite Hb in Hno. destruct Hno.
Qed.

(** X7. When no recognized line after the first one misses a position
    or has a non-numeric id, the script reads the whole input and its
    output ends at the end of a line. *)
Theorem formatter_reads_all_well_formed (lines : list string) :
  (forall pre l post,
     lines = (pre ++ l :: post)%list -> recognized l = true ->
     recognized_count pre <> 0 -> breaks (kind_of l) = false) ->
  exists s,
    main lines = Some (s, Done tt) /\ stdin s = [] /\
    at_line_start (stdout s) = true.
Proof.
  intros Hok. apply loop_well_formed; [|reflexivity|simpl; lia].
  intros pre l post Hin Hl Hc. apply (Hok pre l post Hin Hl).
  cbn [init count] in Hc. lia.
Qed.

Lemma formatter_reads_all_well_formed_witness :
  exists s,
    main ["<TaskSummaryLog>"; "<TaskSummaryLog> Other"] = Some (s, Done tt) /\
    stdin s = [] /\ at_line_start (stdout s) = true.
Proof.
  apply formatter_reads_all_well_formed.
  intros pre l post H Hl Hc.
  destruct pre as [|a [|b [|c pre]]]; cbn [List.app] in H.
  - exfalso. apply Hc. reflexivity.
  - injection H as <- <- <-. vm_compute. reflexivity.
  - injection H as _ _ H. discriminate.
  - injection H as _ _ H. discriminate.
Defined.

Lemma loop_shape (fuel : nat) :
  forall s,
    at_line_start (stdout s) = true ->
    (List.length (stdin s) < fuel)%nat ->
    exists s' t d,
      loop fuel s = Some (s', Done tt) /\ stdout s' = t ++ d /\
      at_line_start t = true /\
      (d = EmptyString \/ d = "     SUMMARY: " \/ d = "CONTEXT_SWITCH: ").
Proof.
  induction fuel as [|fuel IH]; intros s Hs Hlen; [lia|].
  unfold loop. cbn [while_true].
  destruct (stdin s) as [|l ls] eqn:Hin.
  - rewrite (fmt_body_eof s Hin). exists s, (stdout s), EmptyString.
    rewrite append_empty_r. repeat split; tauto.
  - destruct (body s) as [s1 o] eqn:Hb.
    destruct (fmt_body_line s l ls Hin) as (s1' & o' & Hb' & Hin1 & _ & _).
    rewrite Hb in Hb'. injection Hb' as <- <-.
    assert (Hnext : o <> Break ->
              exists s' t d,
                loop fuel s1 = Some (s', Done tt) /\ stdout s' = t ++ d /\
                at_line_start t = true /\
                (d = EmptyString \/ d = "     SUMMARY: " \/ d = "CONTEXT_SWITCH: ")).
    { intros Ho. apply IH; [exact (body_line_start s s1 o Hs Hb Ho)|].
      rewrite Hin1. simpl in Hlen. lia. }
    destruct o as [[]| | |e].
    + apply Hnext. discriminate.
    + apply Hnext. discriminate.
    + pose proof (fmt_body_kind s l ls Hin) as Hk. rewrite Hb in Hk.
      destruct (recognized l); [|discriminate].
      destruct (count s + 1 =? 1)%Z; [discriminate|].
      injection Hk as -> Hk. symmetry in Hk. apply outcome_breaks in Hk.
      exists (mkState ls (stdout s ++ emitted_text (kind_of l)) (count s + 1)),
        (stdout s), (emitted_text (kind_of l)).
      split; [reflexivity|]. split; [reflexivity|]. split; [exact Hs|].
      now apply breaks_dangling.
    + pose proof (try_break_outcome iteration s) as Hno.
      fold body in Hno. rewrite Hb in Hno. destruct Hno.
Qed.

(** X8. Whatever the input, the final output is made of complete
    lines, followed at most by one dangling "     SUMMARY: " or
    "CONTEXT_SWITCH: " written by the iteration that ended the loop. *)
Theorem formatter_output_shape (lines : list string) :
  exists s t d,
    main lines = Some (s, Done tt) /\ stdout s = t ++ d /\
    at_line_start t = true /\
    (d = EmptyString \/ d = "     SUMMARY: " \/ d = "CONTEXT_SWITCH: ").
Proof. apply loop_shape; [reflexivity | simpl; lia]. Qed.

End FormatterExtras.

(** * Further properties of the Detector *)

Module DetectorExtras.
Import Detector DetectorFacts.

(** One iteration is a dispatch on the kind of the line. *)
Lemma det_body_kind (s : state) (l : string) (ls : list string) :
  stdin s = l :: ls ->
  body s =
  match kind_of l with
  | Ignored =>
      (mkState ls (stdout s ++ [PLine l; PLineArray (split l)])
         (parent_task_dic s), Done tt)
  | Malformed =>
      (mkState ls (stdout s ++ [PLine l; PLineArray (split l)])
         (parent_task_dic s), Break)
  | CreationOf p =>
      (mkState ls
         (stdout s ++ [PLine l; PLineArray (split l); PParentTask p;
                       PDictLabel; PDict (dict_set p 0 (parent_task_dic s))])
         (dict_set p 0 (parent_task_dic s)), Done tt)
  | SchedulingOf t =>
      match dict_get t (parent_task_dic s) with
      | Some v =>
          (mkState ls
             (stdout s ++ [PLine l; PLineArray (split l);
                           PScheduledTask t; PUnexpected])
             (dict_set t (v + 1) (parent_task_dic s)), Done tt)
      | None =>
          (mkState ls
             (stdout s ++ [PLine l; PLineArray (split l);
                           PScheduledTask t; PNormal])
             (parent_task_dic s), Done tt)
      end
  end.
Proof.
  intros H. destruct s as [i out d]. cbn in H. subst i.
  unfold kind_of, kind_of_tokens.
  unfold body, try_except, iteration, bind, input, print_, modify.
  cbn [stdin stdout parent_task_dic].
  destruct (split l) as [|t0 ts]; [cbn; now rewrite <- app_assoc|].
  unfold item. change (nth_error (t0 :: ts) 0) with (Some t0).
  generalize (nth_error (t0 :: ts) 1), (nth_error (t0 :: ts) 2),
    (nth_error (t0 :: ts) 8).
  intros n1 n2 n8. cbn.
  destruct (t0 =? "SUMMARY:")%string; cbn.
  - destruct n1 as [t1|]; cbn; [|now rewrite <- app_assoc].
    destruct ((t1 =? "Continuation")%string || (t1 =? "Spawn")%string); cbn;
      [|now rewrite <- app_assoc].
    destruct n8 as [p|]; cbn; now rewrite <- !app_assoc.
  - destruct (t0 =? "CONTEXT_SWITCH:")%string; cbn; [|now rewrite <- app_assoc].
    destruct n2 as [name|]; cbn; [|now rewrite <- app_assoc].
    unfold try_except, dic_lookup. cbn.
    destruct (dict_get name d) as [v|]; cbn; now rewrite <- !app_assoc.
Qed.

Lemma is_creation_kind (P l : string) :
  is_creation P l =
  match kind_of l with
  | CreationOf p => (p =? P)%string
  | _ => false
  end.
Proof.
  unfold is_creation, token_is, token, kind_of, kind_of_tokens.
  destruct (split l) as [|t0 ts]; [reflexivity|].
  change (nth_error (t0 :: ts) 0) with (Some t0). cbv beta iota.
  destruct (t0 =? "SUMMARY:")%string; cbn [andb].
  - destruct (nth_error (t0 :: ts) 1) as [t1|]; [|reflexivity].
    destruct ((t1 =? "Continuation")%string || (t1 =? "Spawn")%string);
      cbn [andb]; [|reflexivity].
    now destruct (nth_error (t0 :: ts) 8).
  - destruct (t0 =? "CONTEXT_SWITCH:")%string; [|reflexivity].
    now destruct (nth_error (t0 :: ts) 2).
Qed.

Lemma is_scheduled_kind (P l : string) :
  is_scheduled P l =
  match kind_of l with
  | SchedulingOf t => (t =? P)%string
  | _ => false
  end.
Proof.
  unfold is_scheduled, token_is, token, kind_of, kind_of_tokens.
  destruct (split l) as [|t0 ts]; [reflexivity|].
  change (nth_error (t0 :: ts) 0) with (Some t0). cbv beta iota.
  destruct (String.eqb_spec t0 "SUMMARY:") as [->|Hs].
  - cbn [String.eqb Ascii.eqb Bool.eqb andb].
    destruct (nth_error ("SUMMARY:" :: ts) 1) as [t1|]; [|reflexivity].
    destruct ((t1 =? "Continuation")%string || (t1 =? "Spawn")%string);
      [|reflexivity].
    now destruct (nth_error ("SUMMARY:" :: ts) 8).
  - destruct (t0 =? "CONTEXT_SWITCH:")%string; cbn [andb]; [|reflexivity].
    now destruct (nth_error (t0 :: ts) 2).
Qed.

Lemma body_stdin (s : state) (l : string) (ls : list string) :
  stdin s = l :: ls ->
  stdin (fst (body s)) = ls /\
  (snd (body s) = Done tt \/ snd (body s) = Break) /\
  (snd (body s) = Break <-> malformed l = true).
Proof.
  intros Hin. rewrite (det_body_kind s l ls Hin). unfold malformed.
  destruct (kind_of l) as [| |p|t]; cbn [fst snd stdin].
  - split; [reflexivity|]. split; [now left|]. split; discriminate.
  - split; [reflexivity|]. split; [now right|]. now split.
  - split; [reflexivity|]. split; [now left|]. split; discriminate.
  - destruct (dict_get t (parent_task_dic s)); cbn [fst snd stdin];
      (split; [reflexivity|]; split; [now left|]; split; discriminate).
Qed.

(** A property of the lines read and the state, kept by every iteration,
    holds when the loop ends. *)
Lemma loop_invariant (I : list string -> state -> Prop) :
  (forall h s l ls,
     I h s -> stdin s = l :: ls -> I (h ++ [l])%list (fst (body s))) ->
  forall fuel s h,
    I h s -> (List.length (stdin s) < fuel)%nat ->
    exists s' read,
      loop fuel s = Some (s', Done tt) /\
      stdin s = (read ++ stdin s')%list /\ I (h ++ read)%list s'.
Proof.
  intros Hstep. induction fuel as [|fuel IH]; intros s h Hi Hlen; [lia|].
  unfold loop. cbn [while_true].
  destruct (stdin s) as [|l ls] eqn:Hin.
  - rewrite (det_body_eof s Hin). exists s, []. rewrite app_nil_r.
    cbn [List.app]. rewrite Hin. now repeat split.
  - pose proof (Hstep h s l ls Hi Hin) as Hi1.
    destruct (body_stdin s l ls Hin) as (Hin1 & Ho & _).
    destruct (body s) as [s1 o]. cbn [fst snd] in *.
    destruct Ho as [-> | ->].
    + destruct (IH s1 (h ++ [l])%list Hi1) as (s' & read & Hl & Happ & Hi');
        [rewrite Hin1; simpl in Hlen; lia|].
      exists s', (l :: read). split; [exact Hl|]. split.
      * cbn [List.app]. now rewrite <- Happ, Hin1.
      * now rewrite <- app_assoc in Hi'.
    + exists s1, [l]. split; [reflexivity|].
      split; [now rewrite Hin1 | exact Hi1].
Qed.

(** The script: the loop, then the final prints. *)
Lemma main_invariant (I : list string -> state -> Prop) (lines : list string) :
  I [] (init lines) ->
  (forall h s l ls,
     I h s -> stdin s = l :: ls -> I (h ++ [l])%list (fst (body s))) ->
  exists s1 read,
    main lines =
      Some (mkState (stdin s1) (stdout s1 ++ final_prints (parent_task_dic s1))
              (parent_task_dic s1), Done tt) /\
    lines = (read ++ stdin s1)%list /\ I read s1.
Proof.
  intros H0 Hstep.
  destruct (loop_invariant I Hstep (S (List.length lines)) (init lines) [] H0)
    as (s1 & read & Hl & Happ & Hi); [simpl; lia|].
  exists s1, read. unfold main. rewrite Hl.
  split; [|split; [exact Happ | exact Hi]].
  unfold epilogue, bind, print_, modify, gets, final_prints.
  cbn [stdin stdout parent_task_dic]. now rewrite <- !app_assoc.
Qed.

Lemma echoed_app (a b : list printed) :
  echoed (a ++ b) = (echoed a ++ echoed b)%list.
Proof.
  induction a as [|p a IH]; [reflexivity|].
  cbn [List.app echoed]. destruct p; rewrite IH; reflexivity.
Qed.

(** X9. The Detector echoes every line it reads, in order, and nothing
    else through [print(line)]: the echoed lines are the input without
    the lines left unread. After the loop it prints five empty lines and
    the final registry. *)
Theorem detector_echoes_input (lines : list string) :
  exists s loop_out,
    main lines = Some (s, Done tt) /\
    stdout s = (loop_out ++ final_prints (parent_task_dic s))%list /\
    lines = (echoed loop_out ++ stdin s)%list /\
    echoed (stdout s) = echoed loop_out.
Proof.
  destruct (main_invariant (fun h s => echoed (stdout s) = h) lines eq_refl)
    as (s1 & read & Hm & Happ & He).
  { intros h s l ls Hh Hin. rewrite (det_body_kind s l ls Hin).
    destruct (kind_of l) as [| |p|t];
      [| | |destruct (dict_get t (parent_task_dic s))];
      cbn [fst stdout]; rewrite echoed_app, Hh; reflexivity. }
  eexists. exists (stdout s1). split; [exact Hm|].
  cbn [stdin stdout parent_task_dic].
  split; [reflexivity|]. split; [now rewrite He|].
  rewrite echoed_app. cbn. now rewrite app_nil_r.
Qed.

(** *** The keys of the registry *)

Lemma keys_dict_set (k : string) (v : Z) (d : dict) :
  map fst (dict_set k v d) =
  if existsb (String.eqb k) (map fst d) then map fst d
  else (map fst d ++ [k])%list.
Proof.
  induction d as [|[k0 v0] d IH]; [reflexivity|].
  cbn [dict_set map fst existsb].
  rewrite (String.eqb_sym k k0).
  destruct (k0 =? k)%string; cbn [orb map fst]; [reflexivity|].
  rewrite IH. now destruct (existsb (String.eqb k) (map fst d)).
Qed.

Lemma existsb_filter_other (p x : string) (l : list string) :
  (x =? p)%string = false ->
  existsb (String.eqb p) (filter (fun y => negb (x =? y)%string) l)
  = existsb (String.eqb p) l.
Proof.
  intros Hx. induction l as [|y l IH]; [reflexivity|].
  cbn [filter existsb].
  destruct (String.eqb_spec x y) as [<-|Hxy]; cbn [negb existsb].
  - rewrite IH, (String.eqb_sym p x), Hx. reflexivity.
  - now rewrite IH.
Qed.

Lemma existsb_filter_same (x : string) (l : list string) :
  existsb (String.eqb x) (filter (fun y => negb (x =? y)%string) l) = false.
Proof.
  induction l as [|y l IH]; [reflexivity|].
  cbn [filter]. destruct (x =? y)%string eqn:E; cbn [negb existsb]; [exact IH|].
  now rewrite E, IH.
Qed.

Lemma existsb_distinct (p : string) (l : list string) :
  existsb (String.eqb p) (distinct l) = existsb (String.eqb p) l.
Proof.
  induction l as [|x l IH]; [reflexivity|].
  cbn [distinct existsb].
  destruct (String.eqb_spec p x) as [->|Hpx]; [reflexivity|].
  cbn [orb]. rewrite existsb_filter_other, IH; [reflexivity|].
  apply String.eqb_neq. congruence.
Qed.

Lemma distinct_snoc (l : list string) (p : string) :
  distinct (l ++ [p]) =
  if existsb (String.eqb p) l then distinct l else (distinct l ++ [p])%list.
Proof.
  induction l as [|x l IH]; [reflexivity|].
  cbn [List.app distinct existsb]. rewrite IH.
  destruct (String.eqb_spec p x) as [->|Hpx]; cbn [orb].
  - destruct (existsb (String.eqb x) l); [reflexivity|].
    rewrite filter_app. cbn [filter]. rewrite String.eqb_refl. cbn [negb].
    now rewrite app_nil_r.
  - destruct (existsb (String.eqb p) l); [reflexivity|].
    rewrite filter_app. cbn [filter].
    assert (E : (x =? p)%string = false) by (apply String.eqb_neq; congruence).
    rewrite E. reflexivity.
Qed.

Lemma NoDup_distinct (l : list string) : NoDup (distinct l).
Proof.
  induction l as [|x l IH]; [constructor|].
  cbn [distinct]. constructor.
  - intros Hin. apply filter_In in Hin as [_ Hx].
    now rewrite String.eqb_refl in Hx.
  - now apply NoDup_filter.
Qed.

Lemma dict_get_key (k : string) (d : dict) (v : Z) :
  dict_get k d = Some v -> existsb (String.eqb k) (map fst d) = true.
Proof.
  induction d as [|[k0 v0] d IH]; [discriminate|].
  cbn [dict_get map fst existsb]. rewrite (String.eqb_sym k k0).
  destruct (k0 =? k)%string; [reflexivity|]. exact IH.
Qed.

Lemma creation_parents_snoc (h : list string) (l : string) :
  creation_parents (h ++ [l]) =
  (creation_parents h
   ++ match kind_of l with CreationOf p => [p] | _ => [] end)%list.
Proof.
  induction h as [|x h IH]; cbn [List.app creation_parents].
  - destruct (kind_of l); reflexivity.
  - rewrite IH. now destruct (kind_of x).
Qed.

(** X10. The registry holds one entry for each distinct parent named by
    the creation lines read, in the order in which these parents first
    appeared; no key is ever removed or duplicated. *)
Theorem detector_registry_keys (lines : list string) :
  exists s read,
    main lines = Some (s, Done tt) /\
    lines = (read ++ stdin s)%list /\
    map fst (parent_task_dic s) = distinct (creation_parents read) /\
    NoDup (map fst (parent_task_dic s)).
Proof.
  destruct (main_invariant
              (fun h s => map fst (parent_task_dic s)
                          = distinct (creation_parents h)) lines eq_refl)
    as (s1 & read & Hm & Happ & Hk).
  { intros h s l ls Hh Hin. rewrite (det_body_kind s l ls Hin).
    rewrite creation_parents_snoc.
    destruct (kind_of l) as [| |p|t];
      [| | |destruct (dict_get t (parent_task_dic s)) as [v|] eqn:Hg];
      cbn [fst parent_task_dic]; rewrite ?app_nil_r; try exact Hh.
    - rewrite keys_dict_set, distinct_snoc, Hh, existsb_distinct. reflexivity.
    - rewrite keys_dict_set, (dict_get_key _ _ _ Hg). exact Hh. }
  eexists. exists read. split; [exact Hm|]. cbn [stdin parent_task_dic].
  split; [exact Happ|]. split; [exact Hk|]. rewrite Hk. apply NoDup_distinct.
Qed.

(** *** "NORMAL" messages *)

Lemma normal_for_app (P : string) (out : list printed) (p : printed)
    (block : list printed) :
  p <> PNormal ->
  normal_for P (out ++ p :: block) =
  normal_for P out + normal_for P (p :: block).
Proof.
  intros Hp. induction out as [|q out IH].
  - cbn [List.app]. simpl (normal_for P []). lia.
  - destruct out as [|q' out].
    + cbn [List.app].
      change (normal_for P (q :: p :: block))
        with (match q, p :: block with
              | PScheduledTask t, PNormal :: _ =>
                  (if (t =? P)%string then 1 else 0) + normal_for P (p :: block)
              | _, _ => normal_for P (p :: block)
              end).
      destruct q, p; try congruence; simpl; lia.
    + change (normal_for P ((q :: q' :: out) ++ p :: block))
        with (match q, q' :: (out ++ p :: block)%list with
              | PScheduledTask t, PNormal :: _ =>
                  (if (t =? P)%string then 1 else 0)
                  + normal_for P ((q' :: out) ++ p :: block)
              | _, _ => normal_for P ((q' :: out) ++ p :: block)
              end).
      change (normal_for P (q :: q' :: out))
        with (match q, q' :: out with
              | PScheduledTask t, PNormal :: _ =>
                  (if (t =? P)%string then 1 else 0)
                  + normal_for P (q' :: out)
              | _, _ => normal_for P (q' :: out)
              end).
      rewrite IH. destruct q, q'; lia.
Qed.

Lemma before_first_creation_snoc (P : string) (h : list string) (l : string) :
  before_first_creation P (h ++ [l]) =
  match after_first_creation P h with
  | Some _ => before_first_creation P h
  | None =>
      (before_first_creation P h ++ (if is_creation P l then [] else [l]))%list
  end.
Proof.
  induction h as [|x h IH];
    cbn [List.app before_first_creation after_first_creation].
  - now destruct (is_creation P l).
  - destruct (is_creation P x); [reflexivity|]. rewrite IH.
    now destruct (after_first_creation P h).
Qed.

Lemma scheduled_count_split (P : string) (h : list string) :
  scheduled_count P h =
  scheduled_count P (before_first_creation P h)
  + count_from (after_first_creation P h) P.
Proof.
  induction h as [|x h IH]; [reflexivity|].
  cbn [before_first_creation after_first_creation].
  destruct (is_creation P x) eqn:Hc.
  - cbn [count_from]. unfold scheduled_count. cbn [filter].
    rewrite (creation_not_scheduled P P x Hc). cbn. lia.
  - unfold scheduled_count in *. cbn [filter].
    destruct (is_scheduled P x); cbn [List.length]; lia.
Qed.

Lemma normal_step (h : list string) (s : state) (l : string)
    (ls : list string) (P : string) :
  tracks h s -> stdin s = l :: ls ->
  normal_for P (stdout s) = scheduled_count P (before_first_creation P h) ->
  normal_for P (stdout (fst (body s)))
  = scheduled_count P (before_first_creation P (h ++ [l])).
Proof.
  intros Ht Hin Hn.
  destruct (Ht P) as [Hd _].
  pose proof (after_last_first P h) as Hlf.
  rewrite before_first_creation_snoc.
  pose proof (is_creation_kind P l) as Hck.
  pose proof (is_scheduled_kind P l) as Hsk.
  rewrite (det_body_kind s l ls Hin).
  destruct (kind_of l) as [| |p|t].
  - cbn [fst stdout]. rewrite normal_for_app by discriminate.
    cbn [normal_for]. rewrite Hck.
    destruct (after_first_creation P h); [lia|].
    rewrite scheduled_count_snoc, Hsk. lia.
  - cbn [fst stdout]. rewrite normal_for_app by discriminate.
    cbn [normal_for]. rewrite Hck.
    destruct (after_first_creation P h); [lia|].
    rewrite scheduled_count_snoc, Hsk. lia.
  - cbn [fst stdout]. rewrite normal_for_app by discriminate.
    cbn [normal_for]. rewrite Hck.
    destruct (after_first_creation P h); [lia|].
    destruct (p =? P)%string; [rewrite app_nil_r; lia|].
    rewrite scheduled_count_snoc, Hsk. lia.
  - rewrite Hck.
    destruct (dict_get t (parent_task_dic s)) as [v|] eqn:Hg;
      cbn [fst stdout]; rewrite normal_for_app by discriminate;
      cbn [normal_for].
    + destruct (after_first_creation P h) as [suffix|] eqn:Haf; [lia|].
      rewrite scheduled_count_snoc, Hsk.
      destruct (String.eqb_spec t P) as [->|]; [|lia].
      exfalso. rewrite Hg in Hd.
      destruct (after_last_creation P h); [|discriminate].
      destruct Hlf as [_ Hlf]. discriminate (Hlf eq_refl).
    + destruct (after_first_creation P h) as [suffix|] eqn:Haf.
      * destruct (String.eqb_spec t P) as [->|]; [|lia].
        exfalso. rewrite Hg in Hd.
        destruct (after_last_creation P h); [discriminate|].
        destruct Hlf as [Hlf _]. discriminate (Hlf eq_refl).
      * rewrite scheduled_count_snoc, Hsk. lia.
Qed.

(** X11. Every scheduling line read gets exactly one verdict: the
    "NORMAL" messages printed for a task are its scheduling lines read
    before its first creation line (all of them when it is never a
    parent), and "UNEXPECTED" and "NORMAL" messages together are as many as
    its scheduling lines read. *)
Theorem detector_verdicts (lines : list string) :
  exists s read,
    main lines = Some (s, Done tt) /\
    lines = (read ++ stdin s)%list /\
    forall P,
      normal_for P (stdout s)
        = scheduled_count P (before_first_creation P read) /\
      unexpected_for P (stdout s) + normal_for P (stdout s)
        = scheduled_count P read.
Proof.
  destruct (main_invariant
              (fun h s =>
                 tracks h s /\
                 forall P, normal_for P (stdout s)
                           = scheduled_count P (before_first_creation P h))
              lines) as (s1 & read & Hm & Happ & Ht & Hn).
  { split; [apply tracks_init | reflexivity]. }
  { intros h s l ls [Ht Hn] Hin. split.
    - destruct (body s) as [s' o] eqn:Hb.
      exact (tracks_step h s s' l ls o Ht Hin Hb).
    - intros P. now apply (normal_step h s l ls P). }
  eexists. exists read. split; [exact Hm|]. cbn [stdin stdout].
  split; [exact Happ|]. intros P.
  unfold final_prints.
  rewrite normal_for_app, unexpected_for_app by discriminate.
  cbn [normal_for unexpected_for]. rewrite !Z.add_0_r.
  split; [apply Hn|].
  destruct (Ht P) as [_ Hu]. rewrite Hu, Hn.
  rewrite (scheduled_count_split P read). lia.
Qed.

(** *** Where the loop stops *)

Lemma malformed_tokens (l : string) :
  malformed l = true <->
  (token_is 0 l "SUMMARY:" = true /\
   (token 1 l = None \/
    ((token_is 1 l "Continuation" = true \/ token_is 1 l "Spawn" = true) /\
     token 8 l = None)))
  \/ (token_is 0 l "CONTEXT_SWITCH:" = true /\ token 2 l = None).
Proof.
  unfold malformed, kind_of, kind_of_tokens, token_is, token.
  destruct (split l) as [|t0 ts].
  { cbn. split; [discriminate|]. intros [[H _]|[H _]]; discriminate. }
  change (nth_error (t0 :: ts) 0) with (Some t0). cbv beta iota.
  destruct (String.eqb_spec t0 "SUMMARY:") as [->|Hs].
  - cbn [String.eqb Ascii.eqb Bool.eqb].
    destruct (nth_error ("SUMMARY:" :: ts) 1) as [t1|].
    + destruct (t1 =? "Continuation")%string, (t1 =? "Spawn")%string;
        cbn [orb];
        destruct (nth_error ("SUMMARY:" :: ts) 8);
        split; try discriminate; try tauto;
        try (intros [[_ [H|[[H|H] H']]]|[H _]]; discriminate).
    + split; [tauto | reflexivity].
  - destruct (t0 =? "CONTEXT_SWITCH:")%string.
    + destruct (nth_error (t0 :: ts) 2).
      * split; [discriminate|]. intros [[H _]|[_ H]]; discriminate.
      * split; [tauto | reflexivity].
    + split; [discriminate|]. intros [[H _]|[H _]]; discriminate.
Qed.

(** X12. An iteration ends the loop on a pending line exactly when the
    line starts with "SUMMARY:" and has no second token, or has
    "Continuation" or "Spawn" as second token and no token at index 8, or
    starts with "CONTEXT_SWITCH:" and has no token at index 2. The line
    has then been echoed and the registry is untouched. *)
Theorem detector_break_iff (s : state) (l : string) (ls : list string) :
  stdin s = l :: ls ->
  (snd (body s) = Break <->
   (token_is 0 l "SUMMARY:" = true /\
    (token 1 l = None \/
     ((token_is 1 l "Continuation" = true \/ token_is 1 l "Spawn" = true) /\
      token 8 l = None)))
   \/ (token_is 0 l "CONTEXT_SWITCH:" = true /\ token 2 l = None)) /\
  (snd (body s) = Break ->
   fst (body s) =
   mkState ls (stdout s ++ [PLine l; PLineArray (split l)]) (parent_task_dic s)).
Proof.
  intros Hin. split.
  - rewrite <- malformed_tokens. apply (body_stdin s l ls Hin).
  - rewrite (det_body_kind s l ls Hin).
    destruct (kind_of l) as [| |p|t];
      [| | |destruct (dict_get t (parent_task_dic s))];
      cbn [fst snd]; (discriminate || reflexivity).
Qed.

Lemma detector_break_iff_witness :
  snd (body (mkState ["SUMMARY: Spawn B (ID = 7)"; "next"] [] [])) = Break /\
  snd (body (mkState ["SUMMARY: Other"; "next"] [] [])) <> Break.
Proof.
  split.
  - apply (detector_break_iff (mkState ["SUMMARY: Spawn B (ID = 7)"; "next"] [] [])
             "SUMMARY: Spawn B (ID = 7)" ["next"] eq_refl).
    left. split; [vm_compute; reflexivity|]. right.
    split; [right|]; vm_compute; reflexivity.
  - intros H.
    destruct (detector_break_iff (mkState ["SUMMARY: Other"; "next"] [] [])
                "SUMMARY: Other" ["next"] eq_refl) as [[Hiff _] _].
    apply Hiff in H.
    destruct H as [[_ [H|[[H|H] _]]]|[H _]]; vm_compute in H; discriminate.
Defined.

Lemma loop_unread (fuel : nat) :
  forall s, (List.length (stdin s) < fuel)%nat ->
  exists s', loop fuel s = Some (s', Done tt) /\ stdin s' = unread (stdin s).
Proof.
  induction fuel as [|fuel IH]; intros s Hlen; [lia|].
  unfold loop. cbn [while_true].
  destruct (stdin s) as [|l ls] eqn:Hin.
  - rewrite (det_body_eof s Hin). exists s. now split.
  - destruct (body_stdin s l ls Hin) as (Hin1 & Ho & Hm).
    destruct (body s) as [s1 o]. cbn [fst snd unread] in *.
    destruct Ho as [-> | ->].
    + destruct (malformed l); [destruct Hm as [_ Hm]; discriminate (Hm eq_refl)|].
      destruct (IH s1) as (s' & Hl & Hs'); [rewrite Hin1; simpl in Hlen; lia|].
      exists s'. now rewrite Hs', Hin1.
    + destruct Hm as [Hm _]. rewrite (Hm eq_refl). now exists s1.
Qed.

Lemma main_unread (lines : list string) :
  exists s, main lines = Some (s, Done tt) /\ stdin s = unread lines.
Proof.
  destruct (loop_unread (S (List.length lines)) (init lines)) as (s1 & Hl & Hs);
    [simpl; lia|].
  unfold main. rewrite Hl.
  destruct (epilogue_spec s1) as (out & He & _). rewrite He.
  eexists. split; [reflexivity|]. exact Hs.
Qed.

Lemma unread_app_safe (a b : list string) :
  (forall x, In x a -> malformed x = false) -> unread (a ++ b) = unread b.
Proof.
  induction a as [|x a IH]; intros Ha; [reflexivity|].
  cbn [List.app unread]. rewrite (Ha x (or_introl eq_refl)).
  apply IH. intros y Hy. apply Ha. now right.
Qed.

(** X13. The Detector reads the input up to and including its first
    malformed line and leaves exactly the lines after it unread; without
    a malformed line it reads everything. *)
Theorem detector_unread (lines : list string) :
  exists s,
    main lines = Some (s, Done tt) /\ stdin s = unread lines /\
    ((forall l, In l lines -> malformed l = false) -> stdin s = []).
Proof.
  destruct (main_unread lines) as (s & Hm & Hs).
  exists s. split; [exact Hm|]. split; [exact Hs|].
  intros Hall. rewrite Hs.
  rewrite <- (app_nil_r lines). now rewrite unread_app_safe.
Qed.

Lemma detector_unread_witness :
  exists s,
    main ["noise"; "CONTEXT_SWITCH: Scheduled:"; "CONTEXT_SWITCH: Scheduled: P"]
      = Some (s, Done tt) /\
    stdin s = ["CONTEXT_SWITCH: Scheduled: P"].
Proof.
  destruct (detector_unread
              ["noise"; "CONTEXT_SWITCH: Scheduled:";
               "CONTEXT_SWITCH: Scheduled: P"]) as (s & Hm & Hs & _).
  exists s. split; [exact Hm|]. rewrite Hs. vm_compute. reflexivity.
Defined.

(** When nothing is left unread, the registry and the "UNEXPECTED"
    messages are those of the whole input. *)
Lemma main_tracks_all (lines : list string) :
  unread lines = [] ->
  exists s,
    main lines = Some (s, Done tt) /\
    forall P,
      dict_get P (parent_task_dic s)
        = option_map (scheduled_count P) (after_last_creation P lines) /\
      unexpected_for P (stdout s)
        = count_from (after_first_creation P lines) P.
Proof.
  intros Hun.
  destruct (loop_tracks (S (List.length lines)) (init lines) []
              (tracks_init lines) (Nat.lt_succ_diag_r _))
    as (s1 & read & Hl & Happ & Ht).
  destruct (loop_unread (S (List.length lines)) (init lines)) as (s1' & Hl' & Hs);
    [simpl; lia|].
  rewrite Hl in Hl'. injection Hl' as <-.
  cbn [init stdin] in Happ, Hs. rewrite Hs, Hun, app_nil_r in Happ. subst read.
  cbn [List.app] in Ht.
  destruct (epilogue_spec s1) as (out & He & Hout).
  unfold main. rewrite Hl, He. eexists. split; [reflexivity|].
  cbn [stdout parent_task_dic]. intros P. rewrite Hout. apply Ht.
Qed.

End DetectorExtras.

(** * Further properties of the two scripts in a pipe *)

Module PipelineExtras.

Lemma kind_tokens (l : string) :
  match Formatter.kind_of l with
  | Formatter.Creation tag new_task _ parent_task _ =>
      is_token tag = true /\ is_token new_task = true
      /\ is_token parent_task = true
  | Formatter.Scheduled t => is_token t = true
  | _ => True
  end.
Proof.
  unfold Formatter.kind_of, Formatter.kind_of_tokens.
  pose proof (nth_error_split_token l) as Htok.
  destruct (split l) as [|t0 ts]; [exact I|].
  destruct (t0 =? "<TaskSummaryLog>")%string; [|exact I].
  destruct (nth_error (t0 :: ts) 1) as [t1|]; [|exact I].
  destruct (t1 =? "T-case")%string.
  - destruct (nth_error (t0 :: ts) 2) as [t2|]; [|exact I].
    destruct (t2 =? "1.):")%string; [exact I|].
    destruct (nth_error (t0 :: ts) 3) as [t3|] eqn:H3; [|exact I].
    destruct (nth_error (t0 :: ts) 5) as [t5|] eqn:H5; [|exact I].
    destruct (nth_error (t0 :: ts) 8) as [t8|]; [|exact I].
    destruct (nth_error (t0 :: ts) 11) as [t11|] eqn:H11; [|exact I].
    destruct (nth_error (t0 :: ts) 14) as [t14|]; [|exact I].
    destruct (int_of_str (drop_last 1 t8)); [|exact I].
    destruct (int_of_str (drop_last 2 t14)); [|exact I].
    repeat split; eauto.
  - destruct (t1 =? "Scheduled:")%string; [|exact I].
    destruct (nth_error (t0 :: ts) 2) as [t2|] eqn:H2; [|exact I].
    eauto.
Qed.

Lemma lines_one (a : string) :
  contains nl_char a = false -> pipe_lines (a ++ nl ++ nl) = [a; EmptyString].
Proof.
  intros Ha. change (nl ++ nl) with (String nl_char nl).
  now rewrite pipe_lines_line.
Qed.

Lemma lines_two (a b : string) :
  contains nl_char a = false -> contains nl_char b = false ->
  pipe_lines (a ++ nl ++ b ++ nl ++ nl) = [a; b; EmptyString].
Proof.
  intros Ha Hb.
  change (a ++ nl ++ b ++ nl ++ nl)
    with (a ++ String nl_char (b ++ String nl_char nl)).
  now rewrite !pipe_lines_line.
Qed.

(** The text of a complete iteration, as lines. *)
Lemma emitted_text_lines (l : string) :
  Formatter.breaks (Formatter.kind_of l) = false ->
  pipe_lines (Formatter.emitted_text (Formatter.kind_of l))
  = Formatter.emitted_lines (Formatter.kind_of l).
Proof.
  intros Hb. pose proof (kind_tokens l) as Htok.
  destruct (Formatter.kind_of l) as [| | | | |tag c cid p pid|t|];
    try discriminate; try reflexivity.
  - destruct Htok as (Htag & Hc & Hp).
    cbn [Formatter.emitted_text Formatter.emitted_lines].
    destruct (String.eqb_spec tag "Spawn") as [->|Hs].
    + cbn [orb append].
      apply (lines_one ("     SUMMARY: "
                        ++ Formatter.creation_text "Spawn" c cid p pid)).
      now apply FormatterFacts.creation_text_one_line.
    + destruct (String.eqb_spec tag "Continuation") as [->|Hk].
      * cbn [orb append].
        apply (lines_one ("     SUMMARY: "
                          ++ Formatter.creation_text "Continuation" c cid p pid)).
        now apply FormatterFacts.creation_text_one_line.
      * cbn [orb].
        apply (lines_two "     SUMMARY: error1"
                 (Formatter.creation_text "continuation" c cid p pid));
          [reflexivity|].
        now apply FormatterFacts.creation_text_no_newline.
  - cbn [Formatter.emitted_text Formatter.emitted_lines].
    rewrite <- (lines_one ("CONTEXT_SWITCH: Scheduled: " ++ t)).
    + now rewrite !append_assoc.
    + rewrite contains_app, (no_space_no_newline t)
        by now apply is_token_no_space.
      reflexivity.
Qed.

(** What the Detector makes of these lines. *)
Lemma emitted_lines_kinds (l : string) :
  map Detector.kind_of (Formatter.emitted_lines (Formatter.kind_of l))
  = Pipeline.detector_kinds (Formatter.kind_of l).
Proof.
  pose proof (kind_tokens l) as Htok.
  destruct (Formatter.kind_of l) as [| | | | |tag c cid p pid|t|];
    try reflexivity.
  - destruct Htok as (Htag & Hc & Hp).
    cbn [Formatter.emitted_lines Pipeline.detector_kinds].
    destruct ((tag =? "Spawn")%string || (tag =? "Continuation")%string) eqn:E.
    + assert (Hm : Detector.kind_of
                     ("     SUMMARY: "
                      ++ Formatter.creation_text tag c cid p pid)
                   = Detector.CreationOf p).
      { unfold Detector.kind_of.
        rewrite (FormatterFacts.split_creation_text tag c cid p pid Htag Hc Hp).
        apply orb_true_iff in E as [E|E]; apply String.eqb_eq in E; subst tag;
          reflexivity. }
      cbn [map]. rewrite Hm. reflexivity.
    + assert (Hm : Detector.kind_of
                     (Formatter.creation_text "continuation" c cid p pid)
                   = Detector.Ignored).
      { unfold Detector.kind_of, Formatter.creation_text.
        change ("continuation" ++ " " ++ c ++ " (ID = " ++ str_of_int cid ++ ")"
                ++ " created by " ++ p ++ " (ID = " ++ str_of_int pid ++ ")")
          with ("continuation"
                ++ String " " (c ++ " (ID = " ++ str_of_int cid ++ ")"
                ++ " created by " ++ p ++ " (ID = " ++ str_of_int pid ++ ")")).
        rewrite split_token_space by reflexivity. reflexivity. }
      cbn [map]. rewrite Hm. reflexivity.
  - assert (Hm : Detector.kind_of ("CONTEXT_SWITCH: Scheduled: " ++ t)
                 = Detector.SchedulingOf t).
    { unfold Detector.kind_of.
      change ("CONTEXT_SWITCH: Scheduled: " ++ t)
        with (join " " ["CONTEXT_SWITCH:"; "Scheduled:"; t]).
      rewrite split_join; [reflexivity|].
      cbn [forallb]. now rewrite Htok. }
    cbn [Formatter.emitted_lines Pipeline.detector_kinds map].
    rewrite Hm. reflexivity.
Qed.

Lemma emitted_lines_safe (l L : string) :
  In L (Formatter.emitted_lines (Formatter.kind_of l)) ->
  Detector.malformed L = false.
Proof.
  intros HL. apply (in_map Detector.kind_of) in HL.
  rewrite emitted_lines_kinds in HL. unfold Detector.malformed.
  destruct (Formatter.kind_of l) as [| | | | |tag c cid p pid|t|];
    cbn [Pipeline.detector_kinds] in HL;
    try destruct ((tag =? "Spawn")%string || (tag =? "Continuation")%string);
    cbn [In] in HL;
    repeat (destruct HL as [<-|HL]; [reflexivity|]); destruct HL.
Qed.



Lemma safe_app (a b : list string) :
  (forall L, In L a -> Detector.malformed L = false) ->
  (forall L, In L b -> Detector.malformed L = false) ->
  forall L, In L (a ++ b) -> Detector.malformed L = false.
Proof. intros Ha Hb L HL. apply in_app_or in HL as [H|H]; auto. Qed.

(** The Formatter's loop keeps its output readable by the Detector: whole
    lines none of which is malformed for the Detector, then at most one
    dangling prefix. *)
Lemma loop_safe (fuel : nat) :
  forall s,
    at_line_start (Formatter.stdout s) = true ->
    (forall L, In L (pipe_lines (Formatter.stdout s)) ->
               Detector.malformed L = false) ->
    (List.length (Formatter.stdin s) < fuel)%nat ->
    exists s' t d,
      Formatter.loop fuel s = Some (s', Done tt) /\
      Formatter.stdout s' = t ++ d /\
      at_line_start t = true /\
      (forall L, In L (pipe_lines t) -> Detector.malformed L = false) /\
      (d = EmptyString \/ d = "     SUMMARY: " \/ d = "CONTEXT_SWITCH: ").
Proof.
  induction fuel as [|fuel IH]; intros s Hs Hsafe Hlen; [lia|].
  unfold Formatter.loop. cbn [while_true].
  destruct (Formatter.stdin s) as [|l ls] eqn:Hin.
  - rewrite (FormatterFacts.fmt_body_eof s Hin).
    exists s, (Formatter.stdout s), EmptyString.
    rewrite FormatterExtras.append_empty_r. repeat split; tauto.
  - destruct (Formatter.body s) as [s1 o] eqn:Hb.
    pose proof (FormatterExtras.fmt_body_kind s l ls Hin) as Hk. rewrite Hb in Hk.
    assert (Hnext :
      o <> Break ->
      (forall L, In L (pipe_lines (Formatter.stdout s1)) ->
                 Detector.malformed L = false) ->
      exists s' t d,
        Formatter.loop fuel s1 = Some (s', Done tt) /\
        Formatter.stdout s' = t ++ d /\
        at_line_start t = true /\
        (forall L, In L (pipe_lines t) -> Detector.malformed L = false) /\
        (d = EmptyString \/ d = "     SUMMARY: " \/ d = "CONTEXT_SWITCH: ")).
    { intros Ho Hsafe1. apply IH;
        [exact (FormatterFacts.body_line_start s s1 o Hs Hb Ho) | exact Hsafe1|].
      destruct (FormatterFacts.fmt_body_line s l ls Hin)
        as (s1' & o' & Hb' & Hin1 & _ & _).
      rewrite Hb in Hb'. injection Hb' as <- <-.
      rewrite Hin1. simpl in Hlen. lia. }
    destruct (Formatter.recognized l).
    + destruct (Formatter.count s + 1 =? 1)%Z.
      * injection Hk as -> ->. apply Hnext; [discriminate|].
        cbn [Formatter.stdout]. rewrite pipe_lines_app by exact Hs.
        apply safe_app; [exact Hsafe|].
        intros L HL. vm_compute in HL.
        destruct HL as [<-|[<-|[]]]; reflexivity.
      * destruct (Formatter.breaks (Formatter.kind_of l)) eqn:Hbr.
        -- injection Hk as -> ->.
           apply FormatterExtras.outcome_breaks in Hbr as Ho. rewrite Ho.
           exists (Formatter.mkState ls
                     (Formatter.stdout s
                      ++ Formatter.emitted_text (Formatter.kind_of l))
                     (Formatter.count s + 1)),
             (Formatter.stdout s),
             (Formatter.emitted_text (Formatter.kind_of l)).
           split; [reflexivity|]. split; [reflexivity|].
           split; [exact Hs|]. split; [exact Hsafe|].
           now apply FormatterExtras.breaks_dangling.
        -- assert (Ho : o <> Break).
           { injection Hk as _ ->. intros Ho.
             apply FormatterExtras.outcome_breaks in Ho. congruence. }
           assert (Hsafe1 : forall L, In L (pipe_lines (Formatter.stdout s1)) ->
                                      Detector.malformed L = false).
           { injection Hk as -> _. cbn [Formatter.stdout].
             rewrite pipe_lines_app by exact Hs.
             apply safe_app; [exact Hsafe|].
             rewrite (emitted_text_lines l Hbr). apply emitted_lines_safe. }
           specialize (Hnext Ho Hsafe1).
           destruct o as [[]| | |e]; try exact Hnext; try congruence.
           pose proof (try_break_outcome Formatter.iteration s) as Hno.
           fold Formatter.body in Hno. rewrite Hb in Hno. destruct Hno.
    + injection Hk as -> ->. apply Hnext; [discriminate | exact Hsafe].
Qed.

Lemma unread_single (L : string) : Detector.unread [L] = [].
Proof. cbn [Detector.unread]. now destruct (Detector.malformed L). Qed.

(** X15. Whatever the Formatter's input, the Detector run on the
    Formatter's output reads all of it: no complete output line is
    malformed for the Detector, and a dangling "     SUMMARY: " or
    "CONTEXT_SWITCH: " that ends the output can only end the Detector's
    loop on its last line. *)
Theorem pipeline_reads_everything (lines : list string) :
  exists fs ds,
    Formatter.main lines = Some (fs, Done tt) /\
    Pipeline.detect fs = Some (ds, Done tt) /\
    Detector.stdin ds = [].
Proof.
  destruct (loop_safe (S (List.length lines)) (Formatter.init lines))
    as (fs & t & d & Hl & Hout & Ht & Hsafe & Hd);
    [reflexivity | intros L [] | simpl; lia|].
  destruct (DetectorExtras.main_unread (pipe_lines (Formatter.stdout fs)))
    as (ds & Hm & Hs).
  exists fs, ds. split; [exact Hl|]. split; [exact Hm|].
  rewrite Hs, Hout, (pipe_lines_app t d Ht).
  rewrite (DetectorExtras.unread_app_safe _ _ Hsafe).
  destruct Hd as [-> | [-> | ->]];
    [reflexivity | apply unread_single | apply unread_single].
Qed.

(** *** A resumed parent, from the raw trace to the verdict *)

Lemma step_safe (s s1 : Formatter.state) (o : outcome unit) :
  at_line_start (Formatter.stdout s) = true ->
  (forall L, In L (pipe_lines (Formatter.stdout s)) ->
             Detector.malformed L = false) ->
  Formatter.body s = (s1, o) -> o <> Break ->
  at_line_start (Formatter.stdout s1) = true /\
  (forall L, In L (pipe_lines (Formatter.stdout s1)) ->
             Detector.malformed L = false).
Proof.
  intros Hs Hsafe Hb Ho.
  split; [exact (FormatterFacts.body_line_start s s1 o Hs Hb Ho)|].
  destruct (Formatter.stdin s) as [|l ls] eqn:Hin.
  { rewrite (FormatterFacts.fmt_body_eof s Hin) in Hb. now injection Hb as <- _. }
  pose proof (FormatterExtras.fmt_body_kind s l ls Hin) as Hk. rewrite Hb in Hk.
  destruct (Formatter.recognized l); [|now injection Hk as -> _].
  destruct (Formatter.count s + 1 =? 1)%Z.
  - injection Hk as -> _. cbn [Formatter.stdout].
    rewrite pipe_lines_app by exact Hs.
    apply safe_app; [exact Hsafe|].
    intros L HL. vm_compute in HL.
    destruct HL as [<-|[<-|[]]]; reflexivity.
  - injection Hk as -> ->. cbn [Formatter.stdout].
    assert (Hbr : Formatter.breaks (Formatter.kind_of l) = false).
    { destruct (Formatter.breaks (Formatter.kind_of l)) eqn:E; [|reflexivity].
      apply FormatterExtras.outcome_breaks in E. congruence. }
    rewrite pipe_lines_app by exact Hs.
    apply safe_app; [exact Hsafe|].
    rewrite (emitted_text_lines l Hbr). apply emitted_lines_safe.
Qed.

Lemma iterate_safe (n : nat) :
  forall s s',
    iterate n Formatter.body s = Some s' ->
    at_line_start (Formatter.stdout s) = true ->
    (forall L, In L (pipe_lines (Formatter.stdout s)) ->
               Detector.malformed L = false) ->
    forall L, In L (pipe_lines (Formatter.stdout s')) ->
              Detector.malformed L = false.
Proof.
  induction n as [|n IH]; intros s s' H Hs Hsafe.
  - now injection H as <-.
  - cbn [iterate] in H. destruct (Formatter.body s) as [s1 o] eqn:Hb.
    assert (Ho : o <> Break) by (intros ->; discriminate).
    destruct (step_safe s s1 o Hs Hsafe Hb Ho) as [Hs1 Hsafe1].
    destruct o as [[]| | |e]; try discriminate; now apply (IH s1 s').
Qed.

Lemma kind_recognized (l : string) :
  Formatter.kind_of l <> Formatter.Ignored -> Formatter.recognized l = true.
Proof.
  unfold Formatter.kind_of, Formatter.kind_of_tokens, Formatter.recognized.
  destruct (split l) as [|t0 ts]; [congruence|].
  destruct (t0 =? "<TaskSummaryLog>")%string; congruence.
Qed.

Lemma creation_line_kind (l tag c p : string) (cid pid : Z) :
  Formatter.kind_of l = Formatter.Creation tag c cid p pid ->
  tag = "Spawn" \/ tag = "Continuation" ->
  Detector.kind_of ("     SUMMARY: " ++ Formatter.creation_text tag c cid p pid)
  = Detector.CreationOf p.
Proof.
  intros Hk Htag. pose proof (kind_tokens l) as Htok. rewrite Hk in Htok.
  destruct Htok as (Ht & Hc & Hp). unfold Detector.kind_of.
  rewrite (FormatterFacts.split_creation_text tag c cid p pid Ht Hc Hp).
  destruct Htag as [-> | ->]; reflexivity.
Qed.

Lemma scheduling_line_kind (l t : string) :
  Formatter.kind_of l = Formatter.Scheduled t ->
  Detector.kind_of ("CONTEXT_SWITCH: Scheduled: " ++ t)
  = Detector.SchedulingOf t.
Proof.
  intros Hk. pose proof (kind_tokens l) as Htok. rewrite Hk in Htok.
  unfold Detector.kind_of.
  change ("CONTEXT_SWITCH: Scheduled: " ++ t)
    with (join " " ["CONTEXT_SWITCH:"; "Scheduled:"; t]).
  rewrite split_join; [reflexivity|]. cbn [forallb]. now rewrite Htok.
Qed.

(** X16. From the raw trace to the verdict: when the Formatter's input
    ends with a creation line (tag Spawn or Continuation) whose parent is
    P, followed by a scheduling line of P, both processed, then the
    Detector run on the Formatter's output reads all of it, ends with P at
    1 in its registry and has printed "UNEXPECTED" for P. *)
Theorem pipeline_flags_resumed_parent (pre : list string) (lc ls : string)
    (s : Formatter.state) (tag child P : string) (child_id parent_id : Z) :
  Formatter.reaches pre [lc; ls] = Some s ->
  Formatter.recognized_count pre <> 0 ->
  Formatter.kind_of lc = Formatter.Creation tag child child_id P parent_id ->
  tag = "Spawn" \/ tag = "Continuation" ->
  Formatter.kind_of ls = Formatter.Scheduled P ->
  exists fs ds,
    Formatter.main (pre ++ [lc; ls]) = Some (fs, Done tt) /\
    Formatter.stdin fs = [] /\
    Pipeline.detect fs = Some (ds, Done tt) /\
    Detector.stdin ds = [] /\
    Detector.dict_get P (Detector.parent_task_dic ds) = Some 1 /\
    1 <= Detector.unexpected_for P (Detector.stdout ds).
Proof.
  intros Hr Hn Hkc Htag Hks.
  destruct (FormatterFacts.reaches_state _ _ _ Hr) as [Hin Hc].
  assert (Hrc : Formatter.recognized lc = true)
    by (apply kind_recognized; rewrite Hkc; discriminate).
  assert (Hrs : Formatter.recognized ls = true)
    by (apply kind_recognized; rewrite Hks; discriminate).
  assert (Hc0 : Formatter.count s <> 0) by now rewrite Hc.
  assert (Hc1 : Formatter.count s + 1 <> 0)
    by (rewrite Hc; unfold Formatter.recognized_count; lia).
  pose proof (FormatterExtras.body_later_recognized s lc [ls] Hin Hrc Hc0) as Hb1.
  set (s1 := Formatter.mkState [ls]
               (Formatter.stdout s
                ++ Formatter.emitted_text (Formatter.kind_of lc))
               (Formatter.count s + 1)) in *.
  pose proof (FormatterExtras.body_later_recognized s1 ls [] eq_refl Hrs Hc1)
    as Hb2.
  set (s2 := Formatter.mkState []
               (Formatter.stdout s1
                ++ Formatter.emitted_text (Formatter.kind_of ls))
               (Formatter.count s1 + 1)) in *.
  assert (Ho1 : Formatter.outcome_of (Formatter.kind_of lc) = Done tt)
    by now rewrite Hkc.
  assert (Ho2 : Formatter.outcome_of (Formatter.kind_of ls) = Done tt)
    by now rewrite Hks.
  rewrite Ho1 in Hb1. rewrite Ho2 in Hb2.
  assert (Hmain : Formatter.main (pre ++ [lc; ls]) = Some (s2, Done tt)).
  { rewrite (FormatterExtras.main_from _ _ _ Hr).
    unfold Formatter.loop. cbn [while_true List.length].
    rewrite Hb1, Hb2. now rewrite (FormatterFacts.fmt_body_eof s2 eq_refl). }
  (* the lines of the output *)
  pose proof (FormatterFacts.reaches_line_start _ _ _ Hr) as Hs.
  assert (Hs1 : at_line_start (Formatter.stdout s1) = true)
    by (apply (FormatterFacts.body_line_start s s1 (Done tt) Hs Hb1);
        discriminate).
  assert (Hbc : Formatter.breaks (Formatter.kind_of lc) = false)
    by now rewrite Hkc.
  assert (Hbs : Formatter.breaks (Formatter.kind_of ls) = false)
    by now rewrite Hks.
  set (Lc := "     SUMMARY: "
             ++ Formatter.creation_text tag child child_id P parent_id).
  set (Ls := "CONTEXT_SWITCH: Scheduled: " ++ P).
  assert (Hlines : pipe_lines (Formatter.stdout s2)
                   = (pipe_lines (Formatter.stdout s)
                      ++ [Lc; EmptyString; Ls; EmptyString])%list).
  { subst s2 s1. cbn [Formatter.stdout].
    rewrite pipe_lines_app by exact Hs1.
    cbn [Formatter.stdout] in Hs1 |- *.
    rewrite pipe_lines_app by exact Hs.
    rewrite (emitted_text_lines lc Hbc), (emitted_text_lines ls Hbs), Hkc, Hks.
    cbn [Formatter.emitted_lines].
    assert (E : ((tag =? "Spawn")%string || (tag =? "Continuation")%string) = true)
      by (destruct Htag as [-> | ->]; reflexivity).
    rewrite E, <- app_assoc. reflexivity. }
  (* the Detector on these lines *)
  assert (Hsafe : forall L, In L (pipe_lines (Formatter.stdout s)) ->
                            Detector.malformed L = false).
  { apply (iterate_safe _ _ _ Hr); [reflexivity | intros L []]. }
  pose proof (creation_line_kind lc tag child P child_id parent_id Hkc Htag)
    as HkLc. fold Lc in HkLc.
  pose proof (scheduling_line_kind ls P Hks) as HkLs. fold Ls in HkLs.
  assert (HcLc : Detector.is_creation P Lc = true)
    by (rewrite DetectorExtras.is_creation_kind, HkLc; apply String.eqb_refl).
  assert (HcLs : Detector.is_creation P Ls = false)
    by now rewrite DetectorExtras.is_creation_kind, HkLs.
  assert (HsLs : Detector.is_scheduled P Ls = true)
    by (rewrite DetectorExtras.is_scheduled_kind, HkLs; apply String.eqb_refl).
  assert (Hun : Detector.unread (pipe_lines (Formatter.stdout s2)) = []).
  { rewrite Hlines, (DetectorExtras.unread_app_safe _ _ Hsafe).
    cbn [Detector.unread]. unfold Detector.malformed at 1. rewrite HkLc.
    change (Detector.malformed EmptyString) with false. cbv iota.
    unfold Detector.malformed at 1. rewrite HkLs. reflexivity. }
  destruct (DetectorExtras.main_tracks_all _ Hun) as (ds & Hdm & Hds).
  destruct (DetectorExtras.main_unread (pipe_lines (Formatter.stdout s2)))
    as (ds' & Hdm' & Hds').
  rewrite Hdm in Hdm'. injection Hdm' as <-.
  exists s2, ds. split; [exact Hmain|]. split; [reflexivity|].
  split; [exact Hdm|]. split; [now rewrite Hds', Hun|].
  destruct (Hds P) as [Hd Hu]. rewrite Hlines in Hd, Hu.
  set (H := pipe_lines (Formatter.stdout s)) in *.
  change (H ++ [Lc; EmptyString; Ls; EmptyString])%list
    with (H ++ ([Lc] ++ [EmptyString] ++ [Ls] ++ [EmptyString]))%list in Hd, Hu.
  rewrite !app_assoc in Hd, Hu.
  split.
  - rewrite Hd. rewrite !DetectorFacts.after_last_creation_snoc.
    change (Detector.is_creation P EmptyString) with false.
    rewrite HcLs, HcLc. cbn [option_map List.app].
    unfold Detector.scheduled_count. cbn [filter].
    change (Detector.is_scheduled P EmptyString) with false.
    now rewrite HsLs.
  - rewrite Hu. rewrite !DetectorFacts.after_first_creation_snoc.
    change (Detector.is_creation P EmptyString) with false.
    rewrite HcLc.
    destruct (Detector.after_first_creation P H) as [suffix|];
      cbn [Detector.count_from].
    + rewrite !DetectorFacts.scheduled_count_snoc.
      change (Detector.is_scheduled P EmptyString) with false.
      rewrite HsLs. unfold Detector.scheduled_count.
      destruct (Detector.is_scheduled P Lc); lia.
    + cbn [List.app]. unfold Detector.scheduled_count. cbn [filter].
      change (Detector.is_scheduled P EmptyString) with false.
      rewrite HsLs. cbn. lia.
Qed.

Lemma pipeline_flags_resumed_parent_witness :
  exists fs ds,
    Formatter.main
      ["<TaskSummaryLog> first";
       "<TaskSummaryLog> T-case 2.): Spawn x TaskB x x 7, x x TaskA x x 3).";
       "<TaskSummaryLog> Scheduled: TaskA"] = Some (fs, Done tt) /\
    Pipeline.detect fs = Some (ds, Done tt) /\
    Detector.dict_get "TaskA" (Detector.parent_task_dic ds) = Some 1 /\
    1 <= Detector.unexpected_for "TaskA" (Detector.stdout ds).
Proof.
  destruct (Formatter.reaches ["<TaskSummaryLog> first"]
      ["<TaskSummaryLog> T-case 2.): Spawn x TaskB x x 7, x x TaskA x x 3).";
       "<TaskSummaryLog> Scheduled: TaskA"]) as [s|] eqn:Hr;
    [|vm_compute in Hr; discriminate].
  destruct (pipeline_flags_resumed_parent ["<TaskSummaryLog> first"]
      "<TaskSummaryLog> T-case 2.): Spawn x TaskB x x 7, x x TaskA x x 3)."
      "<TaskSummaryLog> Scheduled: TaskA" s "Spawn" "TaskB" "TaskA" 7 3 Hr)
    as (fs & ds & Hm & _ & Hd & _ & Hg & Hu);
    [vm_compute; discriminate | vm_compute; reflexivity | now left
    | vm_compute; reflexivity |].
  exists fs, ds. split; [exact Hm|]. split; [exact Hd|].
  split; [exact Hg | exact Hu].
Defined.

End PipelineExtras.
